(** * Seed hypothesis search of the rugs.fun analysis scripts

    A shallow embedding of the parts of [seed_analysis_code.py]
    ([RugsTimeSeedAnalyzer]) and [analysis_tools.py] ([RugsDataAnalyzer])
    that load game records, enumerate hash(time, secret) candidates against
    the observed server seeds, and validate the surviving hypotheses on the
    games that follow the sample.

    Layout of the search in the source.  [brute_force_seed_generation]
    binds [sample = self.games[:sample_size]], [common_secrets] and
    [salt_formats]; the loops that read those four names (the extraction of
    timestamps and seeds, the enumeration, the validation and the final
    [return found_patterns]) are the statements that follow, printed in the
    source file under [run_quick_analysis].  The embedding takes the loops
    as one body, [search], whose free names are its arguments, and binds
    them in [brute_force_seed_generation] as the source does.

    Conventions.
    - A Python [str] is a Rocq [string] holding its UTF-8 code units, so
      [str.encode()] is the identity on the representation.
    - A game is the dict of one record; only the keys ['gameId'],
      ['timestamp'] and ['serverSeed'] are read, each modelled as an
      optional [str] ([None] when the key is absent).  [self.games] is a
      list of such records, and a data file holds them: one per line, or
      in one JSON array.  A file read whole may also hold [null], a
      boolean or a number, which [load_data] assigns to [self.games]
      before it fails on it; a file that holds a string or an object is
      not covered.
    - The master file of the collector is decoded to JSON values of any
      kind; what pandas does with the values of the columns is a
      parameter.
    - The hashlib digests, the [datetime] arithmetic and the binary64
      arithmetic of [float] are written out; what belongs to the machine
      the script runs on (the ISO-8601 parser of the installed Python, the
      local time zone, the JSON decoder) is a member of [Platform].
    - Exceptions are values of [result]; [print] appends a line to the
      output carried by the monad [M]. *)

From Stdlib Require Import ZArith List String Ascii Bool Lia Uint63.
From Stdlib Require Import DecimalString SpecFloat.
Import ListNotations.
Open Scope list_scope.
Open Scope string_scope.

(* ===================================================================== *)
(** * hashlib: MD5, SHA-1 and SHA-256 hex digests                         *)
(* ===================================================================== *)

(** 32-bit words are primitive integers kept below [2^32]; every addition
    and left rotation is masked back to 32 bits. *)
Module Hashlib.
Local Open Scope uint63_scope.

Definition mask32 : int := 0xFFFFFFFF.
Definition add32 (x y : int) : int := (x + y) land mask32.
Definition rotl32 (n x : int) : int :=
  ((x << n) lor (x >> (32 - n))) land mask32.
Definition rotr32 (n x : int) : int := rotl32 (32 - n) x.
Definition not32 (x : int) : int := x lxor mask32.

Definition bit (b : bool) (v : int) : int := if b then v else 0.

Definition byte_of_ascii (c : ascii) : int :=
  let '(Ascii b0 b1 b2 b3 b4 b5 b6 b7) := c in
  bit b0 1 + bit b1 2 + bit b2 4 + bit b3 8
  + bit b4 16 + bit b5 32 + bit b6 64 + bit b7 128.

(** [test_input.encode()] *)
Fixpoint encode (s : string) : list int :=
  match s with
  | EmptyString => []
  | String c r => byte_of_ascii c :: encode r
  end.

Fixpoint le_bytes (n : nat) (x : int) : list int :=
  match n with
  | O => []
  | S k => (x land 255) :: le_bytes k (x >> 8)
  end.

Definition be_bytes (n : nat) (x : int) : list int := rev (le_bytes n x).

Definition bit_length (m : list int) : int :=
  fold_left (fun n _ => n + 8) m 0.

(** Message padding: a [0x80] byte, zero bytes up to 56 modulo 64, then the
    bit length on eight bytes (big-endian for SHA, little-endian for MD5). *)
Definition pad (big_endian : bool) (m : list int) : list int :=
  let zeros := ((119 - (List.length m) mod 64) mod 64)%nat in
  m ++ 0x80 :: repeat 0 zeros
    ++ (if big_endian then be_bytes 8 (bit_length m)
        else le_bytes 8 (bit_length m)).

Fixpoint words_be (bs : list int) : list int :=
  match bs with
  | a :: b :: c :: d :: r =>
      ((a << 24) lor (b << 16) lor (c << 8) lor d) :: words_be r
  | _ => []
  end.

Fixpoint words_le (bs : list int) : list int :=
  match bs with
  | a :: b :: c :: d :: r =>
      ((d << 24) lor (c << 16) lor (b << 8) lor a) :: words_le r
  | _ => []
  end.

Fixpoint blocks (n : nat) (ws : list int) : list (list int) :=
  match n with
  | O => []
  | S k => firstn 16 ws :: blocks k (skipn 16 ws)
  end.

Definition blocks_of (ws : list int) : list (list int) :=
  blocks (Nat.div (List.length ws) 16) ws.

Definition hex_digit (x : int) : ascii :=
  let t (m : int) := negb (Uint63.eqb (x land m) 0) in
  (if t 8 then
     if t 4 then if t 2 then if t 1 then "f" else "e"
                 else if t 1 then "d" else "c"
     else if t 2 then if t 1 then "b" else "a"
          else if t 1 then "9" else "8"
   else
     if t 4 then if t 2 then if t 1 then "7" else "6"
                 else if t 1 then "5" else "4"
     else if t 2 then if t 1 then "3" else "2"
          else if t 1 then "1" else "0")%char.

Definition hex_byte (b : int) (rest : string) : string :=
  String (hex_digit (b >> 4)) (String (hex_digit b) rest).

(** [.hexdigest()]: two lower-case hex digits per digest byte. *)
Definition hexdigest (bs : list int) : string :=
  fold_right hex_byte EmptyString bs.

(** ** SHA-256 (FIPS 180-4) *)

Definition K256 : list int :=
  [0x428A2F98; 0x71374491; 0xB5C0FBCF; 0xE9B5DBA5;
   0x3956C25B; 0x59F111F1; 0x923F82A4; 0xAB1C5ED5;
   0xD807AA98; 0x12835B01; 0x243185BE; 0x550C7DC3;
   0x72BE5D74; 0x80DEB1FE; 0x9BDC06A7; 0xC19BF174;
   0xE49B69C1; 0xEFBE4786; 0x0FC19DC6; 0x240CA1CC;
   0x2DE92C6F; 0x4A7484AA; 0x5CB0A9DC; 0x76F988DA;
   0x983E5152; 0xA831C66D; 0xB00327C8; 0xBF597FC7;
   0xC6E00BF3; 0xD5A79147; 0x06CA6351; 0x14292967;
   0x27B70A85; 0x2E1B2138; 0x4D2C6DFC; 0x53380D13;
   0x650A7354; 0x766A0ABB; 0x81C2C92E; 0x92722C85;
   0xA2BFE8A1; 0xA81A664B; 0xC24B8B70; 0xC76C51A3;
   0xD192E819; 0xD6990624; 0xF40E3585; 0x106AA070;
   0x19A4C116; 0x1E376C08; 0x2748774C; 0x34B0BCB5;
   0x391C0CB3; 0x4ED8AA4A; 0x5B9CCA4F; 0x682E6FF3;
   0x748F82EE; 0x78A5636F; 0x84C87814; 0x8CC70208;
   0x90BEFFFA; 0xA4506CEB; 0xBEF9A3F7; 0xC67178F2].

(** The message schedule, newest word first: [w] starts as the reversed
    block and grows by [n] words. *)
Fixpoint schedule256 (n : nat) (w : list int) : list int :=
  match n with
  | O => w
  | S k =>
      let w2 := nth 1 w 0 in
      let w15 := nth 14 w 0 in
      let s0 := rotr32 7 w15 lxor rotr32 18 w15 lxor (w15 >> 3) in
      let s1 := rotr32 17 w2 lxor rotr32 19 w2 lxor (w2 >> 10) in
      schedule256 k (add32 (add32 s1 (nth 6 w 0)) (add32 s0 (nth 15 w 0)) :: w)
  end.

Definition state8 : Type :=
  (int * int * int * int * int * int * int * int)%type.

Definition round256 (st : state8) (kw : int * int) : state8 :=
  let '(a, b, c, d, e, f, g, h) := st in
  let S1 := rotr32 6 e lxor rotr32 11 e lxor rotr32 25 e in
  let ch := (e land f) lxor (not32 e land g) in
  let t1 := add32 (add32 (add32 h S1) (add32 ch (fst kw))) (snd kw) in
  let S0 := rotr32 2 a lxor rotr32 13 a lxor rotr32 22 a in
  let maj := (a land b) lxor (a land c) lxor (b land c) in
  (add32 t1 (add32 S0 maj), a, b, c, add32 d t1, e, f, g).

Definition compress256 (st : state8) (block : list int) : state8 :=
  let w := rev (schedule256 48 (rev block)) in
  let '(a, b, c, d, e, f, g, h) := fold_left round256 (combine K256 w) st in
  let '(a0, b0, c0, d0, e0, f0, g0, h0) := st in
  (add32 a0 a, add32 b0 b, add32 c0 c, add32 d0 d,
   add32 e0 e, add32 f0 f, add32 g0 g, add32 h0 h).

Definition init256 : state8 :=
  (0x6A09E667, 0xBB67AE85, 0x3C6EF372, 0xA54FF53A,
   0x510E527F, 0x9B05688C, 0x1F83D9AB, 0x5BE0CD19).

(** [hashlib.sha256(s.encode()).hexdigest()] *)
Definition sha256 (s : string) : string :=
  let '(a, b, c, d, e, f, g, h) :=
    fold_left compress256 (blocks_of (words_be (pad true (encode s)))) init256 in
  hexdigest (be_bytes 4 a ++ be_bytes 4 b ++ be_bytes 4 c ++ be_bytes 4 d
             ++ be_bytes 4 e ++ be_bytes 4 f ++ be_bytes 4 g ++ be_bytes 4 h).

(** ** SHA-1 (FIPS 180-4) *)

Fixpoint schedule1 (n : nat) (w : list int) : list int :=
  match n with
  | O => w
  | S k =>
      schedule1 k
        (rotl32 1 (nth 2 w 0 lxor nth 7 w 0 lxor nth 13 w 0 lxor nth 15 w 0)
         :: w)
  end.

Definition state5 : Type := (int * int * int * int * int)%type.

Definition round1 (f : int -> int -> int -> int) (k : int) (st : state5)
  (w : int) : state5 :=
  let '(a, b, c, d, e) := st in
  (add32 (add32 (add32 (rotl32 5 a) (f b c d)) (add32 e k)) w,
   a, rotl32 30 b, c, d).

Definition f_ch (b c d : int) : int := (b land c) lor (not32 b land d).
Definition f_parity (b c d : int) : int := b lxor c lxor d.
Definition f_maj (b c d : int) : int :=
  (b land c) lor (b land d) lor (c land d).

(** Eighty rounds in four groups of twenty, each with its function and
    constant. *)
Definition compress1 (st : state5) (block : list int) : state5 :=
  let w := rev (schedule1 64 (rev block)) in
  let s1 := fold_left (round1 f_ch 0x5A827999) (firstn 20 w) st in
  let s2 :=
    fold_left (round1 f_parity 0x6ED9EBA1) (firstn 20 (skipn 20 w)) s1 in
  let s3 :=
    fold_left (round1 f_maj 0x8F1BBCDC) (firstn 20 (skipn 40 w)) s2 in
  let '(a, b, c, d, e) :=
    fold_left (round1 f_parity 0xCA62C1D6) (skipn 60 w) s3 in
  let '(a0, b0, c0, d0, e0) := st in
  (add32 a0 a, add32 b0 b, add32 c0 c, add32 d0 d, add32 e0 e).

Definition init1 : state5 :=
  (0x67452301, 0xEFCDAB89, 0x98BADCFE, 0x10325476, 0xC3D2E1F0).

(** [hashlib.sha1(s.encode()).hexdigest()] *)
Definition sha1 (s : string) : string :=
  let '(a, b, c, d, e) :=
    fold_left compress1 (blocks_of (words_be (pad true (encode s)))) init1 in
  hexdigest (be_bytes 4 a ++ be_bytes 4 b ++ be_bytes 4 c ++ be_bytes 4 d
             ++ be_bytes 4 e).

(** ** MD5 (RFC 1321) *)

Definition state4 : Type := (int * int * int * int)%type.

(** Per round: index of the message word, additive constant
    [floor(2^32 * |sin(i + 1)|)], left rotation. *)
Definition T5_1 : list (nat * int * int) :=
  [(0%nat, 0xd76aa478, 7); (1%nat, 0xe8c7b756, 12);
   (2%nat, 0x242070db, 17); (3%nat, 0xc1bdceee, 22);
   (4%nat, 0xf57c0faf, 7); (5%nat, 0x4787c62a, 12);
   (6%nat, 0xa8304613, 17); (7%nat, 0xfd469501, 22);
   (8%nat, 0x698098d8, 7); (9%nat, 0x8b44f7af, 12);
   (10%nat, 0xffff5bb1, 17); (11%nat, 0x895cd7be, 22);
   (12%nat, 0x6b901122, 7); (13%nat, 0xfd987193, 12);
   (14%nat, 0xa679438e, 17); (15%nat, 0x49b40821, 22)].

Definition T5_2 : list (nat * int * int) :=
  [(1%nat, 0xf61e2562, 5); (6%nat, 0xc040b340, 9);
   (11%nat, 0x265e5a51, 14); (0%nat, 0xe9b6c7aa, 20);
   (5%nat, 0xd62f105d, 5); (10%nat, 0x02441453, 9);
   (15%nat, 0xd8a1e681, 14); (4%nat, 0xe7d3fbc8, 20);
   (9%nat, 0x21e1cde6, 5); (14%nat, 0xc33707d6, 9);
   (3%nat, 0xf4d50d87, 14); (8%nat, 0x455a14ed, 20);
   (13%nat, 0xa9e3e905, 5); (2%nat, 0xfcefa3f8, 9);
   (7%nat, 0x676f02d9, 14); (12%nat, 0x8d2a4c8a, 20)].

Definition T5_3 : list (nat * int * int) :=
  [(5%nat, 0xfffa3942, 4); (8%nat, 0x8771f681, 11);
   (11%nat, 0x6d9d6122, 16); (14%nat, 0xfde5380c, 23);
   (1%nat, 0xa4beea44, 4); (4%nat, 0x4bdecfa9, 11);
   (7%nat, 0xf6bb4b60, 16); (10%nat, 0xbebfbc70, 23);
   (13%nat, 0x289b7ec6, 4); (0%nat, 0xeaa127fa, 11);
   (3%nat, 0xd4ef3085, 16); (6%nat, 0x04881d05, 23);
   (9%nat, 0xd9d4d039, 4); (12%nat, 0xe6db99e5, 11);
   (15%nat, 0x1fa27cf8, 16); (2%nat, 0xc4ac5665, 23)].

Definition T5_4 : list (nat * int * int) :=
  [(0%nat, 0xf4292244, 6); (7%nat, 0x432aff97, 10);
   (14%nat, 0xab9423a7, 15); (5%nat, 0xfc93a039, 21);
   (12%nat, 0x655b59c3, 6); (3%nat, 0x8f0ccc92, 10);
   (10%nat, 0xffeff47d, 15); (1%nat, 0x85845dd1, 21);
   (8%nat, 0x6fa87e4f, 6); (15%nat, 0xfe2ce6e0, 10);
   (6%nat, 0xa3014314, 15); (13%nat, 0x4e0811a1, 21);
   (4%nat, 0xf7537e82, 6); (11%nat, 0xbd3af235, 10);
   (2%nat, 0x2ad7d2bb, 15); (9%nat, 0xeb86d391, 21)].

Definition round5 (f : int -> int -> int -> int) (block : list int)
  (st : state4) (gks : nat * int * int) : state4 :=
  let '(a, b, c, d) := st in
  let '(g, k, s) := gks in
  let x := add32 (add32 (f b c d) a) (add32 k (nth g block 0)) in
  (d, add32 b (rotl32 s x), b, c).

Definition md5_F (b c d : int) : int := (b land c) lor (not32 b land d).
Definition md5_G (b c d : int) : int := (d land b) lor (not32 d land c).
Definition md5_H (b c d : int) : int := b lxor c lxor d.
Definition md5_I (b c d : int) : int := c lxor (b lor not32 d).

Definition compress5 (st : state4) (block : list int) : state4 :=
  let s1 := fold_left (round5 md5_F block) T5_1 st in
  let s2 := fold_left (round5 md5_G block) T5_2 s1 in
  let s3 := fold_left (round5 md5_H block) T5_3 s2 in
  let '(a, b, c, d) := fold_left (round5 md5_I block) T5_4 s3 in
  let '(a0, b0, c0, d0) := st in
  (add32 a0 a, add32 b0 b, add32 c0 c, add32 d0 d).

Definition init5 : state4 :=
  (0x67452301, 0xefcdab89, 0x98badcfe, 0x10325476).

(** [hashlib.md5(s.encode()).hexdigest()] *)
Definition md5 (s : string) : string :=
  let '(a, b, c, d) :=
    fold_left compress5 (blocks_of (words_le (pad false (encode s)))) init5 in
  hexdigest (le_bytes 4 a ++ le_bytes 4 b ++ le_bytes 4 c ++ le_bytes 4 d).

End Hashlib.

(* ===================================================================== *)
(** * Python builtins used by the scripts                                *)
(* ===================================================================== *)

Module Py.

(** ** Exceptions and output *)

Inductive exn : Type :=
  | ValueError
  | IndexError
  | OverflowError
  | TypeError.

Inductive result (A : Type) : Type :=
  | Ok (a : A)
  | Raise (e : exn).

Arguments Ok {A} a.
Arguments Raise {A} e.

Definition rbind {A B : Type} (r : result A) (f : A -> result B) : result B :=
  match r with
  | Ok a => f a
  | Raise e => Raise e
  end.

Definition is_ok {A : Type} (r : result A) : bool :=
  match r with
  | Ok _ => true
  | Raise _ => false
  end.

(** A computation prints lines and then returns or raises. *)
Definition M (A : Type) : Type := (list string * result A)%type.

Definition ret {A : Type} (a : A) : M A := ([], Ok a).

Definition bind {A B : Type} (m : M A) (f : A -> M B) : M B :=
  match m with
  | (out, Ok a) => let (out', r) := f a in ((out ++ out')%list, r)
  | (out, Raise e) => (out, Raise e)
  end.

Definition print (line : string) : M unit := ([line], Ok tt).

Definition lift {A : Type} (r : result A) : M A := ([], r).

Definition stdout {A : Type} (m : M A) : list string := fst m.

Definition outcome {A : Type} (m : M A) : result A := snd m.

(** [for x in l: body] where each iteration appends to one list: the
    appended items are collected in order. *)
Fixpoint for_each {A B : Type} (l : list A) (body : A -> M (list B))
  : M (list B) :=
  match l with
  | [] => ret []
  | x :: r =>
      bind (body x) (fun ys =>
      bind (for_each r body) (fun zs => ret (ys ++ zs)%list))
  end.

(** [for x in l: body] where the body updates local counters. *)
Fixpoint for_fold {A S : Type} (l : list A) (body : A -> S -> M S) (s : S)
  : M S :=
  match l with
  | [] => ret s
  | x :: r => bind (body x s) (for_fold r body)
  end.

(** ** Strings *)

(** [s.startswith(p)] *)
Definition startswith (s p : string) : bool := String.prefix p s.

(** [s[:n]] *)
Fixpoint take (n : nat) (s : string) : string :=
  match n, s with
  | S k, String c r => String c (take k r)
  | _, _ => EmptyString
  end.

(** [sub in s] *)
Fixpoint contains (sub s : string) : bool :=
  String.prefix sub s
  || match s with
     | EmptyString => false
     | String _ r => contains sub r
     end.

(** [bool(s)]: a string is falsy exactly when it is empty. *)
Definition truthy (s : string) : bool :=
  match s with
  | EmptyString => false
  | String _ _ => true
  end.

(** [str(z)] for an [int]. *)
Definition str (z : Z) : string := NilZero.string_of_int (Z.to_int z).

(** [str(z).zfill(width)] for [0 <= z]: the zero padding of [%m], [%d],
    [%H], [%M], [%S] (width 2) and [%Y] (width 4). *)
Definition zfill (width : nat) (z : Z) : string :=
  let s := str z in
  string_of_list_ascii (repeat "0"%char (width - String.length s)) ++ s.

(** [template.format(arg)] with one positional argument.  Literal text is
    copied, [{{] and [}}] stand for a brace, and the automatic field [{}]
    is replaced by the argument; a second [{}] has no argument left
    ([IndexError]).  Numbered or named fields, conversions and format
    specs do not occur in the templates of the scripts and are not
    modelled: they fall under the lone-brace case. *)
Fixpoint format_from (used : bool) (template arg : string) : result string :=
  match template with
  | EmptyString => Ok EmptyString
  | String "{" (String "{" r) =>
      rbind (format_from used r arg) (fun s => Ok (String "{" s))
  | String "{" (String "}" r) =>
      if used then Raise IndexError
      else rbind (format_from true r arg) (fun s => Ok (arg ++ s))
  | String "{" _ => Raise ValueError
  | String "}" (String "}" r) =>
      rbind (format_from used r arg) (fun s => Ok (String "}" s))
  | String "}" _ => Raise ValueError
  | String c r => rbind (format_from used r arg) (fun s => Ok (String c s))
  end.

Definition format (template arg : string) : result string :=
  format_from false template arg.

(** ** Lists *)

(** [enumerate(l)] *)
Definition enumerate {A : Type} (l : list A) : list (nat * A) :=
  combine (seq 0 (List.length l)) l.

(** Slice bounds as [PySlice_AdjustIndices] computes them for step 1: a
    negative bound counts from the end, and both are clipped to
    [0 .. len]. *)
Definition adjust_index (len i : Z) : Z :=
  if (i <? 0)%Z then Z.max (i + len) 0 else Z.min i len.

(** The positions selected by [l[start:stop]]. *)
Definition slice_indices {A : Type} (l : list A) (start stop : option Z)
  : list nat :=
  let len := Z.of_nat (List.length l) in
  let lo := match start with Some i => adjust_index len i | None => 0%Z end in
  let hi := match stop with Some j => adjust_index len j | None => len end in
  seq (Z.to_nat lo) (Z.to_nat (hi - lo)).

(** [l[start:stop]] *)
Definition slice {A : Type} (l : list A) (start stop : option Z) : list A :=
  flat_map (fun i => match nth_error l i with Some x => [x] | None => [] end)
           (slice_indices l start stop).

(** ** Numbers *)

(** A [float] is an IEEE 754 binary64 value; every operation rounds its
    exact result to nearest, ties to even. *)
Definition float : Type := spec_float.
Definition prec : Z := 53.
Definition emax : Z := 1024.

(** [float(z)] *)
Definition float_of_int (z : Z) : float := binary_normalize prec emax z 0 false.

Definition fadd (x y : float) : float := SFadd prec emax x y.
Definition fmul (x y : float) : float := SFmul prec emax x y.
Definition fdiv (x y : float) : float := SFdiv prec emax x y.

Definition exact_int (z : Z) : float :=
  match z with
  | Z0 => S754_zero false
  | Zpos p => S754_finite false p 0
  | Zneg p => S754_finite true p 0
  end.

(** [a / b] for two [int]s with [b <> 0]: the exact quotient, rounded
    once. *)
Definition int_truediv (a b : Z) : float :=
  SFdiv prec emax (exact_int a) (exact_int b).

(** [int(x)]: truncation toward zero; infinities and NaN raise. *)
Definition int_of_float (x : float) : result Z :=
  match x with
  | S754_zero _ => Ok 0%Z
  | S754_finite s m e =>
      let v := if (0 <=? e)%Z then Z.shiftl (Zpos m) e
               else Z.shiftr (Zpos m) (- e) in
      Ok (if s then (- v)%Z else v)
  | S754_infinity _ => Raise OverflowError
  | S754_nan => Raise ValueError
  end.

(** The value of a [success_rate] entry: the [int] [0] or a [float]. *)
Inductive number : Type :=
  | PyInt (z : Z)
  | PyFloat (x : float).

(** [v * 100] *)
Definition times100 (v : number) : number :=
  match v with
  | PyInt z => PyInt (z * 100)
  | PyFloat x => PyFloat (fmul x (float_of_int 100))
  end.

(** The integer nearest to [m * 2^e], ties to even. *)
Definition round_half_even (m e : Z) : Z :=
  if (0 <=? e)%Z then Z.shiftl m e
  else
    let d := Z.shiftl 1 (- e) in
    let q := (m / d)%Z in
    let r := (m mod d)%Z in
    match (2 * r ?= d)%Z with
    | Lt => q
    | Gt => (q + 1)%Z
    | Eq => if Z.even q then q else (q + 1)%Z
    end.

(** [f"{x:.2f}"] *)
Definition format_2f (x : float) : string :=
  let sign (s : bool) := if s then "-" else "" in
  match x with
  | S754_zero s => sign s ++ "0.00"
  | S754_finite s m e =>
      let n := round_half_even (Zpos m * 100) e in
      sign s ++ str (n / 100) ++ "." ++ zfill 2 (n mod 100)
  | S754_infinity s => sign s ++ "inf"
  | S754_nan => "nan"
  end.

Definition format_2f_number (v : number) : string :=
  match v with
  | PyInt z => format_2f (float_of_int z)
  | PyFloat x => format_2f x
  end.

End Py.

(* ===================================================================== *)
(** * datetime                                                            *)
(* ===================================================================== *)

Module Datetime.
Import Py.
Local Open Scope Z_scope.

(** A [datetime.datetime] object.  [utcoffset] is [None] for a naive
    object and the offset east of UTC, in microseconds, for an aware one. *)
Record datetime : Type := {
  year : Z;
  month : Z;
  day : Z;
  hour : Z;
  minute : Z;
  second : Z;
  microsecond : Z;
  utcoffset : option Z
}.

(** What the installation provides: the ISO-8601 parser
    ([datetime.fromisoformat], [None] for the [ValueError] it raises on a
    string it does not accept) and the conversion of a naive local time to
    seconds since the epoch ([None] when the C library cannot represent
    it, which surfaces as [OverflowError]). *)
Class Platform : Type := {
  fromisoformat : string -> option datetime;
  local_to_seconds : datetime -> option Z
}.

(** The [strftime] directives the scripts use. *)
Inductive directive : Type := dY | dm | dd | dH | dM | dS.

Definition strftime_field (dt : datetime) (d : directive) : string :=
  match d with
  | dY => zfill 4 (year dt)
  | dm => zfill 2 (month dt)
  | dd => zfill 2 (day dt)
  | dH => zfill 2 (hour dt)
  | dM => zfill 2 (minute dt)
  | dS => zfill 2 (second dt)
  end.

(** [dt.strftime(fmt)] for a format made of directives only. *)
Definition strftime (fmt : list directive) (dt : datetime) : string :=
  String.concat "" (map (strftime_field dt) fmt).

Definition is_leap (y : Z) : bool :=
  (y mod 4 =? 0) && (negb (y mod 100 =? 0) || (y mod 400 =? 0)).

Definition days_before_year (y : Z) : Z :=
  let p := y - 1 in
  p * 365 + p / 4 - p / 100 + p / 400.

Definition days_before_month (y m : Z) : Z :=
  nth (Z.to_nat m) [0; 0; 31; 59; 90; 120; 151; 181; 212; 243; 273; 304; 334] 0
  + (if (2 <? m) && is_leap y then 1 else 0).

Definition days_in_month (y m : Z) : Z :=
  if (m =? 2) && is_leap y then 29
  else nth (Z.to_nat m) [0; 31; 28; 31; 30; 31; 30; 31; 31; 30; 31; 30; 31] 0.

(** Proleptic Gregorian ordinal, day 1 being 0001-01-01. *)
Definition ymd2ord (y m d : Z) : Z :=
  days_before_year y + days_before_month y m + d.

(** Seconds from 1970-01-01T00:00:00 to the wall-clock reading of [dt]. *)
Definition wall_seconds (dt : datetime) : Z :=
  (ymd2ord (year dt) (month dt) (day dt) - 719163) * 86400
  + hour dt * 3600 + minute dt * 60 + second dt.

(** [dt.timestamp()].  An aware object gives
    [(dt - epoch).total_seconds()], the microsecond count divided by
    [10**6]; a naive one gives the local seconds plus
    [microsecond / 1e6]. *)
Definition timestamp `{Platform} (dt : datetime) : result float :=
  match utcoffset dt with
  | Some offset =>
      Ok (int_truediv (wall_seconds dt * 1000000 + microsecond dt - offset)
                      1000000)
  | None =>
      match local_to_seconds dt with
      | Some s =>
          Ok (fadd (float_of_int s)
                   (fdiv (float_of_int (microsecond dt))
                         (float_of_int 1000000)))
      | None => Raise OverflowError
      end
  end.

(** ** A concrete installation

    The parser below accepts exactly the strings that
    [datetime.isoformat()] writes for a naive object,
    [YYYY-MM-DDTHH:MM:SS] with an optional [.ffffff], and the local time
    zone is UTC. *)

Definition digit_value (c : ascii) : option Z :=
  let n := Z.of_N (N_of_ascii c) in
  if (48 <=? n) && (n <=? 57) then Some (n - 48) else None.

Fixpoint digits_value (acc : Z) (s : string) : option Z :=
  match s with
  | EmptyString => Some acc
  | String c r =>
      match digit_value c with
      | Some d => digits_value (acc * 10 + d) r
      | None => None
      end
  end.

(** A field of exactly [n] decimal digits followed by [rest]. *)
Definition fixed_digits (n : nat) (s : string) : option (Z * string) :=
  let field := substring 0 n s in
  if Nat.eqb (String.length field) n then
    match digits_value 0 field with
    | Some v => Some (v, substring n (String.length s - n) s)
    | None => None
    end
  else None.

Definition expect (c : ascii) (s : string) : option string :=
  match s with
  | String c' r => if Ascii.eqb c c' then Some r else None
  | EmptyString => None
  end.

Definition obind {A B : Type} (o : option A) (f : A -> option B) : option B :=
  match o with
  | Some a => f a
  | None => None
  end.

Definition valid_fields (y m d hh mm ss : Z) : bool :=
  (1 <=? y) && (y <=? 9999) && (1 <=? m) && (m <=? 12)
  && (1 <=? d) && (d <=? days_in_month y m)
  && (hh <? 24) && (mm <? 60) && (ss <? 60).

Definition isoformat_parse (s : string) : option datetime :=
  obind (fixed_digits 4 s) (fun '(y, s) =>
  obind (expect "-" s) (fun s =>
  obind (fixed_digits 2 s) (fun '(m, s) =>
  obind (expect "-" s) (fun s =>
  obind (fixed_digits 2 s) (fun '(d, s) =>
  obind (expect "T" s) (fun s =>
  obind (fixed_digits 2 s) (fun '(hh, s) =>
  obind (expect ":" s) (fun s =>
  obind (fixed_digits 2 s) (fun '(mm, s) =>
  obind (expect ":" s) (fun s =>
  obind (fixed_digits 2 s) (fun '(ss, s) =>
  obind (match s with
         | EmptyString => Some 0
         | String "." f =>
             obind (fixed_digits 6 f) (fun '(us, r) =>
             match r with EmptyString => Some us | _ => None end)
         | _ => None
         end) (fun us =>
  if valid_fields y m d hh mm ss then
    Some {| year := y; month := m; day := d; hour := hh; minute := mm;
            second := ss; microsecond := us; utcoffset := None |}
  else None)))))))))))).

Definition utc_platform : Platform := {|
  fromisoformat := isoformat_parse;
  local_to_seconds := fun dt => Some (wall_seconds dt)
|}.

End Datetime.

(* ===================================================================== *)
(** * RugsTimeSeedAnalyzer: the search                                    *)
(* ===================================================================== *)

Import Py.
Import Datetime.

Notation "x <- m ;; k" := (Py.bind m (fun x => k))
  (at level 61, m at next level, right associativity).
Notation "m ;;; k" := (Py.bind m (fun _ => k))
  (at level 61, right associativity).

(** One game record. *)
Record game : Type := {
  gameId : option string;
  timestamp : option string;
  serverSeed : option string
}.

(** The keys of the [time_formats] dict. *)
Inductive time_key : Type :=
  | tf_epoch | tf_epoch_ms | tf_date | tf_time | tf_datetime
  | tf_year | tf_month | tf_day | tf_hour | tf_minute | tf_second
  | tf_microsecond | tf_game_id.

Definition time_key_name (k : time_key) : string :=
  match k with
  | tf_epoch => "epoch"
  | tf_epoch_ms => "epoch_ms"
  | tf_date => "date"
  | tf_time => "time"
  | tf_datetime => "datetime"
  | tf_year => "year"
  | tf_month => "month"
  | tf_day => "day"
  | tf_hour => "hour"
  | tf_minute => "minute"
  | tf_second => "second"
  | tf_microsecond => "microsecond"
  | tf_game_id => "game_id"
  end.

(** The values of ['hash_type'] and ['match_type']. *)
Inductive hash_alg : Type := MD5 | SHA1 | SHA256.
Inductive match_kind : Type := exact | partial_16.

Definition hash_alg_name (h : hash_alg) : string :=
  match h with
  | MD5 => "md5"
  | SHA1 => "sha1"
  | SHA256 => "sha256"
  end.

Definition match_kind_name (k : match_kind) : string :=
  match k with
  | exact => "exact"
  | partial_16 => "partial_16"
  end.

(** An entry of [found_patterns]. *)
Record pattern : Type := {
  p_index : nat;
  p_seed : string;
  p_time_format : time_key;
  p_secret : string;
  p_salt_format : string;
  p_input : string;
  p_hash_type : hash_alg;
  p_match_type : match_kind
}.

(** The enumeration tables. *)
Record tables : Type := {
  common_secrets : list string;
  salt_formats : list string
}.

(** The key of [pattern_groups] and [validation_results]:
    [(time_format, secret, salt_format, hash_type, match_type)]. *)
Definition group_key : Type :=
  (time_key * string * string * hash_alg * match_kind)%type.

(** An entry of [validation_results]. *)
Record validation_result : Type := {
  matches : nat;
  total : nat;
  success_rate : number
}.

Definition time_key_eqb (a b : time_key) : bool :=
  String.eqb (time_key_name a) (time_key_name b).

Definition hash_alg_eqb (a b : hash_alg) : bool :=
  match a, b with
  | MD5, MD5 | SHA1, SHA1 | SHA256, SHA256 => true
  | _, _ => false
  end.

Definition match_kind_eqb (a b : match_kind) : bool :=
  match a, b with
  | exact, exact | partial_16, partial_16 => true
  | _, _ => false
  end.

Definition group_key_eqb (a b : group_key) : bool :=
  let '(tf, secret, salt_format, h, k) := a in
  let '(tf', secret', salt_format', h', k') := b in
  time_key_eqb tf tf' && String.eqb secret secret'
  && String.eqb salt_format salt_format' && hash_alg_eqb h h'
  && match_kind_eqb k k'.

Definition key_of (p : pattern) : group_key :=
  (p_time_format p, p_secret p, p_salt_format p, p_hash_type p,
   p_match_type p).

Definition digest (h : hash_alg) (s : string) : string :=
  match h with
  | MD5 => Hashlib.md5 s
  | SHA1 => Hashlib.sha1 s
  | SHA256 => Hashlib.sha256 s
  end.

Definition newline : string := String "010" EmptyString.

Section Search.
Context {platform : Platform}.

(** ** Candidate generation *)

(** [timestamps] and [seeds], zipped: the records of the sample that
    carry both keys, in order. *)
Definition timestamps_seeds (sample : list game) : list (string * string) :=
  flat_map (fun g =>
              match timestamp g, serverSeed g with
              | Some ts, Some seed => [(ts, seed)]
              | _, _ => []
              end) sample.

(** The [time_formats] dict, in insertion order.  [game] is the variable
    of the loop over the sample that precedes the enumeration. *)
Definition time_formats (dt : datetime) (game : game)
  : result (list (time_key * string)) :=
  rbind (Datetime.timestamp dt) (fun t =>
  rbind (int_of_float t) (fun e =>
  rbind (Datetime.timestamp dt) (fun t' =>
  rbind (int_of_float (fmul t' (float_of_int 1000))) (fun ems =>
  Ok [(tf_epoch, str e);
      (tf_epoch_ms, str ems);
      (tf_date, strftime [dY; dm; dd] dt);
      (tf_time, strftime [dH; dM; dS] dt);
      (tf_datetime, strftime [dY; dm; dd; dH; dM; dS] dt);
      (tf_year, strftime [dY] dt);
      (tf_month, strftime [dm] dt);
      (tf_day, strftime [dd] dt);
      (tf_hour, strftime [dH] dt);
      (tf_minute, strftime [dM] dt);
      (tf_second, strftime [dS] dt);
      (tf_microsecond, str (microsecond dt));
      (tf_game_id, match gameId game with Some id => id | None => "" end)])))).

Definition mk_pattern (i : nat) (seed : string) (time_key : time_key)
  (secret salt_format test_input : string) (h : hash_alg) (k : match_kind)
  : pattern :=
  {| p_index := i; p_seed := seed; p_time_format := time_key;
     p_secret := secret; p_salt_format := salt_format;
     p_input := test_input; p_hash_type := h; p_match_type := k |}.

Definition match_line (name seed test_input : string) : string :=
  "MATCH! Seed " ++ take 10 seed ++ "... = " ++ name ++ "(" ++ test_input
  ++ ")".

Definition partial_line (name seed test_input : string) : string :=
  "PARTIAL MATCH! Seed " ++ take 16 seed ++ " starts with " ++ name ++ "("
  ++ test_input ++ ")[:16]".

(** The body of [for test_input in test_inputs]: the three digests and the
    [if]/[elif] chain over the six comparisons. *)
Definition check_input (i : nat) (seed : string) (time_key : time_key)
  (secret salt_format test_input : string) : M (list pattern) :=
  let hash_md5 := Hashlib.md5 test_input in
  let hash_sha1 := Hashlib.sha1 test_input in
  let hash_sha256 := Hashlib.sha256 test_input in
  let found := mk_pattern i seed time_key secret salt_format test_input in
  if String.eqb seed hash_md5 then
    print (match_line "MD5" seed test_input) ;;; ret [found MD5 exact]
  else if String.eqb seed hash_sha1 then
    print (match_line "SHA1" seed test_input) ;;; ret [found SHA1 exact]
  else if String.eqb seed hash_sha256 then
    print (match_line "SHA256" seed test_input) ;;; ret [found SHA256 exact]
  else if startswith seed (take 16 hash_md5) then
    print (partial_line "MD5" seed test_input) ;;; ret [found MD5 partial_16]
  else if startswith seed (take 16 hash_sha1) then
    print (partial_line "SHA1" seed test_input) ;;;
    ret [found SHA1 partial_16]
  else if startswith seed (take 16 hash_sha256) then
    print (partial_line "SHA256" seed test_input) ;;;
    ret [found SHA256 partial_16]
  else ret [].

(** [test_inputs] *)
Definition test_inputs (time_val salt : string) : list string :=
  [time_val ++ salt; salt ++ time_val; time_val; salt].

(** The body of [for salt_format in salt_formats]. *)
Definition try_salt_format (i : nat) (seed : string) (time_key : time_key)
  (time_val secret salt_format : string) : M (list pattern) :=
  salt <- lift (format salt_format secret) ;;
  for_each (test_inputs time_val salt)
           (check_input i seed time_key secret salt_format).

(** The body of [for time_key, time_val in time_formats.items()]. *)
Definition try_time_format (cfg : tables) (i : nat) (seed : string)
  (kv : time_key * string) : M (list pattern) :=
  let '(time_key, time_val) := kv in
  if negb (truthy time_val) then ret []
  else
    for_each (common_secrets cfg) (fun secret =>
      for_each (salt_formats cfg)
               (try_salt_format i seed time_key time_val secret)).

(** The body of [for i, (ts, seed) in enumerate(zip(timestamps, seeds))]. *)
Definition scan_record (cfg : tables) (game : game)
  (its : nat * (string * string)) : M (list pattern) :=
  let '(i, (ts, seed)) := its in
  match fromisoformat ts with
  | None => lift (Raise ValueError)
  | Some dt =>
      time_formats <- lift (time_formats dt game) ;;
      for_each time_formats (try_time_format cfg i seed)
  end.

(** The two loops that build [found_patterns].  After the first loop
    [game] is bound to the last record of the sample; with an empty sample
    the second loop has nothing to iterate over. *)
Definition candidate_generation (cfg : tables) (sample : list game)
  : M (list pattern) :=
  match rev sample with
  | [] => ret []
  | game :: _ =>
      for_each (enumerate (timestamps_seeds sample)) (scan_record cfg game)
  end.

(** ** Hold-out validation *)

(** [pattern_groups]: a dict in insertion order. *)
Fixpoint add_to_group (key : group_key) (p : pattern)
  (groups : list (group_key * list pattern))
  : list (group_key * list pattern) :=
  match groups with
  | [] => [(key, [p])]
  | (k, ps) :: r =>
      if group_key_eqb k key then (k, (ps ++ [p])%list) :: r
      else (k, ps) :: add_to_group key p r
  end.

Definition pattern_groups (found_patterns : list pattern)
  : list (group_key * list pattern) :=
  fold_left (fun groups p => add_to_group (key_of p) p groups)
            found_patterns [].

(** The [if]/[elif] chain that recomputes [time_val] from the name of the
    time format. *)
Definition time_val_of (time_format : time_key) (dt : datetime) (game : game)
  : result string :=
  match time_format with
  | tf_epoch =>
      rbind (Datetime.timestamp dt) (fun t =>
      rbind (int_of_float t) (fun e => Ok (str e)))
  | tf_epoch_ms =>
      rbind (Datetime.timestamp dt) (fun t =>
      rbind (int_of_float (fmul t (float_of_int 1000))) (fun e => Ok (str e)))
  | tf_date => Ok (strftime [dY; dm; dd] dt)
  | tf_time => Ok (strftime [dH; dM; dS] dt)
  | tf_datetime => Ok (strftime [dY; dm; dd; dH; dM; dS] dt)
  | tf_year => Ok (strftime [dY] dt)
  | tf_month => Ok (strftime [dm] dt)
  | tf_day => Ok (strftime [dd] dt)
  | tf_hour => Ok (strftime [dH] dt)
  | tf_minute => Ok (strftime [dM] dt)
  | tf_second => Ok (strftime [dS] dt)
  | tf_microsecond => Ok (str (microsecond dt))
  | tf_game_id =>
      Ok (match gameId game with Some id => id | None => "" end)
  end.

(** The choice of [test_input] inside [for pattern in patterns]. *)
Definition choose_input (p : pattern) (time_val salt : string) : string :=
  if contains "TimeSecret" (p_input p) then time_val ++ salt
  else if contains "SecretTime" (p_input p) then salt ++ time_val
  else if String.eqb (p_input p) (time_key_name (p_time_format p))
       then time_val
  else salt.

(** One iteration of [for pattern in patterns]: does it reach
    [matches += 1; break]? *)
Definition pattern_hits (hash_type : hash_alg) (match_type : match_kind)
  (seed time_val salt : string) (p : pattern) : bool :=
  let test_input := choose_input p time_val salt in
  let hash_value := digest hash_type test_input in
  match match_type with
  | exact => String.eqb seed hash_value
  | partial_16 => startswith seed (take 16 hash_value)
  end.

(** The body of [for game in validation_games], on the counters
    [(matches, total)]. *)
Definition validate_game (key : group_key) (patterns : list pattern)
  (salt : string) (game : game) (counters : nat * nat) : M (nat * nat) :=
  let '(matches, total) := counters in
  let '(time_format, _, _, hash_type, match_type) := key in
  match timestamp game, serverSeed game with
  | Some ts, Some seed =>
      let total := S total in
      match fromisoformat ts with
      | None => lift (Raise ValueError)
      | Some dt =>
          time_val <- lift (time_val_of time_format dt game) ;;
          if negb (truthy time_val) then ret (matches, total)
          else if existsb (pattern_hits hash_type match_type seed time_val salt)
                          patterns
               then ret (S matches, total)
          else ret (matches, total)
      end
  | _, _ => ret (matches, total)
  end.

(** [matches / total if total > 0 else 0] *)
Definition rate (matches total : nat) : number :=
  if Nat.ltb 0 total
  then PyFloat (int_truediv (Z.of_nat matches) (Z.of_nat total))
  else PyInt 0.

(** The body of [for key, patterns in pattern_groups.items()]. *)
Definition validate_group (games : list game) (sample_size : Z)
  (kp : group_key * list pattern) : M (list (group_key * validation_result)) :=
  let '(key, patterns) := kp in
  let '(_, secret, salt_format, _, _) := key in
  salt <- lift (format salt_format secret) ;;
  let validation_games :=
    slice games (Some sample_size) (Some (sample_size + 100)%Z) in
  counters <- for_fold validation_games (validate_game key patterns salt)
                       (0, 0) ;;
  ret [(key, {| matches := fst counters; total := snd counters;
                success_rate := rate (fst counters) (snd counters) |})].

(** [validation_results]: one entry per group, in the order of the
    groups. *)
Definition validation_results (games : list game) (sample_size : Z)
  (found_patterns : list pattern) : M (list (group_key * validation_result)) :=
  for_each (pattern_groups found_patterns) (validate_group games sample_size).

(** The two lines printed for an entry of [validation_results]. *)
Definition report (kr : group_key * validation_result) : M (list unit) :=
  let '((time_format, secret, salt_format, hash_type, match_type), r) := kr in
  salt <- lift (format salt_format secret) ;;
  print ("Pattern: " ++ time_key_name time_format ++ " + " ++ salt ++ " with "
         ++ hash_alg_name hash_type ++ " (" ++ match_kind_name match_type
         ++ ")") ;;;
  print ("  Success rate: " ++ str (Z.of_nat (matches r)) ++ "/"
         ++ str (Z.of_nat (total r)) ++ " = "
         ++ format_2f_number (times100 (success_rate r)) ++ "%") ;;;
  ret [].

(** The validation block: entered when some pattern was found and games
    remain after the sample. *)
Definition hold_out_validation (games : list game) (sample_size : Z)
  (found_patterns : list pattern) : M (list (group_key * validation_result)) :=
  match found_patterns with
  | [] => ret []
  | _ :: _ =>
      if (sample_size <? Z.of_nat (List.length games))%Z then
        print (newline ++ "Validating patterns on remaining games...") ;;;
        results <- validation_results games sample_size found_patterns ;;
        print (newline ++ "Validation results:") ;;;
        for_each results report ;;;
        ret results
      else ret []
  end.

(** The body of the search: it reads [self.games], [sample],
    [sample_size], [common_secrets] and [salt_formats], and returns
    [found_patterns]. *)
Definition search (cfg : tables) (games sample : list game) (sample_size : Z)
  : M (list pattern) :=
  found_patterns <- candidate_generation cfg sample ;;
  hold_out_validation games sample_size found_patterns ;;;
  ret found_patterns.

End Search.

(* ===================================================================== *)
(** * Loading the records                                                 *)
(* ===================================================================== *)

(** [s.endswith(suffix)] *)
Fixpoint endswith (s suffix : string) : bool :=
  String.eqb s suffix
  || match s with
     | EmptyString => false
     | String _ r => endswith r suffix
     end.

(** White space in the sense of [str.isspace], as UTF-8 code units: one
    unit for U+0009..U+000D, U+001C..U+0020; two for U+0085 and U+00A0;
    three for U+1680, U+2000..U+200A, U+2028, U+2029, U+202F, U+205F and
    U+3000. *)
Definition space1 (a : N) : bool :=
  ((9 <=? a) && (a <=? 13) || (28 <=? a) && (a <=? 32))%N.

Definition space2 (a b : N) : bool :=
  ((a =? 194) && ((b =? 133) || (b =? 160)))%N.

Definition space3 (a b c : N) : bool :=
  ((a =? 225) && (b =? 154) && (c =? 128)
   || (a =? 226) && (b =? 128)
      && ((128 <=? c) && (c <=? 138) || (c =? 168) || (c =? 169) || (c =? 175))
   || (a =? 226) && (b =? 129) && (c =? 159)
   || (a =? 227) && (b =? 128) && (c =? 128))%N.

(** Length in code units of the white-space character at the head of the
    string, [0] when there is none. *)
Definition space_width (s : list N) : nat :=
  match s with
  | a :: b :: c :: _ =>
      if space1 a then 1 else if space2 a b then 2
      else if space3 a b c then 3 else 0
  | a :: b :: _ => if space1 a then 1 else if space2 a b then 2 else 0
  | a :: _ => if space1 a then 1 else 0
  | [] => 0
  end%nat.

(** The same for the character at the end, on the reversed code units. *)
Definition space_width_rev (s : list N) : nat :=
  match s with
  | c :: b :: a :: _ =>
      if space1 c then 1 else if space2 b c then 2
      else if space3 a b c then 3 else 0
  | c :: b :: _ => if space1 c then 1 else if space2 b c then 2 else 0
  | c :: _ => if space1 c then 1 else 0
  | [] => 0
  end%nat.

Fixpoint drop_spaces (width : list N -> nat) (fuel : nat) (s : list N)
  : list N :=
  match fuel with
  | O => s
  | S k =>
      match width s with
      | O => s
      | w => drop_spaces width k (skipn w s)
      end
  end.

(** [s.strip()] *)
Definition strip (s : string) : string :=
  let units := map N_of_ascii (list_ascii_of_string s) in
  let n := List.length units in
  let tail := drop_spaces space_width n units in
  let kept := rev (drop_spaces space_width_rev n (rev tail)) in
  string_of_list_ascii (map ascii_of_N kept).

(** ** RugsDataAnalyzer.create_analysis_dataframe *)

(** A decoded JSON value.  A [dict] is the list of its items, keys
    distinct, in insertion order. *)
Unset Elimination Schemes.
Inductive json : Type :=
  | JNull
  | JBool (b : bool)
  | JInt (z : Z)
  | JFloat (x : float)
  | JStr (s : string)
  | JList (items : list json)
  | JDict (members : list (string * json)).
Set Elimination Schemes.

(** [type(v).__name__] *)
Definition type_name (v : json) : string :=
  match v with
  | JNull => "NoneType"
  | JBool _ => "bool"
  | JInt _ => "int"
  | JFloat _ => "float"
  | JStr _ => "str"
  | JList _ => "list"
  | JDict _ => "dict"
  end.

(** [v.get(key, default)]: the value under the key or the default for a
    dict, and the text of the [AttributeError] for any other value. *)
Definition get (v : json) (key : string) (default : json) : string + json :=
  match v with
  | JDict members =>
      inr (match find (fun kv => String.eqb (fst kv) key) members with
           | Some kv => snd kv
           | None => default
           end)
  | _ => inl ("'" ++ type_name v ++ "' object has no attribute 'get'")
  end.

Definition and_then {A B : Type} (r : string + A) (f : A -> string + B)
  : string + B :=
  match r with
  | inr a => f a
  | inl e => inl e
  end.

(** The dict [game_data] of the game at position [i], its entries
    evaluated in the order of the source, or the text of the first
    exception. *)
Definition game_data (i : nat) (game : json)
  : string + list (string * json) :=
  and_then (get game "analysis" (JDict [])) (fun analysis =>
  and_then (get game "gameId" (JStr "")) (fun game_id =>
  and_then (get game "recordingStart" (JStr "")) (fun recording_start =>
  and_then (get game "recordingEnd" (JStr "")) (fun recording_end =>
  and_then (get game "duration" (JInt 0)) (fun duration =>
  and_then (get analysis "peakMultiplier" (JInt 0)) (fun peak =>
  and_then (get analysis "finalTick" (JInt 0)) (fun final_tick =>
  and_then (get analysis "isInstarug" (JBool false)) (fun is_instarug =>
  and_then (get analysis "totalTrades" (JInt 0)) (fun total_trades =>
  and_then (get analysis "uniquePlayers" (JInt 0)) (fun unique_players =>
  and_then (get game "totalEvents" (JInt 0)) (fun total_events =>
  and_then (get analysis "gameStateUpdates" (JInt 0)) (fun updates =>
  and_then (get analysis "priceRange" (JDict [])) (fun range1 =>
  and_then (get range1 "min" (JInt 0)) (fun price_min =>
  and_then (get analysis "priceRange" (JDict [])) (fun range2 =>
  and_then (get range2 "max" (JInt 0)) (fun price_max =>
  and_then (get game "collectionMetadata" (JDict [])) (fun meta1 =>
  and_then (get meta1 "collectorVersion" (JStr "")) (fun version =>
  and_then (get game "collectionMetadata" (JDict [])) (fun meta2 =>
  and_then (get meta2 "hourlyGameNumber" (JInt 0)) (fun hourly =>
  and_then (get game "rugEventTiming" (JDict [])) (fun timing =>
  and_then (get game "reason" (JStr "UNKNOWN")) (fun reason =>
  inr [("game_number", JInt (Z.of_nat i + 1));
       ("game_id", game_id);
       ("recording_start", recording_start);
       ("recording_end", recording_end);
       ("duration_seconds", duration);
       ("peak_multiplier", peak);
       ("final_tick", final_tick);
       ("is_instarug", is_instarug);
       ("total_trades", total_trades);
       ("unique_players", unique_players);
       ("total_events", total_events);
       ("game_state_updates", updates);
       ("price_min", price_min);
       ("price_max", price_max);
       ("collection_version", version);
       ("hourly_game_number", hourly);
       ("rug_event_timing", timing);
       ("completion_reason", reason)])))))))))))))))))))))).

(** The body of [for i, game in enumerate(games)]. *)
Definition add_row (ig : nat * json) : M (list (list (string * json))) :=
  let '(i, game) := ig in
  match game_data i game with
  | inr row => ret [row]
  | inl e =>
      print ("⚠️  Error processing game " ++ str (Z.of_nat i) ++ ": " ++ e)
      ;;; ret []
  end.

(** [analysis_data] when the loop ends. *)
Definition analysis_data (games : list json)
  : M (list (list (string * json))) :=
  for_each (enumerate games) add_row.

(** What the methods raise beside the exceptions of [Py.exn]; [Library]
    is an exception raised inside pandas, with its text. *)
Inductive raised : Type :=
  | Builtin (e : exn)
  | KeyError (key : string)
  | ZeroDivisionError
  | NameError (name : string)
  | Library (e : string).

(** A DataFrame, as far as the scripts read it here: its [shape]. *)
Record frame : Type := {
  n_rows : nat;
  n_columns : nat
}.

Section LoadCollected.

(** [json.loads]: the decoded value or, for a [JSONDecodeError], its
    text. *)
Variable json_loads : string -> string + json.

(** What the installed pandas does with the rows of a frame that has
    them, from [pd.to_datetime] to [pd.cut]: [None] when the conversions
    go through, the text of the exception otherwise. *)
Variable convert : list (list (string * json)) -> option string.

(** The columns of [pd.DataFrame(rows)] for dicts that have the same
    keys: these keys, and no column when there is no row. *)
Definition columns (rows : list (list (string * json))) : list string :=
  match rows with
  | [] => []
  | row :: _ => map fst row
  end.

(** The method: the warnings of the loop, and the frame or the exception.
    [df['recording_start']] raises [KeyError] when the frame has no such
    column; the rows built by [game_data] have the same keys, so that the
    other columns that are read are there when this one is.  Three columns
    are added to those of the rows. *)
Definition create_analysis_dataframe (games : list json)
  : list string * (raised + frame) :=
  let '(out, rows) := analysis_data games in
  match rows with
  | Raise e => (out, inl (Builtin e))
  | Ok rows =>
      if existsb (String.eqb "recording_start") (columns rows) then
        match convert rows with
        | Some e => (out, inl (Library e))
        | None =>
            (out, inr {| n_rows := List.length rows;
                         n_columns := List.length (columns rows) + 3 |})
        end
      else (out, inl (KeyError "recording_start"))
  end.

(** ** RugsDataAnalyzer.load_collected_data *)

(** The attributes of the analyzer that the method assigns. *)
Record data_analyzer : Type := {
  raw_games : list json;
  games_df : option frame
}.

(** The body of [for line_num, line in enumerate(f, 1)]. *)
Definition read_line (nl : nat * string) : M (list json) :=
  let '(line_num, line) := nl in
  match json_loads (strip line) with
  | inr game => ret [game]
  | inl e =>
      print ("⚠️  Error parsing line " ++ str (Z.of_nat line_num) ++ ": " ++ e)
      ;;; ret []
  end.

(** [str(df.shape)] *)
Definition shape (df : frame) : string :=
  "(" ++ str (Z.of_nat (n_rows df)) ++ ", " ++ str (Z.of_nat (n_columns df))
  ++ ")".

(** The method: the lines printed, the analyzer when the call ends, and
    the value returned or the exception raised.  [master_file] is [None]
    when the file does not exist and the list of its lines otherwise. *)
Definition load_collected_data (self : data_analyzer) (master_path : string)
  (master_file : option (list string))
  : list string * data_analyzer * (raised + bool) :=
  let header := "📊 Loading collected game data..." in
  match master_file with
  | None =>
      ([header; "❌ Master data file not found: " ++ master_path], self,
       inr false)
  | Some lines =>
      let '(warnings, games) :=
        for_each (combine (seq 1 (List.length lines)) lines) read_line in
      match games with
      | Raise e => (header :: warnings, self, inl (Builtin e))
      | Ok games =>
          let self := {| raw_games := games; games_df := games_df self |} in
          let loaded := "✅ Loaded " ++ str (Z.of_nat (List.length games))
                        ++ " games from master file" in
          let '(row_warnings, df) := create_analysis_dataframe games in
          let out := (header :: warnings ++ loaded :: row_warnings)%list in
          match df with
          | inl e => (out, self, inl e)
          | inr df =>
              let created := "📈 Created analysis DataFrame: " ++ shape df in
              ((out ++ [created])%list,
               {| raw_games := games; games_df := Some df |}, inr true)
          end
      end
  end.

End LoadCollected.

(** ** RugsTimeSeedAnalyzer.load_data *)

(** The attributes of the analyzer that the modelled methods use, when
    [self.games] is a list of records. *)
Record analyzer : Type := {
  data_path : option string;
  games : list game
}.

(** A decoded JSON document that has no length: [null], a boolean or a
    number. *)
Inductive scalar : Type :=
  | SNull
  | SBool (b : bool)
  | SInt (z : Z)
  | SFloat (x : float).

(** [type(v).__name__] *)
Definition scalar_type (v : scalar) : string :=
  match v with
  | SNull => "NoneType"
  | SBool _ => "bool"
  | SInt _ => "int"
  | SFloat _ => "float"
  end.

(** What [json.load] decodes from a data file: the records of a JSON
    array, or a scalar. *)
Inductive document : Type :=
  | Records (records : list game)
  | Scalar (v : scalar).

(** The analyzer when a method ends: [Listed self] when [self.games] is
    a list of records, and [Replaced path v] when [load_data] has assigned
    the scalar [v] to it ([path] is [self.data_path]).  The methods are
    modelled on analyzers of the first kind. *)
Inductive state : Type :=
  | Listed (self : analyzer)
  | Replaced (path : option string) (v : scalar).

(** What the installation provides for reading: [open] (the lines of the
    file, or the text of the exception), [json.loads] on a line (the
    decoded record, or the text of the exception) and [json.load] on a
    whole file (the decoded document, or the text of the exception). *)
Class Storage : Type := {
  open_read : string -> string + list string;
  json_loads : string -> string + game;
  json_load : list string -> string + document
}.

Section Analyzer.
Context {platform : Platform} {storage : Storage}.

(** [for line in f: self.games.append(json.loads(line))]: the games
    appended so far, and the exception that stopped the loop if any. *)
Fixpoint read_jsonl (lines : list string) (loaded : list game)
  : list game * option string :=
  match lines with
  | [] => (loaded, None)
  | line :: r =>
      match json_loads line with
      | inr game => read_jsonl r (loaded ++ [game])
      | inl e => (loaded, Some e)
      end
  end.

(** The [except] clause. *)
Definition load_failed (e : string) (self : state) : M (bool * state) :=
  print ("Error loading data: " ++ e) ;;; ret (false, self).

(** The two statements that end the [try] block.  [len(self.games)]
    raises [TypeError] on a scalar, which the [except] clause catches. *)
Definition load_done (path : string) (self : state) : M (bool * state) :=
  match self with
  | Listed a =>
      print ("Loaded " ++ str (Z.of_nat (List.length (games a)))
             ++ " games from " ++ path) ;;;
      ret (true, self)
  | Replaced _ v =>
      load_failed ("object of type '" ++ scalar_type v ++ "' has no len()")
                  self
  end.

Definition set_games (self : analyzer) (l : list game) : analyzer :=
  {| data_path := data_path self; games := l |}.

(** [self.games = json.load(f)] *)
Definition assign (self : analyzer) (loaded : document) : state :=
  match loaded with
  | Records l => Listed (set_games self l)
  | Scalar v => Replaced (data_path self) v
  end.

Definition load_data (self : analyzer) : M (bool * state) :=
  match data_path self with
  | None | Some EmptyString =>
      print "No data path specified" ;;; ret (false, Listed self)
  | Some path =>
      if endswith path ".jsonl" then
        let self := set_games self [] in
        match open_read path with
        | inl e => load_failed e (Listed self)
        | inr lines =>
            let '(loaded, error) := read_jsonl lines [] in
            let self := set_games self loaded in
            match error with
            | Some e => load_failed e (Listed self)
            | None => load_done path (Listed self)
            end
        end
      else
        match open_read path with
        | inl e => load_failed e (Listed self)
        | inr lines =>
            match json_load lines with
            | inl e => load_failed e (Listed self)
            | inr loaded => load_done path (assign self loaded)
            end
        end
  end.

(** ** brute_force_seed_generation

    [load_data] returns [True] only with a list in [self.games]; on a
    scalar, [self.games[:sample_size]] would raise [TypeError]. *)

Definition brute_force_tables : tables := {|
  common_secrets :=
    ["rugs.fun"; "rugsfun"; "rug"; "rugpull";
     "crypto"; "game"; "seed"; "random";
     "bitcoin"; "ethereum"; "secret"; "provably-fair"];
  salt_formats :=
    ["{}"; "{}_salt"; "salt_{}"; "{}_key"; "key_{}"; "{}_seed"; "seed_{}"]
|}.

(** [sample = self.games[:sample_size]] *)
Definition sample_of (games : list game) (sample_size : Z) : list game :=
  slice games None (Some sample_size).

(** [self.games[sample_size:sample_size+100]] *)
Definition validation_games (games : list game) (sample_size : Z)
  : list game :=
  slice games (Some sample_size) (Some (sample_size + 100)%Z).

(** The method returns [None] when no data is available and
    [found_patterns] otherwise; the analyzer is returned with it. *)
Definition brute_force_seed_generation (self : analyzer) (sample_size : Z)
  : M (option (list pattern) * state) :=
  ls <- match games self with
        | [] => load_data self
        | _ :: _ => ret (true, Listed self)
        end ;;
  let '(loaded, self) := ls in
  if negb loaded then
    print "No data available for analysis" ;;; ret (None, self)
  else
    print "Attempting to brute force seed generation algorithm..." ;;;
    match self with
    | Listed self =>
        found_patterns <- search brute_force_tables (games self)
                                 (sample_of (games self) sample_size)
                                 sample_size ;;
        ret (Some found_patterns, Listed self)
    | Replaced _ _ => lift (Raise TypeError)
    end.

End Analyzer.

(* ===================================================================== *)
(** * Notions used in the statements                                      *)
(* ===================================================================== *)

(** The items a loop body appended, nothing if it raised. *)
Definition appended {B : Type} (m : M (list B)) : list B :=
  match outcome m with
  | Ok ys => ys
  | Raise _ => []
  end.

(** The record carries both ['timestamp'] and ['serverSeed']. *)
Definition has_both (g : game) : bool :=
  match timestamp g, serverSeed g with
  | Some _, Some _ => true
  | _, _ => false
  end.

(** The six comparisons of [check_input], in the order of its
    [if]/[elif] chain. *)
Definition comparisons : list (hash_alg * match_kind) :=
  [(MD5, exact); (SHA1, exact); (SHA256, exact);
   (MD5, partial_16); (SHA1, partial_16); (SHA256, partial_16)].

Definition comparison_holds (seed test_input : string)
  (hk : hash_alg * match_kind) : bool :=
  match snd hk with
  | exact => String.eqb seed (digest (fst hk) test_input)
  | partial_16 => startswith seed (take 16 (digest (fst hk) test_input))
  end.

(** The first comparison that holds, if any. *)
Definition first_match (seed test_input : string)
  : option (hash_alg * match_kind) :=
  find (comparison_holds seed test_input) comparisons.

Section Conditions.
Context {platform : Platform}.

(** Every template of the tables formats every secret. *)
Definition tables_ok (cfg : tables) : bool :=
  forallb (fun secret =>
             forallb (fun salt_format => is_ok (format salt_format secret))
                     (salt_formats cfg))
          (common_secrets cfg).

(** The timestamp is accepted by the parser and its [time_formats] dict
    can be built (the epoch conversions do not raise). *)
Definition timestamp_ok (ts : string) : bool :=
  match fromisoformat ts with
  | Some dt =>
      is_ok (time_formats dt {| gameId := None; timestamp := None;
                                serverSeed := None |})
  | None => false
  end.

(** Every record that enters the search has a usable timestamp. *)
Definition sample_ok (sample : list game) : bool :=
  forallb (fun g => negb (has_both g)
                    || match timestamp g with
                       | Some ts => timestamp_ok ts
                       | None => true
                       end) sample.

(** The group, whose time format is [time_format], counts the record as
    a match candidate: it has both keys and its time value is not empty. *)
Definition has_time_val (time_format : time_key) (g : game) : bool :=
  match timestamp g, serverSeed g with
  | Some ts, Some _ =>
      match fromisoformat ts with
      | Some dt =>
          match time_val_of time_format dt g with
          | Ok time_val => truthy time_val
          | Raise _ => false
          end
      | None => false
      end
  | _, _ => false
  end.

(** The group counts the record in [total] only: it has both keys and
    its time value is the empty string. *)
Definition empty_time_val (time_format : time_key) (g : game) : bool :=
  match timestamp g, serverSeed g with
  | Some ts, Some _ =>
      match fromisoformat ts with
      | Some dt =>
          match time_val_of time_format dt g with
          | Ok time_val => negb (truthy time_val)
          | Raise _ => false
          end
      | None => false
      end
  | _, _ => false
  end.

End Conditions.

(** Two installations read the timestamp alike: their parsers give the
    same result and, when that is a naive datetime, they convert it to
    the same seconds since the epoch. *)
Definition same_reading (here there : Platform) (ts : string) : Prop :=
  @fromisoformat here ts = @fromisoformat there ts
  /\ forall dt,
       @fromisoformat here ts = Some dt ->
       utcoffset dt = None ->
       @local_to_seconds here dt = @local_to_seconds there dt.

(** The number of hex digits of a digest. *)
Definition digest_size (h : hash_alg) : nat :=
  match h with
  | MD5 => 32
  | SHA1 => 40
  | SHA256 => 64
  end.

(** The computation returns (it does not raise). *)
Definition returns {A : Type} (m : M A) : Prop := is_ok (outcome m) = true.

(** The label of the algorithm in the printed lines. *)
Definition hash_alg_label (h : hash_alg) : string :=
  match h with
  | MD5 => "MD5"
  | SHA1 => "SHA1"
  | SHA256 => "SHA256"
  end.

(** The line printed for a match. *)
Definition found_line (hk : hash_alg * match_kind) (seed test_input : string)
  : string :=
  match snd hk with
  | exact => match_line (hash_alg_label (fst hk)) seed test_input
  | partial_16 => partial_line (hash_alg_label (fst hk)) seed test_input
  end.

(** The record's iteration of the validation loop reaches
    [matches += 1]. *)
Definition record_hit {platform : Platform} (key : group_key)
  (patterns : list pattern) (salt : string) (g : game) : bool :=
  let '(time_format, _, _, hash_type, match_type) := key in
  match timestamp g, serverSeed g with
  | Some ts, Some seed =>
      match fromisoformat ts with
      | Some dt =>
          match time_val_of time_format dt g with
          | Ok time_val =>
              truthy time_val
              && existsb (pattern_hits hash_type match_type seed time_val salt)
                         patterns
          | Raise _ => false
          end
      | None => false
      end
  | _, _ => false
  end.

(** The record meets the condition of the group as the validation reads
    it: it carries both keys, its time value is not empty and, for one of
    the patterns, the seed equals the digest of the input chosen for that
    pattern (or starts with its first sixteen characters, for a partial
    match). *)
Definition meets_condition {platform : Platform} (key : group_key)
  (patterns : list pattern) (salt : string) (g : game) : bool :=
  let '(time_format, _, _, hash_type, match_type) := key in
  match timestamp g, serverSeed g with
  | Some ts, Some seed =>
      match fromisoformat ts with
      | Some dt =>
          match time_val_of time_format dt g with
          | Ok time_val =>
              truthy time_val
              && existsb (fun p =>
                            comparison_holds seed
                              (choose_input p time_val salt)
                              (hash_type, match_type))
                         patterns
          | Raise _ => false
          end
      | None => false
      end
  | _, _ => false
  end.

(** The number of items that satisfy [f]. *)
Definition count {A : Type} (f : A -> bool) (l : list A) : nat :=
  List.length (filter f l).

Definition time_format_of (key : group_key) : time_key :=
  let '(time_format, _, _, _, _) := key in time_format.

Definition secret_of (key : group_key) : string :=
  let '(_, secret, _, _, _) := key in secret.

Definition salt_format_of (key : group_key) : string :=
  let '(_, _, salt_format, _, _) := key in salt_format.

(** The record of a line that [decode] accepts, nothing for one it
    rejects. *)
Definition decoded {J : Type} (decode : string -> string + J) (line : string)
  : list J :=
  match decode line with
  | inr g => [g]
  | inl _ => []
  end.

(** [decode] accepts the line. *)
Definition well_formed {J : Type} (decode : string -> string + J)
  (line : string) : Prop :=
  exists g, decode line = inr g.

(* ===================================================================== *)
(** * Concrete data for the examples                                      *)
(* ===================================================================== *)

Module Demo.

(** ** A decoder for lines that hold a flat object of string members

    It decodes objects such as [{"gameId": "a", "timestamp": "b"}] (no
    escapes inside strings) and reports any other text with the message
    [json] gives for a line that does not start a JSON value. *)

Definition quote : ascii := "034"%char.

Fixpoint skip_ws (s : string) : string :=
  match s with
  | String c r =>
      if Ascii.eqb c " " || Ascii.eqb c "009" || Ascii.eqb c "010"
         || Ascii.eqb c "013"
      then skip_ws r else s
  | EmptyString => s
  end.

Fixpoint until_quote (s : string) : option (string * string) :=
  match s with
  | EmptyString => None
  | String c r =>
      if Ascii.eqb c quote then Some (EmptyString, r)
      else if Ascii.eqb c "\" then None
      else match until_quote r with
           | Some (body, rest) => Some (String c body, rest)
           | None => None
           end
  end.

Definition read_string (s : string) : option (string * string) :=
  match skip_ws s with
  | String c r => if Ascii.eqb c quote then until_quote r else None
  | EmptyString => None
  end.

Definition set_member (key value : string) (g : game) : game :=
  if String.eqb key "gameId" then
    {| gameId := Some value; timestamp := timestamp g;
       serverSeed := serverSeed g |}
  else if String.eqb key "timestamp" then
    {| gameId := gameId g; timestamp := Some value;
       serverSeed := serverSeed g |}
  else if String.eqb key "serverSeed" then
    {| gameId := gameId g; timestamp := timestamp g;
       serverSeed := Some value |}
  else g.

Fixpoint members (fuel : nat) (s : string) (g : game)
  : option (game * string) :=
  match fuel with
  | O => None
  | S k =>
      obind (read_string s) (fun '(key, s) =>
      obind (expect ":" (skip_ws s)) (fun s =>
      obind (read_string s) (fun '(value, s) =>
      let g := set_member key value g in
      match skip_ws s with
      | String "," r => members k r g
      | String "}" r => Some (g, r)
      | _ => None
      end)))
  end.

Definition object (s : string) : option (game * string) :=
  match skip_ws s with
  | String "{" r =>
      let empty := {| gameId := None; timestamp := None;
                      serverSeed := None |} in
      match skip_ws r with
      | String "}" r' => Some (empty, r')
      | _ => members (String.length r) r empty
      end
  | _ => None
  end.

Definition expecting_value : string :=
  "Expecting value: line 1 column 1 (char 0)".

Definition loads (s : string) : string + game :=
  match object s with
  | Some (g, rest) =>
      match skip_ws rest with
      | EmptyString => inr g
      | _ => inl expecting_value
      end
  | None => inl expecting_value
  end.

Fixpoint elements (fuel : nat) (s : string) (acc : list game)
  : option (list game) :=
  match fuel with
  | O => None
  | S k =>
      obind (object s) (fun '(g, s) =>
      match skip_ws s with
      | String "," r => elements k r (acc ++ [g])%list
      | String "]" r =>
          match skip_ws r with
          | EmptyString => Some (acc ++ [g])%list
          | _ => None
          end
      | _ => None
      end)
  end.

(** A document that is [null], a boolean or a run of decimal digits. *)
Definition scalar_of (text : string) : option scalar :=
  if String.eqb text "null" then Some SNull
  else if String.eqb text "true" then Some (SBool true)
  else if String.eqb text "false" then Some (SBool false)
  else
    match text with
    | EmptyString => None
    | _ => option_map SInt (digits_value 0 text)
    end.

Definition load (lines : list string) : string + document :=
  let text := String.concat "" lines in
  match skip_ws text with
  | String "[" r =>
      match skip_ws r with
      | String "]" r' =>
          match skip_ws r' with
          | EmptyString => inr (Records [])
          | _ => inl expecting_value
          end
      | _ =>
          match elements (String.length r) r [] with
          | Some l => inr (Records l)
          | None => inl expecting_value
          end
      end
  | _ =>
      match scalar_of (strip text) with
      | Some v => inr (Scalar v)
      | None => inl expecting_value
      end
  end.

(** ** Files *)

Definition good_line_1 : string :=
  "{" ++ String quote "gameId" ++ String quote ": " ++ String quote "20240101-a1b2c3"
  ++ String quote ", " ++ String quote "timestamp" ++ String quote ": "
  ++ String quote "2024-01-01T00:00:00" ++ String quote "}" ++ newline.

Definition bad_line : string := "oops" ++ newline.

Definition good_line_2 : string :=
  "{" ++ String quote "gameId" ++ String quote ": " ++ String quote "20240102-d4e5f6"
  ++ String quote "}" ++ newline.

Definition files : list (string * list string) :=
  [("rugs_data.jsonl", [good_line_1; bad_line; good_line_2]);
   ("clean.jsonl", [good_line_1; good_line_2]);
   ("count.json", ["5" ++ newline])].

Definition open_file (path : string) : string + list string :=
  match find (fun f => String.eqb (fst f) path) files with
  | Some f => inr (snd f)
  | None => inl ("[Errno 2] No such file or directory: '" ++ path ++ "'")
  end.

Definition storage : Storage := {|
  open_read := open_file;
  json_loads := loads;
  json_load := load
|}.

(** ** Games *)

(** A record without ['gameId'] whose seed is
    [sha256("20240101" + "rugs.fun_salt")]. *)
Definition seeded : game := {|
  gameId := None;
  timestamp := Some "2024-01-01T00:00:00";
  serverSeed :=
    Some "e1d42e41f475120430024492b6c35cc3d5e6cf94f449cd7e1e38109273043e0f"
|}.

(** The game of the next day, built the same way:
    [sha256("20240102" + "rugs.fun_salt")]. *)
Definition next_day : game := {|
  gameId := Some "20240102-d4e5f6";
  timestamp := Some "2024-01-02T00:00:00";
  serverSeed :=
    Some "a55d193cfa4da8b58f2da087f2e7f3427cf2f8c23e4dcfa8f61c5e445cda6994"
|}.

(** A record that was cut before its seed was revealed. *)
Definition unrevealed : game := {|
  gameId := Some "20240102-d4e5f6";
  timestamp := Some "2024-01-02T00:00:00";
  serverSeed := None
|}.

(** A record whose timestamp is not ISO-8601. *)
Definition garbled : game := {|
  gameId := Some "20231231-000000";
  timestamp := Some "not-a-date";
  serverSeed := Some "00"
|}.

(** A record without ['gameId'] whose seed is
    [md5("20240101-a1b2c3" + "rugs.fun")], the id being that of
    [with_id]. *)
Definition without_id : game := {|
  gameId := None;
  timestamp := Some "2024-01-01T00:00:00";
  serverSeed := Some "6890148f27b94860feb8946e3051619b"
|}.

Definition with_id : game := {|
  gameId := Some "20240101-a1b2c3";
  timestamp := Some "2024-01-01T00:05:00";
  serverSeed := Some "00"
|}.

(** The hypothesis that [seeded] gives rise to. *)
Definition seeded_pattern : pattern := {|
  p_index := 0;
  p_seed := "e1d42e41f475120430024492b6c35cc3d5e6cf94f449cd7e1e38109273043e0f";
  p_time_format := tf_date;
  p_secret := "rugs.fun";
  p_salt_format := "{}_salt";
  p_input := "20240101rugs.fun_salt";
  p_hash_type := SHA256;
  p_match_type := exact
|}.

Definition seeded_key : group_key :=
  (tf_date, "rugs.fun", "{}_salt", SHA256, exact).

(** The parsed timestamp of [seeded] and its [time_formats] dict on a
    machine whose local time is UTC. *)
Definition new_year : datetime := {|
  year := 2024; month := 1; day := 1; hour := 0; minute := 0; second := 0;
  microsecond := 0; utcoffset := None
|}.

Definition new_year_formats : list (time_key * string) :=
  [(tf_epoch, "1704067200"); (tf_epoch_ms, "1704067200000");
   (tf_date, "20240101"); (tf_time, "000000");
   (tf_datetime, "20240101000000"); (tf_year, "2024"); (tf_month, "01");
   (tf_day, "01"); (tf_hour, "00"); (tf_minute, "00"); (tf_second, "00");
   (tf_microsecond, "0"); (tf_game_id, "")].

(** The pattern that [without_id] gives rise to when [with_id] is the
    last record of the sample. *)
Definition leaked_pattern : pattern := {|
  p_index := 0;
  p_seed := "6890148f27b94860feb8946e3051619b";
  p_time_format := tf_game_id;
  p_secret := "rugs.fun";
  p_salt_format := "{}";
  p_input := "20240101-a1b2c3rugs.fun";
  p_hash_type := MD5;
  p_match_type := exact
|}.

Definition game_id_key : group_key :=
  (tf_game_id, "rugs.fun", "{}", MD5, exact).

(** The record that [good_line_1] decodes to. *)
Definition first_record : game := {|
  gameId := Some "20240101-a1b2c3";
  timestamp := Some "2024-01-01T00:00:00";
  serverSeed := None
|}.

Definition second_record : game := {|
  gameId := Some "20240102-d4e5f6";
  timestamp := None;
  serverSeed := None
|}.

(** A record of July without ['gameId'] whose seed is
    [sha256("1719792000" + "rugs.fun_salt")], the seconds being those of
    its timestamp read as UTC. *)
Definition midsummer : game := {|
  gameId := None;
  timestamp := Some "2024-07-01T00:00:00";
  serverSeed :=
    Some "cfe235ffc80dd72b21376a2d4525efa7433383d0092af31f59e7ebb7bd3576bb"
|}.

(** The hypothesis that [midsummer] gives rise to where the local time is
    UTC. *)
Definition midsummer_pattern : pattern := {|
  p_index := 0;
  p_seed := "cfe235ffc80dd72b21376a2d4525efa7433383d0092af31f59e7ebb7bd3576bb";
  p_time_format := tf_epoch;
  p_secret := "rugs.fun";
  p_salt_format := "{}_salt";
  p_input := "1719792000rugs.fun_salt";
  p_hash_type := SHA256;
  p_match_type := exact
|}.

(** An installation with the same parser whose local time is one hour
    ahead of UTC from April to October, and UTC in the other months. *)
Definition summer_time_platform : Platform := {|
  fromisoformat := isoformat_parse;
  local_to_seconds :=
    fun dt =>
      Some (wall_seconds dt
            - (if (4 <=? month dt) && (month dt <=? 10) then 3600 else 0))%Z
|}.

(** A record with an id whose seed is [md5("rugs.fun")]. *)
Definition salted : game := {|
  gameId := Some "20240103-0a1b2c";
  timestamp := Some "2024-01-03T00:00:00";
  serverSeed := Some "d77b7bf742bb0df54d6da187e26bd23f"
|}.

(** ** The master file of the collector *)

Definition member (key : string) (value : option string)
  : list (string * json) :=
  match value with
  | Some v => [(key, JStr v)]
  | None => []
  end.

(** The decoder above, giving the object as a JSON value. *)
Definition loads_json (s : string) : string + json :=
  match loads s with
  | inr g =>
      inr (JDict (member "gameId" (gameId g)
                  ++ member "timestamp" (timestamp g)
                  ++ member "serverSeed" (serverSeed g))%list)
  | inl e => inl e
  end.

(** A pandas that carries out the conversions on every frame. *)
Definition converts (rows : list (list (string * json))) : option string :=
  None.

Definition new_collector : data_analyzer := {|
  raw_games := [];
  games_df := None
|}.

(** An analyzer created on the file, before any load. *)
Definition fresh : analyzer := {|
  data_path := Some "rugs_data.jsonl";
  games := []
|}.

Definition fresh_on_clean : analyzer := {|
  data_path := Some "clean.jsonl";
  games := []
|}.

End Demo.

(** A loop body is balanced when it prints one line per item it
    appends. *)
Definition balanced {B : Type} (m : M (list B)) : Prop :=
  forall out ys, m = (out, Ok ys) -> List.length out = List.length ys.

(** The line [load_collected_data] prints for a line that does not
    decode. *)
Definition warning_line (line_num : nat) (e : string) : string :=
  "⚠️  Error parsing line " ++ str (Z.of_nat line_num) ++ ": " ++ e.

(** The warnings for the lines of a file, numbered from 1. *)
Definition parse_warnings {J : Type} (json_loads : string -> string + J)
  (lines : list string) : list string :=
  flat_map (fun nl : nat * string =>
              match json_loads (strip (snd nl)) with
              | inl e => [warning_line (fst nl) e]
              | inr _ => []
              end)
           (combine (seq 1 (List.length lines)) lines).

(* ===================================================================== *)
(** * RugsTimeSeedAnalyzer.run_quick_analysis                             *)
(* ===================================================================== *)

(** The head of the method (the test on the number of games and
    [recent_games = self.games[-50:]]) is followed in the source file by
    the loops of the search; its own loops, which read [recent_games], are
    the statements printed after the end of the class.  The embedding
    takes them as the body of the method. *)

(** An entry of [self.hash_candidates].  [c_match_type] is [None] when
    the dict has no ['match_type'] key (a full match). *)
Record candidate : Type := {
  c_timestamp : string;
  c_seed : string;
  c_time_format : time_key;
  c_hash_type : hash_alg;
  c_match_type : option string
}.

(** [x - y] on floats. *)
Definition fsub (x y : float) : float := SFsub prec emax x y.

(** [[game[key] for game in games]]: the first record without the key
    raises [KeyError]. *)
Fixpoint subscript_all (field : game -> option string) (games : list game)
  : option (list string) :=
  match games with
  | [] => Some []
  | g :: r =>
      match field g with
      | None => None
      | Some v =>
          match subscript_all field r with
          | Some vs => Some (v :: vs)
          | None => None
          end
      end
  end.

(** [[epochs[i] - epochs[i-1] for i in range(1, len(epochs))]] *)
Fixpoint differences (epochs : list float) : list float :=
  match epochs with
  | x :: (y :: _) as r => fsub y x :: differences r
  | _ => []
  end.

Section Quick.
Context {platform : Platform}.

(** [sum] over a list of floats, as the installed interpreter computes it
    (a plain left-to-right sum up to CPython 3.11, a compensated one from
    3.12 on). *)
Variable float_sum : list float -> float.

(** [[datetime.datetime.fromisoformat(ts).timestamp() for ts in
    timestamps]] *)
Fixpoint epoch_times (timestamps : list string) : result (list float) :=
  match timestamps with
  | [] => Ok []
  | ts :: r =>
      match fromisoformat ts with
      | None => Raise ValueError
      | Some dt =>
          rbind (Datetime.timestamp dt) (fun t =>
          rbind (epoch_times r) (fun ts' => Ok (t :: ts')))
      end
  end.

(** The [time_formats] dict of the quick analysis: five entries. *)
Definition quick_time_formats (dt : datetime)
  : result (list (time_key * string)) :=
  rbind (Datetime.timestamp dt) (fun t =>
  rbind (int_of_float t) (fun e =>
  rbind (Datetime.timestamp dt) (fun t' =>
  rbind (int_of_float (fmul t' (float_of_int 1000))) (fun ems =>
  Ok [(tf_epoch, str e);
      (tf_epoch_ms, str ems);
      (tf_date, strftime [dY; dm; dd] dt);
      (tf_time, strftime [dH; dM; dS] dt);
      (tf_datetime, strftime [dY; dm; dd; dH; dM; dS] dt)])))).

(** The body of [for name, time_str in time_formats.items()]: the lines
    printed and the candidates appended. *)
Definition quick_check (ts seed : string) (kv : time_key * string)
  : list string * list candidate :=
  let '(name, time_str) := kv in
  let hash_md5 := Hashlib.md5 time_str in
  let hash_sha1 := Hashlib.sha1 time_str in
  let hash_sha256 := Hashlib.sha256 time_str in
  if String.eqb seed hash_md5 || String.eqb seed hash_sha1
     || String.eqb seed hash_sha256
  then
    (["MATCH FOUND: Seed " ++ take 10 seed ++ "... matches "
      ++ time_key_name name ++ " with hash algorithm"],
     [{| c_timestamp := ts; c_seed := seed; c_time_format := name;
         c_hash_type := if String.eqb seed hash_md5 then MD5
                        else if String.eqb seed hash_sha1 then SHA1
                        else SHA256;
         c_match_type := None |}])
  else if startswith seed (take 16 hash_md5)
          || startswith seed (take 16 hash_sha1)
          || startswith seed (take 16 hash_sha256)
  then
    let hash_type := if startswith seed (take 16 hash_md5) then MD5
                     else if startswith seed (take 16 hash_sha1) then SHA1
                     else SHA256 in
    (["PARTIAL MATCH: Seed " ++ take 16 seed ++ " starts with "
      ++ time_key_name name ++ " hash (" ++ hash_alg_name hash_type ++ ")"],
     [{| c_timestamp := ts; c_seed := seed; c_time_format := name;
         c_hash_type := hash_type; c_match_type := Some "partial" |}])
  else ([], []).

(** The body of [for i in range(min(10, len(recent_games)))] for one
    record: it raises before it prints or appends anything, or not at
    all. *)
Definition quick_record (its : string * string)
  : result (list string * list candidate) :=
  let '(ts, seed) := its in
  match fromisoformat ts with
  | None => Raise ValueError
  | Some dt =>
      rbind (quick_time_formats dt) (fun time_formats =>
      let checks := map (quick_check ts seed) time_formats in
      Ok (flat_map fst checks, flat_map snd checks))
  end.

(** The loop over the records: what was printed and appended when it
    ended or raised. *)
Fixpoint quick_loop (items : list (string * string))
  : list string * list candidate * option raised :=
  match items with
  | [] => ([], [], None)
  | its :: r =>
      match quick_record its with
      | Raise e => ([], [], Some (Builtin e))
      | Ok (out, cs) =>
          let '(out', cs', e) := quick_loop r in
          ((out ++ out')%list, (cs ++ cs')%list, e)
      end
  end.

(** The method on [self.games] and [self.hash_candidates]: the lines
    printed, the candidates afterwards, and the exception if one is
    raised. *)
Definition run_quick_analysis (games : list game)
  (hash_candidates : list candidate)
  : list string * list candidate * option raised :=
  if (Z.of_nat (List.length games) <? 10)%Z then
    (["Not enough games for analysis"], hash_candidates, None)
  else
    let recent_games := slice games (Some (-50)%Z) None in
    match subscript_all timestamp recent_games with
    | None => ([], hash_candidates, Some (KeyError "timestamp"))
    | Some timestamps =>
        match subscript_all serverSeed recent_games with
        | None => ([], hash_candidates, Some (KeyError "serverSeed"))
        | Some seeds =>
            match epoch_times timestamps with
            | Raise e => ([], hash_candidates, Some (Builtin e))
            | Ok epochs =>
                let time_diffs := differences epochs in
                match time_diffs with
                | [] => ([], hash_candidates, Some ZeroDivisionError)
                | _ :: _ =>
                    let avg_time_diff :=
                      fdiv (float_sum time_diffs)
                           (float_of_int (Z.of_nat (List.length time_diffs)))
                    in
                    let '(out, cs, e) :=
                      quick_loop (firstn 10 (combine timestamps seeds)) in
                    (("Average time between games: "
                      ++ format_2f avg_time_diff ++ " seconds") :: out,
                     (hash_candidates ++ cs)%list, e)
                end
            end
        end
    end.

End Quick.

(** The candidate is what the quick analysis records when the seed
    matches the digest of [time_str]: the seed is the digest under the
    candidate's algorithm for a full match, and starts with its first
    sixteen characters for a partial one. *)
Definition explains (c : candidate) (time_str : string) : Prop :=
  match c_match_type c with
  | None => c_seed c = digest (c_hash_type c) time_str
  | Some kind =>
      kind = "partial"
      /\ startswith (c_seed c) (take 16 (digest (c_hash_type c) time_str))
         = true
  end.

(* ===================================================================== *)
(** * RugsTimeSeedAnalyzer.test_game_id_pattern                           *)
(* ===================================================================== *)

(** ** Strings by character

    [len] and slices count characters; a character is a lead code unit
    together with the continuation units ([10xxxxxx]) that follow it. *)

Definition is_continuation (c : ascii) : bool :=
  (N_of_ascii c / 64 =? 2)%N.

(** [len(s)] *)
Fixpoint len (s : string) : nat :=
  match s with
  | EmptyString => 0
  | String c r => if is_continuation c then len r else S (len r)
  end.

Fixpoint skip_continuation (s : string) : string :=
  match s with
  | String c r => if is_continuation c then skip_continuation r else s
  | EmptyString => s
  end.

(** [s[n:]] *)
Fixpoint drop_chars (n : nat) (s : string) : string :=
  match n with
  | O => s
  | S k =>
      match s with
      | EmptyString => EmptyString
      | String _ r => drop_chars k (skip_continuation r)
      end
  end.

(** [s[:n]] *)
Fixpoint take_chars (n : nat) (s : string) : string :=
  match s with
  | EmptyString => EmptyString
  | String c r =>
      if is_continuation c then String c (take_chars n r)
      else match n with
           | O => EmptyString
           | S k => String c (take_chars k r)
           end
  end.

(** [s[i:j]] for [0 <= i <= j] *)
Definition chars (i j : nat) (s : string) : string :=
  take_chars (j - i) (drop_chars i s).

(** [s.split(sep)] for a separator of one ASCII character. *)
Fixpoint split (sep : ascii) (s : string) : list string :=
  match s with
  | EmptyString => [EmptyString]
  | String c r =>
      if Ascii.eqb c sep then EmptyString :: split sep r
      else match split sep r with
           | p :: ps => String c p :: ps
           | [] => [String c EmptyString]
           end
  end.

(** ** Dicts of counters, in insertion order *)

(** [d[key] = d.get(key, 0) + 1] *)
Fixpoint bump (key : string) (d : list (string * nat)) : list (string * nat) :=
  match d with
  | [] => [(key, 1)]
  | (k, v) :: r =>
      if String.eqb k key then (k, S v) :: r else (k, v) :: bump key r
  end.

(** [sorted(d.items(), key=lambda x: x[1], reverse=True)]: by decreasing
    count, items with equal counts in their original order.  Each item is
    inserted into the sorted list of the items after it, before the first
    one whose count is not greater. *)
Fixpoint insert_by_count (x : string * nat) (l : list (string * nat))
  : list (string * nat) :=
  match l with
  | [] => [x]
  | y :: r =>
      if Nat.ltb (snd x) (snd y) then y :: insert_by_count x r
      else x :: y :: r
  end.

Definition sorted_by_count (d : list (string * nat)) : list (string * nat) :=
  fold_right insert_by_count [] d.

(** [l.sort(key=lambda x: x[0])] on pairs whose first component is a
    string: by increasing string, equal strings in their original
    order. *)
Fixpoint insert_by_time (x : string * Z) (l : list (string * Z))
  : list (string * Z) :=
  match l with
  | [] => [x]
  | y :: r =>
      if String.ltb (fst y) (fst x) then y :: insert_by_time x r
      else x :: y :: r
  end.

Definition sort_by_time (l : list (string * Z)) : list (string * Z) :=
  fold_right insert_by_time [] l.

(** The dict that the method returns.  On the path that returns,
    [correlation, p_value = 0, 1.0]. *)
Record game_id_analysis : Type := {
  date_patterns : list (string * nat);
  id_patterns : list (string * nat);
  sequential_count : nat;
  time_correlation : number;
  time_correlation_p_value : float
}.

(** An entry of [components]. *)
Record component : Type := {
  game_id : string;
  date_part : string;
  id_part : string
}.

Section GameIds.
Context {platform : Platform} {storage : Storage}.

(** [int(text, base)] of the installed interpreter, [None] when it raises
    [ValueError]. *)
Variable int_of_str : string -> Z -> option Z.

(** [game_ids] *)
Definition game_ids (games : list game) : list string :=
  flat_map (fun g => match gameId g with Some id => [id] | None => [] end)
           games.

(** [components]: the ids made of exactly two parts around one ['-']. *)
Definition components (games : list game) : list component :=
  flat_map (fun id =>
              if contains "-" id then
                match split "-" id with
                | [date; part] =>
                    [{| game_id := id; date_part := date; id_part := part |}]
                | _ => []
                end
              else [])
           (game_ids games).

(** The date part counts when it has eight characters that read as a
    year from 2000 to 2100, a month and a day from 1 to 31. *)
Definition date_like (date : string) : bool :=
  Nat.eqb (len date) 8
  && match int_of_str (chars 0 4 date) 10 with
     | Some year =>
         match int_of_str (chars 4 6 date) 10 with
         | Some month =>
             match int_of_str (chars 6 8 date) 10 with
             | Some day =>
                 ((2000 <=? year) && (year <=? 2100) && (1 <=? month)
                  && (month <=? 12) && (1 <=? day) && (day <=? 31))%Z
             | None => false
             end
         | None => false
         end
     | None => false
     end.

Definition count_dates (comps : list component) : list (string * nat) :=
  fold_left (fun d comp =>
               if date_like (date_part comp) then bump (date_part comp) d
               else d)
            comps [].

Definition is_hex (part : string) : bool :=
  match int_of_str part 16 with
  | Some _ => true
  | None => false
  end.

Definition count_ids (comps : list component) : list (string * nat) :=
  fold_left (fun d comp =>
               let d := if is_hex (id_part comp) then bump "hex" d else d in
               bump ("length_" ++ str (Z.of_nat (len (id_part comp)))) d)
            comps [].

(** [sequential]: the pairs of consecutive components whose id parts are
    hexadecimal numbers that differ by one. *)
Fixpoint count_sequential (comps : list component) : nat :=
  match comps with
  | prev :: (curr :: _) as r =>
      (match int_of_str (id_part prev) 16, int_of_str (id_part curr) 16 with
       | Some prev_int, Some curr_int =>
           if (curr_int - prev_int =? 1)%Z then 1 else 0
       | _, _ => 0
       end + count_sequential r)%nat
  | _ => 0
  end.

(** [time_correlation], before it is sorted. *)
Definition time_id_pairs (games : list game) : list (string * Z) :=
  flat_map (fun g =>
              match gameId g, timestamp g with
              | Some id, Some ts =>
                  if contains "-" id then
                    match nth_error (split "-" id) 1 with
                    | Some part =>
                        match int_of_str part 16 with
                        | Some id_int => [(ts, id_int)]
                        | None => []
                        end
                    | None => []
                    end
                  else []
              | _, _ => []
              end)
           games.

(** [times]: the first timestamp, in sorted order, that does not parse or
    convert raises. *)
Fixpoint correlation_times (pairs : list (string * Z)) : result (list float) :=
  match pairs with
  | [] => Ok []
  | (ts, _) :: r =>
      match fromisoformat ts with
      | None => Raise ValueError
      | Some dt =>
          rbind (Datetime.timestamp dt) (fun t =>
          rbind (correlation_times r) (fun ts' => Ok (t :: ts')))
      end
  end.

Definition pattern_line (item : string * nat) : string :=
  "  - " ++ fst item ++ ": " ++ str (Z.of_nat (snd item)) ++ " occurrences".

(** The lines of the report. *)
Definition game_id_report (n_components : nat) (a : game_id_analysis)
  : list string :=
  let title := newline ++ "=== Game ID Analysis Results ===" in
  let ids_title := newline ++ "ID part patterns:" in
  let sequential :=
    newline ++ "Sequential IDs: " ++ str (Z.of_nat (sequential_count a))
    ++ " out of " ++ str (Z.of_nat n_components - 1) in
  ([title; "Date part patterns:"]
   ++ map pattern_line (firstn 5 (sorted_by_count (date_patterns a)))
   ++ [ids_title]
   ++ map pattern_line (sorted_by_count (id_patterns a))
   ++ [sequential; "Time-ID correlation: 0.0000 (p-value: 1.000000)"])%list.

(** The method: the lines printed, and the exception it raises or the
    value it returns ([None] when no data is available) with the
    analyzer.  [pearsonr] is not a name of the module, so that the call
    raises [NameError] once its arguments are evaluated.  On a scalar,
    [len(self.games)] in the banner would raise [TypeError]. *)
Definition test_game_id_pattern (self : analyzer)
  : list string * (raised + (option game_id_analysis * state)) :=
  let '(out, loaded) :=
    match games self with
    | [] => load_data self
    | _ :: _ => ret (true, Listed self)
    end in
  match loaded with
  | Raise e => (out, inl (Builtin e))
  | Ok (false, self) =>
      ((out ++ ["No data available for analysis"])%list, inr (None, self))
  | Ok (true, Replaced _ _) => (out, inl (Builtin TypeError))
  | Ok (true, Listed self) =>
      let banner := "Analyzing game ID patterns in "
                    ++ str (Z.of_nat (List.length (games self)))
                    ++ " games..." in
      let out := (out ++ [banner])%list in
      let comps := components (games self) in
      let pairs := sort_by_time (time_id_pairs (games self)) in
      match pairs with
      | _ :: _ =>
          match correlation_times pairs with
          | Raise e => (out, inl (Builtin e))
          | Ok _ => (out, inl (NameError "pearsonr"))
          end
      | [] =>
          let a := {| date_patterns := count_dates comps;
                      id_patterns := count_ids comps;
                      sequential_count := count_sequential comps;
                      time_correlation := PyInt 0;
                      time_correlation_p_value := float_of_int 1 |} in
          ((out ++ game_id_report (List.length comps) a)%list,
           inr (Some a, Listed self))
      end
  end.

End GameIds.

(** The sum of the counters of a dict. *)
Definition sum_counts (d : list (string * nat)) : nat :=
  fold_right (fun kv n => snd kv + n) 0 d.

(** [d.get(key, 0)] *)
Definition get_count (key : string) (d : list (string * nat)) : nat :=
  match find (fun kv => String.eqb (fst kv) key) d with
  | Some kv => snd kv
  | None => 0
  end.

(* ===================================================================== *)
(** * The rows of create_analysis_dataframe                               *)
(* ===================================================================== *)

(** The game has the shape that [game_data] needs: it is a dict, and its
    members ['analysis'], ['priceRange'] (inside the analysis) and
    ['collectionMetadata'], when present, are dicts. *)
Definition is_dict (v : json) : bool :=
  match v with
  | JDict _ => true
  | _ => false
  end.

Definition member_or_empty (v : json) (key : string) : json :=
  match get v key (JDict []) with
  | inr m => m
  | inl _ => JNull
  end.

Definition well_shaped (game : json) : bool :=
  is_dict game
  && is_dict (member_or_empty game "analysis")
  && is_dict (member_or_empty (member_or_empty game "analysis") "priceRange")
  && is_dict (member_or_empty game "collectionMetadata").

(** [row['game_number']] *)
Definition game_number (row : list (string * json)) : Z :=
  match find (fun kv => String.eqb (fst kv) "game_number") row with
  | Some (_, JInt z) => z
  | _ => 0
  end.

(** The positions, counted from 0, of the well-shaped games. *)
Definition kept_positions (games : list json) : list nat :=
  map fst (filter (fun ig : nat * json => well_shaped (snd ig))
                  (enumerate games)).

(** The string is made of decimal digits and minus signs only. *)
Definition is_mark (c : ascii) : bool :=
  let n := N_of_ascii c in
  ((48 <=? n) && (n <=? 57) || (n =? 45))%N.

Definition all_marks (s : string) : bool :=
  forallb is_mark (list_ascii_of_string s).

(** The character does not occur in the string. *)
Definition lacks (c : ascii) (s : string) : bool :=
  forallb (fun c' => negb (Ascii.eqb c' c)) (list_ascii_of_string s).

(** Some character of the string is a decimal digit or a minus sign. *)
Definition has_mark (s : string) : bool :=
  existsb is_mark (list_ascii_of_string s).

Definition time_keys : list time_key :=
  [tf_epoch; tf_epoch_ms; tf_date; tf_time; tf_datetime; tf_year; tf_month;
   tf_day; tf_hour; tf_minute; tf_second; tf_microsecond; tf_game_id].

(** The salt holds neither a capital [T] nor a capital [S] and is not the
    name of a time format. *)
Definition plain_salt (salt : string) : bool :=
  lacks "T" salt && lacks "S" salt
  && negb (existsb (fun k => String.eqb salt (time_key_name k)) time_keys).

(** Every salt that the tables give is plain. *)
Definition plain_salts (cfg : tables) : bool :=
  forallb (fun secret =>
             forallb (fun salt_format =>
                        match format salt_format secret with
                        | Ok salt => plain_salt salt
                        | Raise _ => true
                        end)
                     (salt_formats cfg))
          (common_secrets cfg).

(* ===================================================================== *)
(** * RugsTimeSeedAnalyzer.analyze_time_patterns, up to its tests         *)
(* ===================================================================== *)

(** The method is modelled from its first statement to the evaluation of
    [binary_seeds[0]] that opens the loop over the bit positions; the
    statistical tests and the plots that follow are not. *)

(** An entry of [game_id_patterns]; ['date_match'] is [True] in every
    entry. *)
Record date_match : Type := {
  dm_game_id : string;
  dm_date_part : string;
  dm_timestamp : string
}.

(** The lists that the method has built when it reaches its tests. *)
Record time_pattern_inputs : Type := {
  tp_seeds : list string;
  tp_time_diffs : list float;
  tp_game_id_patterns : list date_match;
  tp_seed_time_patterns : list candidate;
  tp_binary_seeds : list string
}.

(** The binary digits of a positive number. *)
Fixpoint bits (p : positive) : string :=
  match p with
  | xH => "1"
  | xO q => bits q ++ "0"
  | xI q => bits q ++ "1"
  end.

(** [bin(z)[2:]]: for a negative number the slice removes ["-0"] and
    leaves the ["b"]. *)
Definition bin_tail (z : Z) : string :=
  match z with
  | Z0 => "0"
  | Zpos p => bits p
  | Zneg p => "b" ++ bits p
  end.

(** [text.zfill(width)] for a text that does not start with a sign. *)
Definition zfill_text (width : nat) (text : string) : string :=
  string_of_list_ascii (repeat "0"%char (width - String.length text)) ++ text.

Section TimePatterns.
Context {platform : Platform} {storage : Storage}.
Variable int_of_str : string -> Z -> option Z.

(** The first loop: the timestamps, seeds and ids of the games that carry
    both ['timestamp'] and ['serverSeed']; such a game without ['gameId']
    raises [KeyError]. *)
Fixpoint complete_games (games : list game)
  : option (list (string * string * string)) :=
  match games with
  | [] => Some []
  | g :: r =>
      match timestamp g, serverSeed g with
      | Some ts, Some seed =>
          match gameId g with
          | None => None
          | Some id =>
              match complete_games r with
              | Some l => Some ((ts, seed, id) :: l)
              | None => None
              end
          end
      | _, _ => complete_games r
      end
  end.

(** [dt_objects] *)
Fixpoint parse_all (timestamps : list string) : result (list datetime) :=
  match timestamps with
  | [] => Ok []
  | ts :: r =>
      match fromisoformat ts with
      | None => Raise ValueError
      | Some dt => rbind (parse_all r) (fun dts => Ok (dt :: dts))
      end
  end.

(** [epoch_times] *)
Fixpoint timestamps_of (dts : list datetime) : result (list float) :=
  match dts with
  | [] => Ok []
  | dt :: r =>
      rbind (Datetime.timestamp dt) (fun t =>
      rbind (timestamps_of r) (fun ts => Ok (t :: ts)))
  end.

(** The body of the loop that fills [game_id_patterns]. *)
Definition date_match_of (item : string * string * string * datetime)
  : list date_match :=
  let '(ts, _, id, dt) := item in
  if contains "-" id then
    match split "-" id with
    | [date; _] =>
        if Nat.eqb (len date) 8
           && String.eqb date (strftime [dY; dm; dd] dt)
        then [{| dm_game_id := id; dm_date_part := date;
                 dm_timestamp := ts |}]
        else []
    | _ => []
    end
  else [].

(** The [time_formats] dict of the loop that fills [seed_time_patterns]:
    six entries, the last one the id of the game. *)
Definition pattern_time_formats (dt : datetime) (id : string)
  : result (list (time_key * string)) :=
  rbind (Datetime.timestamp dt) (fun t =>
  rbind (int_of_float t) (fun e =>
  rbind (Datetime.timestamp dt) (fun t' =>
  rbind (int_of_float (fmul t' (float_of_int 1000))) (fun ems =>
  Ok [(tf_epoch, str e);
      (tf_epoch_ms, str ems);
      (tf_date, strftime [dY; dm; dd] dt);
      (tf_time, strftime [dH; dM; dS] dt);
      (tf_datetime, strftime [dY; dm; dd; dH; dM; dS] dt);
      (tf_game_id, id)])))).

(** The body of [for name, time_str in time_formats.items()]. *)
Definition pattern_check (ts seed : string) (kv : time_key * string)
  : list candidate :=
  let '(name, time_str) := kv in
  let hash_md5 := Hashlib.md5 time_str in
  let hash_sha1 := Hashlib.sha1 time_str in
  let hash_sha256 := Hashlib.sha256 time_str in
  if String.eqb seed hash_md5 || String.eqb seed hash_sha1
     || String.eqb seed hash_sha256
  then
    [{| c_timestamp := ts; c_seed := seed; c_time_format := name;
        c_hash_type := if String.eqb seed hash_md5 then MD5
                       else if String.eqb seed hash_sha1 then SHA1
                       else SHA256;
        c_match_type := Some "full" |}]
  else if startswith seed (take 16 hash_md5)
          || startswith seed (take 16 hash_sha1)
          || startswith seed (take 16 hash_sha256)
  then
    [{| c_timestamp := ts; c_seed := seed; c_time_format := name;
        c_hash_type := if startswith seed (take 16 hash_md5) then MD5
                       else if startswith seed (take 16 hash_sha1) then SHA1
                       else SHA256;
        c_match_type := Some "partial" |}]
  else [].

(** The loop that fills [seed_time_patterns]. *)
Fixpoint seed_time_patterns (items : list (string * string * string * datetime))
  : result (list candidate) :=
  match items with
  | [] => Ok []
  | (ts, seed, id, dt) :: r =>
      rbind (pattern_time_formats dt id) (fun time_formats =>
      rbind (seed_time_patterns r) (fun found =>
      Ok (flat_map (pattern_check ts seed) time_formats ++ found)%list))
  end.

(** The loop that fills [binary_seeds]. *)
Fixpoint binary_seeds (seeds : list string) : result (list string) :=
  match seeds with
  | [] => Ok []
  | seed :: r =>
      match int_of_str seed 16 with
      | None => Raise ValueError
      | Some z =>
          rbind (binary_seeds r) (fun l =>
          Ok (zfill_text (len seed * 4) (bin_tail z) :: l))
      end
  end.

Definition raise_or {A B : Type} (r : result A) (f : A -> raised + B)
  : raised + B :=
  match r with
  | Ok a => f a
  | Raise e => inl (Builtin e)
  end.

(** What the statements before the tests compute from [self.games], or
    the exception that one of them raises. *)
Definition time_pattern_lists (games : list game)
  : raised + time_pattern_inputs :=
  match complete_games games with
  | None => inl (KeyError "gameId")
  | Some complete =>
      let timestamps := map (fun c => fst (fst c)) complete in
      let seeds := map (fun c => snd (fst c)) complete in
      raise_or (parse_all timestamps) (fun dt_objects =>
      raise_or (timestamps_of dt_objects) (fun epochs =>
      let items := combine complete dt_objects in
      raise_or (seed_time_patterns items) (fun found =>
      raise_or (binary_seeds seeds) (fun binary =>
      match binary with
      | [] => inl (Builtin IndexError)
      | _ :: _ =>
          inr {| tp_seeds := seeds;
                 tp_time_diffs := differences epochs;
                 tp_game_id_patterns := flat_map date_match_of items;
                 tp_seed_time_patterns := found;
                 tp_binary_seeds := binary |}
      end))))
  end.

(** The method up to its tests: the lines printed so far, and the
    exception raised, [None] when no data is available, or the lists the
    tests start from.  On a scalar, [len(self.games)] in the banner would
    raise [TypeError]. *)
Definition analyze_time_patterns_start (self : analyzer)
  : list string * (raised + (option time_pattern_inputs * state)) :=
  let '(out, loaded) :=
    match games self with
    | [] => load_data self
    | _ :: _ => ret (true, Listed self)
    end in
  match loaded with
  | Raise e => (out, inl (Builtin e))
  | Ok (false, self) =>
      ((out ++ ["No data available for analysis"])%list, inr (None, self))
  | Ok (true, Replaced _ _) => (out, inl (Builtin TypeError))
  | Ok (true, Listed self) =>
      let banner := "Analyzing time patterns in "
                    ++ str (Z.of_nat (List.length (games self)))
                    ++ " games..." in
      ((out ++ [banner])%list,
       match time_pattern_lists (games self) with
       | inl e => inl e
       | inr lists => inr (Some lists, Listed self)
       end)
  end.

End TimePatterns.

(* ===================================================================== *)
(** * Concrete data for the analyses                                      *)
(* ===================================================================== *)

Module Cases.
Local Open Scope Z_scope.

(** ** An interpreter

    [int(text, base)] on plain digit strings (no sign, blank, prefix or
    underscore) and the left-to-right [sum] of CPython up to 3.11. *)

Definition digit_of (base : Z) (c : ascii) : option Z :=
  let n := Z.of_N (N_of_ascii c) in
  let v := if (48 <=? n) && (n <=? 57) then n - 48
           else if (97 <=? n) && (n <=? 102) then n - 87
           else if (65 <=? n) && (n <=? 70) then n - 55
           else base in
  if v <? base then Some v else None.

Fixpoint digits_of (base acc : Z) (text : string) : option Z :=
  match text with
  | EmptyString => Some acc
  | String c r =>
      match digit_of base c with
      | Some v => digits_of base (acc * base + v) r
      | None => None
      end
  end.

Definition int_of_str (text : string) (base : Z) : option Z :=
  match text with
  | EmptyString => None
  | _ => digits_of base 0 text
  end.

Definition left_sum (l : list float) : float :=
  fold_left fadd l (float_of_int 0).

(** ** Games *)

(** A game whose seed is [md5("20240101")], the date of its timestamp. *)
Definition dated : game := {|
  gameId := Some "20240101-zz";
  timestamp := Some "2024-01-01T00:00:00";
  serverSeed := Some "8696f8389f115a3bbb8208946b990cc1"
|}.

Definition ten_games : list game := repeat dated 10%nat.

Definition dated_candidate : candidate := {|
  c_timestamp := "2024-01-01T00:00:00";
  c_seed := "8696f8389f115a3bbb8208946b990cc1";
  c_time_format := tf_date;
  c_hash_type := MD5;
  c_match_type := None
|}.

Definition dated_formats : list (time_key * string) :=
  [(tf_epoch, "1704067200"); (tf_epoch_ms, "1704067200000");
   (tf_date, "20240101"); (tf_time, "000000");
   (tf_datetime, "20240101000000")].

(** ** Analyzers *)

Definition only_unrevealed : analyzer := {|
  data_path := None;
  games := [Demo.unrevealed]
|}.

Definition with_hex_id : analyzer := {|
  data_path := None;
  games := [Demo.seeded; Demo.with_id]
|}.

Definition without_ids : analyzer := {|
  data_path := None;
  games := [Demo.seeded]
|}.

Definition with_dated : analyzer := {|
  data_path := None;
  games := [dated]
|}.

Definition with_two_dated : analyzer := {|
  data_path := None;
  games := [dated; dated]
|}.

Definition on_missing_jsonl : analyzer := {|
  data_path := Some "missing.jsonl";
  games := [Demo.seeded]
|}.

Definition on_missing_json : analyzer := {|
  data_path := Some "missing.json";
  games := [Demo.seeded]
|}.

(** An analyzer on a file that holds the number [5]. *)
Definition on_count_json : analyzer := {|
  data_path := Some "count.json";
  games := [Demo.seeded]
|}.

(** ** Decoded games of the collector *)

Definition plain_game : json :=
  JDict [("gameId", JStr "20240101-a1b2c3");
         ("analysis", JDict [("peakMultiplier", JInt 3)])].

Definition null_analysis : json :=
  JDict [("gameId", JStr "20240101-d4e5f6"); ("analysis", JNull)].

Definition collected : list json := [plain_game; null_analysis; JDict []].

End Cases.

(* ===================================================================== *)
(** * Facts about the digests                                             *)
(* ===================================================================== *)

(** Test vectors of RFC 1321 and FIPS 180-4. *)
Example md5_test_vectors :
  Hashlib.md5 "" = "d41d8cd98f00b204e9800998ecf8427e"
  /\ Hashlib.md5 "abc" = "900150983cd24fb0d6963f7d28e17f72".
Proof. split; vm_compute; reflexivity. Qed.

Example sha1_test_vectors :
  Hashlib.sha1 "" = "da39a3ee5e6b4b0d3255bfef95601890afd80709"
  /\ Hashlib.sha1 "abc" = "a9993e364706816aba3e25717850c26c9cd0d89d".
Proof. split; vm_compute; reflexivity. Qed.

Example sha256_test_vectors :
  Hashlib.sha256 ""
  = "e3b0c44298fc1c149afbf4c8996fb92427ae41e4649b934ca495991b7852b855"
  /\ Hashlib.sha256 "abc"
     = "ba7816bf8f01cfea414140de5dae2223b00361a396177a9cb410ff61f20015ad".
Proof. split; vm_compute; reflexivity. Qed.

(** A message that needs a second block: 56 and 119 bytes. *)
Example two_block_vectors :
  let a56 := string_of_list_ascii (repeat "a"%char 56) in
  let a119 := string_of_list_ascii (repeat "a"%char 119) in
  Hashlib.md5 a56 = "3b0c8ac703f828b04c6c197006d17218"
  /\ Hashlib.sha1 a119 = "ee971065aaa017e0632a8ca6c77bb3bf8b1dfc56"
  /\ Hashlib.sha256 a119
     = "31eba51c313a5c08226adf18d4a359cfdfd8d2e816b13f4af952f7ea6584dcfb".
Proof. repeat split; vm_compute; reflexivity. Qed.

Lemma md5_length (s : string) : String.length (Hashlib.md5 s) = 32.
Proof.
  unfold Hashlib.md5.
  destruct (fold_left _ _ _) as [[[a b] c] d].
  reflexivity.
Qed.

Lemma sha1_length (s : string) : String.length (Hashlib.sha1 s) = 40.
Proof.
  unfold Hashlib.sha1.
  destruct (fold_left _ _ _) as [[[[a b] c] d] e].
  reflexivity.
Qed.

Lemma sha256_length (s : string) : String.length (Hashlib.sha256 s) = 64.
Proof.
  unfold Hashlib.sha256.
  destruct (fold_left _ _ _) as [[[[[[[a b] c] d] e] f] g] h].
  reflexivity.
Qed.

Lemma digest_length (h : hash_alg) (s : string) :
  String.length (digest h s) = digest_size h.
Proof.
  destruct h; simpl;
    [apply md5_length | apply sha1_length | apply sha256_length].
Qed.

(** Digests of different algorithms differ: they differ in length. *)
Lemma digest_alg_inj (h h' : hash_alg) (s s' : string) :
  digest h s = digest h' s' -> h = h'.
Proof.
  intros E. apply (f_equal String.length) in E.
  rewrite !digest_length in E.
  destruct h, h'; simpl in E; try reflexivity; discriminate.
Qed.

(* ===================================================================== *)
(** * Facts about strings                                                 *)
(* ===================================================================== *)

Lemma prefix_refl (s : string) : String.prefix s s = true.
Proof.
  induction s as [|c s IH]; simpl; [reflexivity|].
  destruct (ascii_dec c c) as [_|N]; [exact IH | now elim N].
Qed.

Lemma prefix_take (n : nat) (s : string) : String.prefix (take n s) s = true.
Proof.
  revert s. induction n as [|n IH]; intros [|c s]; simpl; try reflexivity.
  destruct (ascii_dec c c) as [_|N]; [apply IH | now elim N].
Qed.

(** A string starts with the first characters of itself. *)
Lemma startswith_take (n : nat) (s : string) : startswith s (take n s) = true.
Proof. apply prefix_take. Qed.

Lemma truthy_app_l (a b : string) : truthy a = true -> truthy (a ++ b) = true.
Proof. destruct a; simpl; [discriminate | reflexivity]. Qed.

Lemma truthy_app_r (a b : string) : truthy b = true -> truthy (a ++ b) = true.
Proof. destruct a; simpl; [trivial | reflexivity]. Qed.

Lemma truthy_str (z : Z) : truthy (str z) = true.
Proof.
  unfold str, NilZero.string_of_int.
  destruct (Z.to_int z) as [d|d]; [|reflexivity].
  destruct d; reflexivity.
Qed.

Lemma truthy_zfill (w : nat) (z : Z) : truthy (zfill w z) = true.
Proof. unfold zfill. apply truthy_app_r, truthy_str. Qed.

Lemma truthy_strftime (d : directive) (ds : list directive) (dt : datetime) :
  truthy (strftime (d :: ds) dt) = true.
Proof.
  unfold strftime. simpl.
  assert (F : truthy (strftime_field dt d) = true)
    by (destruct d; apply truthy_zfill).
  destruct (map (strftime_field dt) ds); [exact F|].
  now apply truthy_app_l.
Qed.

Open Scope list_scope.

(* ===================================================================== *)
(** * The output and exception monad                                      *)
(* ===================================================================== *)

Lemma returns_ok {A : Type} (m : M A) :
  returns m <-> exists out a, m = (out, Ok a).
Proof.
  unfold returns, outcome. destruct m as [out [a|e]]; simpl; split.
  - intros _. now exists out, a.
  - reflexivity.
  - discriminate.
  - intros (o & a & E). discriminate.
Qed.

Lemma returns_ret {A : Type} (a : A) : returns (ret a).
Proof. reflexivity. Qed.

Lemma returns_bind {A B : Type} (m : M A) (f : A -> M B) :
  returns (bind m f) <-> exists out a, m = (out, Ok a) /\ returns (f a).
Proof.
  unfold returns, outcome, bind. destruct m as [out [a|e]]; simpl.
  - destruct (f a) as [out' r] eqn:E. simpl. split.
    + intros H. exists out, a. rewrite E. now split.
    + intros (o & a' & Em & H). inversion Em; subst. now rewrite E in H.
  - split; [discriminate|]. intros (o & a & Em & _). discriminate.
Qed.

Lemma bind_ok {A B : Type} (m : M A) (f : A -> M B) out a :
  m = (out, Ok a) ->
  bind m f = (out ++ stdout (f a), outcome (f a)).
Proof. intros ->. unfold bind, stdout, outcome. now destruct (f a). Qed.

Lemma bind_raise {A B : Type} (m : M A) (f : A -> M B) out e :
  m = (out, Raise e) -> bind m f = (out, Raise e).
Proof. now intros ->. Qed.

Lemma appended_ok {B : Type} (m : M (list B)) out ys :
  m = (out, Ok ys) -> appended m = ys.
Proof. now intros ->. Qed.

Lemma returns_for_each {A B : Type} (body : A -> M (list B)) (l : list A) :
  returns (for_each l body) <-> forall x, In x l -> returns (body x).
Proof.
  induction l as [|x l IH]; simpl.
  - split; [intros _ y []| intros _; apply returns_ret].
  - rewrite returns_bind. split.
    + intros (out & ys & Ex & H) y [<-|Hy].
      * apply returns_ok. eauto.
      * apply returns_bind in H. destruct H as (o & zs & El & _).
        apply IH; [apply returns_ok; eauto | exact Hy].
    + intros H.
      destruct (proj1 (returns_ok (body x)) (H x (or_introl eq_refl)))
        as (out & ys & Ex).
      exists out, ys. split; [exact Ex|].
      apply returns_bind.
      assert (R : returns (for_each l body))
        by (apply IH; intros y Hy; apply H; now right).
      apply returns_ok in R. destruct R as (o & zs & El).
      exists o, zs. split; [exact El | apply returns_ret].
Qed.

(** A loop that returns has appended what its iterations appended and has
    printed what they printed, in order. *)
Lemma for_each_returns {A B : Type} (body : A -> M (list B)) (l : list A) :
  returns (for_each l body) ->
  for_each l body
  = (flat_map (fun x => stdout (body x)) l,
     Ok (flat_map (fun x => appended (body x)) l)).
Proof.
  induction l as [|x l IH]; intros R; [reflexivity|].
  assert (Rx : returns (body x))
    by (apply (proj1 (returns_for_each body (x :: l)) R); now left).
  assert (Rl : returns (for_each l body)).
  { apply returns_for_each. intros y Hy.
    apply (proj1 (returns_for_each body (x :: l)) R). now right. }
  specialize (IH Rl). apply returns_ok in Rx. destruct Rx as (out & ys & Ex).
  simpl. rewrite (bind_ok _ _ _ _ Ex). rewrite IH. simpl.
  rewrite Ex. unfold appended, stdout, outcome. simpl.
  now rewrite app_nil_r.
Qed.

Lemma appended_for_each {A B : Type} (body : A -> M (list B)) (l : list A) :
  returns (for_each l body) ->
  appended (for_each l body) = flat_map (fun x => appended (body x)) l.
Proof. intros R. now rewrite (for_each_returns body l R). Qed.

Lemma in_appended_for_each {A B : Type} (body : A -> M (list B)) (l : list A)
  (z : B) :
  returns (for_each l body) ->
  In z (appended (for_each l body))
  <-> exists x, In x l /\ In z (appended (body x)).
Proof. intros R. rewrite (appended_for_each body l R). apply in_flat_map. Qed.

(** The first iteration that raises stops the loop. *)
Lemma for_each_raises {A B : Type} (body : A -> M (list B)) (pre post : list A)
  (x : A) (out : list string) (e : exn) :
  returns (for_each pre body) ->
  body x = (out, Raise e) ->
  for_each (pre ++ x :: post) body
  = (stdout (for_each pre body) ++ out, Raise e).
Proof.
  induction pre as [|y pre IH]; intros R Ex.
  - simpl. now rewrite (bind_raise _ _ _ _ Ex).
  - assert (Ry : returns (body y))
      by (apply (proj1 (returns_for_each body (y :: pre)) R); now left).
    assert (Rp : returns (for_each pre body)).
    { apply returns_for_each. intros z Hz.
      apply (proj1 (returns_for_each body (y :: pre)) R). now right. }
    apply returns_ok in Ry. destruct Ry as (oy & ys & Ey).
    simpl. rewrite !(bind_ok _ _ _ _ Ey). rewrite (IH Rp Ex).
    rewrite (for_each_returns body pre Rp). simpl.
    now rewrite app_nil_r, app_assoc.
Qed.

Lemma in_enumerate {A : Type} (l : list A) (i : nat) (x : A) :
  In (i, x) (enumerate l) <-> nth_error l i = Some x.
Proof.
  unfold enumerate.
  assert (G : forall (l : list A) k i x,
             In (i, x) (combine (seq k (List.length l)) l)
             <-> k <= i /\ nth_error l (i - k) = Some x).
  { clear. induction l as [|y l IH]; intros k i x; simpl.
    - split; [intros []|]. intros [_ H]. now destruct (i - k).
    - rewrite IH. split.
      + intros [E|[Hk Hn]].
        * inversion E; subst. split; [lia|]. now rewrite Nat.sub_diag.
        * split; [lia|]. replace (i - k) with (S (i - S k)) by lia. exact Hn.
      + intros [Hk Hn]. destruct (Nat.eq_dec i k) as [->|Ne].
        * left. rewrite Nat.sub_diag in Hn. simpl in Hn. now inversion Hn.
        * right. split; [lia|].
          replace (i - k) with (S (i - S k)) in Hn by lia. exact Hn. }
  rewrite G. rewrite Nat.sub_0_r. split; [now intros [_ H] | intros H; split; [lia | exact H]].
Qed.

(* ===================================================================== *)
(** * The six comparisons                                                 *)
(* ===================================================================== *)

(** [check_input] records the first comparison that holds, and nothing
    when none holds; it never raises. *)
Lemma check_input_first_match (i : nat) (seed : string) (key : time_key)
  (secret salt_format test_input : string) :
  check_input i seed key secret salt_format test_input
  = match first_match seed test_input with
    | Some hk =>
        ([found_line hk seed test_input],
         Ok [mk_pattern i seed key secret salt_format test_input
                        (fst hk) (snd hk)])
    | None => ([], Ok [])
    end.
Proof.
  unfold check_input, first_match, comparisons, comparison_holds, found_line.
  cbn [find fst snd digest hash_alg_label].
  destruct (String.eqb seed (Hashlib.md5 test_input)); [reflexivity|].
  destruct (String.eqb seed (Hashlib.sha1 test_input)); [reflexivity|].
  destruct (String.eqb seed (Hashlib.sha256 test_input)); [reflexivity|].
  destruct (startswith seed (take 16 (Hashlib.md5 test_input)));
    [reflexivity|].
  destruct (startswith seed (take 16 (Hashlib.sha1 test_input)));
    [reflexivity|].
  destruct (startswith seed (take 16 (Hashlib.sha256 test_input)));
    reflexivity.
Qed.

Lemma returns_check_input i seed key secret salt_format test_input :
  returns (check_input i seed key secret salt_format test_input).
Proof.
  rewrite check_input_first_match.
  now destruct (first_match seed test_input).
Qed.

Lemma appended_check_input i seed key secret salt_format test_input :
  appended (check_input i seed key secret salt_format test_input)
  = match first_match seed test_input with
    | Some hk =>
        [mk_pattern i seed key secret salt_format test_input (fst hk) (snd hk)]
    | None => []
    end.
Proof.
  rewrite check_input_first_match.
  now destruct (first_match seed test_input).
Qed.

(** An exact match of the digest is the first comparison that holds. *)
Lemma first_match_exact (h : hash_alg) (test_input : string) :
  first_match (digest h test_input) test_input = Some (h, exact).
Proof.
  unfold first_match, comparisons, comparison_holds.
  destruct h; cbn [find fst snd digest].
  - now rewrite String.eqb_refl.
  - destruct (String.eqb_spec (Hashlib.sha1 test_input) (Hashlib.md5 test_input)) as [E|_].
    + apply (digest_alg_inj SHA1 MD5) in E. discriminate.
    + now rewrite String.eqb_refl.
  - destruct (String.eqb_spec (Hashlib.sha256 test_input) (Hashlib.md5 test_input)) as [E|_].
    + apply (digest_alg_inj SHA256 MD5) in E. discriminate.
    + destruct (String.eqb_spec (Hashlib.sha256 test_input) (Hashlib.sha1 test_input)) as [E|_].
      * apply (digest_alg_inj SHA256 SHA1) in E. discriminate.
      * now rewrite String.eqb_refl.
Qed.

(** What [first_match] returns holds, and no earlier comparison does. *)
Lemma first_match_some (seed test_input : string) (hk : hash_alg * match_kind) :
  first_match seed test_input = Some hk <->
  exists before after,
    comparisons = before ++ hk :: after
    /\ comparison_holds seed test_input hk = true
    /\ forall hk', In hk' before -> comparison_holds seed test_input hk' = false.
Proof.
  unfold first_match. generalize comparisons as l.
  induction l as [|c l IH]; simpl.
  - split; [discriminate|]. intros (b & a & E & _). now destruct b.
  - destruct (comparison_holds seed test_input c) eqn:Hc.
    + split.
      * intros E. inversion E; subst. exists [], l. repeat split; [exact Hc|].
        intros ? [].
      * intros (b & a & E & Hh & Hb). destruct b as [|c' b].
        -- simpl in E. now inversion E.
        -- simpl in E. inversion E; subst.
           rewrite (Hb c' (or_introl eq_refl)) in Hc. discriminate.
    + rewrite IH. split.
      * intros (b & a & -> & Hh & Hb). exists (c :: b), a.
        repeat split; [exact Hh|]. intros hk' [<-|H]; [exact Hc | now apply Hb].
      * intros (b & a & E & Hh & Hb). destruct b as [|c' b].
        -- simpl in E. inversion E; subst. rewrite Hh in Hc. discriminate.
        -- simpl in E. inversion E; subst. exists b, a.
           repeat split; [exact Hh|]. intros hk' H. apply Hb. now right.
Qed.

Lemma first_match_none (seed test_input : string) :
  first_match seed test_input = None <->
  forall hk, In hk comparisons -> comparison_holds seed test_input hk = false.
Proof.
  unfold first_match. split.
  - intros H hk Hin. exact (find_none _ _ H hk Hin).
  - intros H. destruct (find _ _) as [hk|] eqn:E; [|reflexivity].
    apply find_some in E. destruct E as [Hin Hh].
    rewrite (H hk Hin) in Hh. discriminate.
Qed.

(* ===================================================================== *)
(** * Candidate generation                                                *)
(* ===================================================================== *)

Lemma bind_lift_ok {A B : Type} (a : A) (f : A -> M B) :
  bind (lift (Ok a)) f = f a.
Proof. unfold bind, lift. now destruct (f a). Qed.

Lemma bind_lift_raise {A B : Type} (e : exn) (f : A -> M B) :
  bind (lift (Raise e)) f = ([], Raise e).
Proof. reflexivity. Qed.

Section Generation.
Context {platform : Platform}.

(** ** The pool *)

Lemma in_timestamps_seeds (sample : list game) (ts seed : string) :
  In (ts, seed) (timestamps_seeds sample)
  <-> exists g, In g sample /\ timestamp g = Some ts
                /\ serverSeed g = Some seed.
Proof.
  unfold timestamps_seeds. rewrite in_flat_map. split.
  - intros (g & Hg & Hin). exists g. split; [exact Hg|].
    destruct (timestamp g), (serverSeed g); simpl in Hin;
      try contradiction.
    destruct Hin as [E|[]]. now inversion E.
  - intros (g & Hg & Et & Es). exists g. split; [exact Hg|].
    rewrite Et, Es. now left.
Qed.

Lemma rev_last {A : Type} (l rest : list A) (x d : A) :
  rev l = x :: rest -> last l d = x.
Proof.
  intros E. apply (f_equal (@rev A)) in E. rewrite rev_involutive in E.
  subst l. simpl. apply last_last.
Qed.

(** ** The dict of time formats *)

(** Whether the dict can be built does not depend on the game. *)
Lemma time_formats_ok_irrel (dt : datetime) (g g' : game) :
  is_ok (time_formats dt g) = is_ok (time_formats dt g').
Proof.
  unfold time_formats.
  destruct (Datetime.timestamp dt) as [t|e]; [|reflexivity]. simpl.
  destruct (int_of_float t); [|reflexivity]. simpl.
  destruct (int_of_float _); reflexivity.
Qed.

(** The dict holds, for each key, the value that the validator
    recomputes for it. *)
Lemma time_formats_time_val_of (dt : datetime) (game : game)
  (tbl : list (time_key * string)) (key : time_key) (time_val : string) :
  time_formats dt game = Ok tbl ->
  In (key, time_val) tbl <-> time_val_of key dt game = Ok time_val.
Proof.
  unfold time_formats, time_val_of.
  destruct (Datetime.timestamp dt) as [t|e]; [|discriminate]. simpl.
  destruct (int_of_float t) as [e1|]; [|discriminate]. simpl.
  destruct (int_of_float (fmul _ _)) as [e2|]; [|discriminate]. simpl.
  intros E. inversion E; subst; clear E. split.
  - intros H. simpl in H.
    repeat (destruct H as [H|H]; [now inversion H|]). contradiction.
  - intros H. destruct key; inversion H; subst; simpl; tauto.
Qed.

(** Every value derived from the timestamp is a non-empty string: only
    the game id can be empty. *)
Lemma time_val_truthy (key : time_key) (dt : datetime) (game : game)
  (time_val : string) :
  time_val_of key dt game = Ok time_val ->
  key <> tf_game_id ->
  truthy time_val = true.
Proof.
  unfold time_val_of. intros H Hk.
  destruct key; try (now elim Hk);
    try (inversion H; subst; first [apply truthy_strftime | apply truthy_str]).
  - destruct (Datetime.timestamp dt); [|discriminate]. simpl in H.
    destruct (int_of_float _); inversion H. apply truthy_str.
  - destruct (Datetime.timestamp dt); [|discriminate]. simpl in H.
    destruct (int_of_float _); inversion H. apply truthy_str.
Qed.

(** ** One (secret, template) combination *)

Lemma try_salt_format_ok i seed key time_val secret salt_format salt :
  format salt_format secret = Ok salt ->
  try_salt_format i seed key time_val secret salt_format
  = for_each (test_inputs time_val salt)
             (check_input i seed key secret salt_format).
Proof.
  intros E. unfold try_salt_format. rewrite E, bind_lift_ok. reflexivity.
Qed.

Lemma returns_inputs i seed key secret salt_format (inputs : list string) :
  returns (for_each inputs (check_input i seed key secret salt_format)).
Proof. apply returns_for_each. intros x _. apply returns_check_input. Qed.

Lemma returns_try_salt_format i seed key time_val secret salt_format :
  returns (try_salt_format i seed key time_val secret salt_format)
  <-> is_ok (format salt_format secret) = true.
Proof.
  destruct (format salt_format secret) as [salt|e] eqn:E.
  - rewrite (try_salt_format_ok _ _ _ _ _ _ _ E).
    split; [reflexivity | intros _; apply returns_inputs].
  - unfold try_salt_format. rewrite E, bind_lift_raise. simpl.
    split; intros H; exact H.
Qed.

Lemma in_try_salt_format i seed key time_val secret salt_format p :
  In p (appended (try_salt_format i seed key time_val secret salt_format))
  <-> exists salt test_input hk,
        format salt_format secret = Ok salt
        /\ In test_input (test_inputs time_val salt)
        /\ first_match seed test_input = Some hk
        /\ p = mk_pattern i seed key secret salt_format test_input
                          (fst hk) (snd hk).
Proof.
  destruct (format salt_format secret) as [salt|e] eqn:E.
  - rewrite (try_salt_format_ok _ _ _ _ _ _ _ E).
    rewrite (in_appended_for_each _ _ _ (returns_inputs _ _ _ _ _ _)).
    split.
    + intros (x & Hx & Hp). rewrite appended_check_input in Hp.
      destruct (first_match seed x) as [hk|] eqn:F; [|contradiction].
      destruct Hp as [<-|[]]. exists salt, x, hk. auto.
    + intros (salt' & x & hk & Es & Hx & F & ->). inversion Es; subst salt'.
      exists x. split; [exact Hx|].
      rewrite appended_check_input, F. now left.
  - unfold try_salt_format. rewrite E, bind_lift_raise.
    unfold appended, outcome. simpl. split; [intros []|].
    intros (salt & _ & _ & Es & _). discriminate.
Qed.

(** ** One time format *)

Lemma returns_try_time_format cfg i seed key time_val :
  tables_ok cfg = true ->
  returns (try_time_format cfg i seed (key, time_val)).
Proof.
  intros T. unfold try_time_format.
  destruct (truthy time_val); simpl; [|apply returns_ret].
  apply returns_for_each. intros secret Hs.
  apply returns_for_each. intros salt_format Hf.
  apply returns_try_salt_format.
  unfold tables_ok in T. rewrite forallb_forall in T.
  specialize (T secret Hs). rewrite forallb_forall in T. now apply T.
Qed.

Lemma in_try_time_format cfg i seed key time_val p :
  returns (try_time_format cfg i seed (key, time_val)) ->
  In p (appended (try_time_format cfg i seed (key, time_val)))
  <-> truthy time_val = true
      /\ exists secret salt_format,
           In secret (common_secrets cfg)
           /\ In salt_format (salt_formats cfg)
           /\ In p (appended (try_salt_format i seed key time_val secret
                                              salt_format)).
Proof.
  unfold try_time_format. destruct (truthy time_val); simpl.
  - intros R. rewrite (in_appended_for_each _ _ _ R). split.
    + intros (secret & Hs & Hp). split; [reflexivity|].
      assert (R' := proj1 (returns_for_each _ _) R secret Hs).
      rewrite (in_appended_for_each _ _ _ R') in Hp.
      destruct Hp as (salt_format & Hf & Hp). eauto.
    + intros (_ & secret & salt_format & Hs & Hf & Hp).
      exists secret. split; [exact Hs|].
      assert (R' := proj1 (returns_for_each _ _) R secret Hs).
      rewrite (in_appended_for_each _ _ _ R'). eauto.
  - intros _. split; [intros [] | intros [E _]; discriminate].
Qed.

(** ** One record *)

Lemma scan_record_ok cfg game i ts seed dt tbl :
  fromisoformat ts = Some dt ->
  time_formats dt game = Ok tbl ->
  scan_record cfg game (i, (ts, seed))
  = for_each tbl (try_time_format cfg i seed).
Proof.
  intros Ed Et. unfold scan_record. rewrite Ed, Et, bind_lift_ok.
  reflexivity.
Qed.

Lemma returns_scan_record_inv cfg game i ts seed :
  returns (scan_record cfg game (i, (ts, seed))) ->
  exists dt tbl, fromisoformat ts = Some dt /\ time_formats dt game = Ok tbl.
Proof.
  intros R. unfold scan_record in R.
  destruct (fromisoformat ts) as [dt|] eqn:Ed; [|discriminate].
  destruct (time_formats dt game) as [tbl|e] eqn:Et; [eauto|].
  rewrite bind_lift_raise in R. discriminate.
Qed.

Lemma returns_scan_record cfg game i ts seed :
  tables_ok cfg = true ->
  timestamp_ok ts = true ->
  returns (scan_record cfg game (i, (ts, seed))).
Proof.
  intros T. unfold timestamp_ok.
  destruct (fromisoformat ts) as [dt|] eqn:Ed; [|discriminate].
  rewrite (time_formats_ok_irrel dt _ game).
  destruct (time_formats dt game) as [tbl|e] eqn:Et; [|discriminate].
  intros _. rewrite (scan_record_ok _ _ _ _ _ _ _ Ed Et).
  apply returns_for_each. intros [key time_val] _.
  now apply returns_try_time_format.
Qed.

(** ** The whole generation *)

(** With tables whose templates format and a sample whose timestamps are
    usable, the generation returns. *)
Lemma candidate_generation_returns cfg sample :
  tables_ok cfg = true ->
  sample_ok sample = true ->
  returns (candidate_generation cfg sample).
Proof.
  intros T S. unfold candidate_generation.
  destruct (rev sample) as [|game rest]; [apply returns_ret|].
  apply returns_for_each. intros [i [ts seed]] Hin.
  apply in_enumerate, nth_error_In, in_timestamps_seeds in Hin.
  destruct Hin as (g & Hg & Et & Es).
  apply returns_scan_record; [exact T|].
  unfold sample_ok in S. rewrite forallb_forall in S. specialize (S g Hg).
  unfold has_both in S. rewrite Et, Es in S. exact S.
Qed.

(** What a returning generation has recorded: a pattern for every
    candidate input whose first matching comparison exists, and nothing
    else.  [d] is any game: the last record of a non-empty sample does not
    depend on it. *)
Lemma found_iff cfg sample out found (d : game) (p : pattern) :
  candidate_generation cfg sample = (out, Ok found) ->
  In p found
  <-> exists i ts seed dt tbl key time_val secret salt_format salt
             test_input hk,
        nth_error (timestamps_seeds sample) i = Some (ts, seed)
        /\ fromisoformat ts = Some dt
        /\ time_formats dt (last sample d) = Ok tbl
        /\ In (key, time_val) tbl
        /\ truthy time_val = true
        /\ In secret (common_secrets cfg)
        /\ In salt_format (salt_formats cfg)
        /\ format salt_format secret = Ok salt
        /\ In test_input (test_inputs time_val salt)
        /\ first_match seed test_input = Some hk
        /\ p = mk_pattern i seed key secret salt_format test_input
                          (fst hk) (snd hk).
Proof.
  unfold candidate_generation.
  destruct (rev sample) as [|game rest] eqn:Er.
  - intros E. inversion E; subst. split; [intros []|].
    intros (i & ts & seed & _ & _ & _ & _ & _ & _ & _ & _ & _ & H & _).
    apply (f_equal (@rev game)) in Er. rewrite rev_involutive in Er.
    subst sample. simpl in H. destruct i; discriminate.
  - rewrite (rev_last _ _ _ d Er). intros E.
    assert (R : returns (for_each (enumerate (timestamps_seeds sample))
                                  (scan_record cfg game)))
      by (apply returns_ok; eauto).
    rewrite <- (appended_ok _ _ _ E).
    rewrite (in_appended_for_each _ _ _ R).
    split.
    + intros ([i [ts seed]] & Hin & Hp).
      assert (Rx := proj1 (returns_for_each _ _) R _ Hin).
      destruct (returns_scan_record_inv _ _ _ _ _ Rx) as (dt & tbl & Ed & Et).
      rewrite (scan_record_ok _ _ _ _ _ _ _ Ed Et) in Hp, Rx.
      rewrite (in_appended_for_each _ _ _ Rx) in Hp.
      destruct Hp as ([key time_val] & Hkv & Hp).
      assert (Rk := proj1 (returns_for_each _ _) Rx _ Hkv).
      apply (in_try_time_format _ _ _ _ _ _ Rk) in Hp.
      destruct Hp as (Htv & secret & salt_format & Hs & Hf & Hp).
      apply in_try_salt_format in Hp.
      destruct Hp as (salt & test_input & hk & Es & Hi & F & ->).
      apply in_enumerate in Hin.
      exists i, ts, seed, dt, tbl, key, time_val, secret, salt_format, salt,
        test_input, hk.
      repeat split; assumption.
    + intros (i & ts & seed & dt & tbl & key & time_val & secret
              & salt_format & salt & test_input & hk
              & Hn & Ed & Et & Hkv & Htv & Hs & Hf & Es & Hi & F & ->).
      exists (i, (ts, seed)). split; [now apply in_enumerate|].
      assert (Hin : In (i, (ts, seed)) (enumerate (timestamps_seeds sample)))
        by now apply in_enumerate.
      assert (Rx := proj1 (returns_for_each _ _) R _ Hin).
      rewrite (scan_record_ok _ _ _ _ _ _ _ Ed Et) in Rx |- *.
      rewrite (in_appended_for_each _ _ _ Rx).
      exists (key, time_val). split; [exact Hkv|].
      assert (Rk := proj1 (returns_for_each _ _) Rx _ Hkv).
      apply (in_try_time_format _ _ _ _ _ _ Rk).
      split; [exact Htv|]. exists secret, salt_format.
      repeat split; try assumption.
      apply in_try_salt_format. exists salt, test_input, hk. auto.
Qed.

End Generation.

(* ===================================================================== *)
(** * Slices                                                              *)
(* ===================================================================== *)

Lemma in_slice_indices {A : Type} (l : list A) (start stop : option Z)
  (i : nat) :
  In i (slice_indices l start stop) ->
  let len := Z.of_nat (List.length l) in
  let lo := match start with Some s => adjust_index len s | None => 0%Z end in
  let hi := match stop with Some s => adjust_index len s | None => len end in
  (lo <= Z.of_nat i < hi)%Z.
Proof.
  unfold slice_indices. cbv zeta. rewrite in_seq. intros [H1 H2].
  assert (0 <= match start with
               | Some s => adjust_index (Z.of_nat (List.length l)) s
               | None => 0
               end)%Z.
  { destruct start as [s|]; [|lia]. unfold adjust_index.
    destruct (s <? 0)%Z eqn:E; [lia|]. apply Z.ltb_ge in E. lia. }
  lia.
Qed.

Lemma adjust_index_range (len i : Z) :
  (0 <= len -> 0 <= adjust_index len i <= len)%Z.
Proof.
  unfold adjust_index. intros H. destruct (i <? 0)%Z eqn:E.
  - apply Z.ltb_lt in E. lia.
  - apply Z.ltb_ge in E. lia.
Qed.

(** The positions of a slice are positions of the list. *)
Lemma slice_indices_bound {A : Type} (l : list A) (start stop : option Z)
  (i : nat) :
  In i (slice_indices l start stop) -> i < List.length l.
Proof.
  intros H. apply in_slice_indices in H. cbv zeta in H.
  assert (R : forall s, (0 <= adjust_index (Z.of_nat (List.length l)) s
                         <= Z.of_nat (List.length l))%Z)
    by (intros s; apply adjust_index_range; lia).
  destruct stop as [s|]; [specialize (R s)|]; lia.
Qed.

(** A slice holds the items at its positions. *)
Lemma slice_nth {A : Type} (l : list A) (start stop : option Z) (d : A) :
  slice l start stop = map (fun i => nth i l d) (slice_indices l start stop).
Proof.
  unfold slice.
  assert (G : forall idx, (forall i, In i idx -> i < List.length l) ->
            flat_map (fun i => match nth_error l i with
                               | Some x => [x]
                               | None => []
                               end) idx
            = map (fun i => nth i l d) idx).
  { induction idx as [|i idx IH]; intros B; [reflexivity|].
    simpl. rewrite IH by (intros j Hj; apply B; now right).
    rewrite (nth_error_nth' l d (B i (or_introl eq_refl))). reflexivity. }
  apply G. intros i. apply slice_indices_bound.
Qed.

Lemma in_slice {A : Type} (l : list A) (start stop : option Z) (x : A) :
  In x (slice l start stop) -> In x l.
Proof.
  unfold slice. rewrite in_flat_map. intros (i & _ & H).
  destruct (nth_error l i) as [y|] eqn:E; [|contradiction].
  destruct H as [<-|[]]. eapply nth_error_In, E.
Qed.

(** No position is both in [l[:n]] and in [l[n:n+100]]. *)
Lemma sample_validation_disjoint {A : Type} (l : list A) (n : Z) (i : nat) :
  In i (slice_indices l None (Some n)) ->
  ~ In i (slice_indices l (Some n) (Some (n + 100)%Z)).
Proof.
  intros H1 H2. apply in_slice_indices in H1, H2. cbv zeta in H1, H2. lia.
Qed.

(* ===================================================================== *)
(** * Hold-out validation                                                 *)
(* ===================================================================== *)

Section Validation.
Context {platform : Platform}.

Lemma record_hit_has_time_val key patterns salt g :
  record_hit key patterns salt g = true ->
  has_time_val (time_format_of key) g = true.
Proof.
  destruct key as [[[[tf secret] salt_format] h] k].
  unfold record_hit, has_time_val, time_format_of.
  destruct (timestamp g), (serverSeed g); try discriminate.
  destruct (fromisoformat _); [|discriminate].
  destruct (time_val_of _ _ _); [|discriminate].
  now intros H%andb_prop.
Qed.

Lemma has_time_val_has_both tf g :
  has_time_val tf g = true -> has_both g = true.
Proof.
  unfold has_time_val, has_both.
  destruct (timestamp g), (serverSeed g); try discriminate. reflexivity.
Qed.

(** One iteration: a record with both keys is counted in [total] first;
    [matches] grows exactly when the record hits. *)
Lemma validate_game_returns key patterns salt g m t out m' t' :
  validate_game key patterns salt g (m, t) = (out, Ok (m', t')) ->
  out = []
  /\ t' = (if has_both g then 1 else 0) + t
  /\ m' = (if record_hit key patterns salt g then 1 else 0) + m.
Proof.
  destruct key as [[[[tf secret] salt_format] h] k].
  unfold validate_game, has_both, record_hit.
  destruct (timestamp g) as [ts|]; cbv beta iota zeta;
    [|intros E; inversion E; auto].
  destruct (serverSeed g) as [seed|]; cbv beta iota zeta;
    [|intros E; inversion E; auto].
  destruct (fromisoformat ts) as [dt|]; cbv beta iota zeta; [|discriminate].
  destruct (time_val_of tf dt g) as [time_val|e]; cbv beta iota zeta.
  - rewrite bind_lift_ok.
    destruct (truthy time_val); cbn [negb andb].
    + destruct (existsb _ _); intros E; inversion E; auto.
    + intros E; inversion E; auto.
  - rewrite bind_lift_raise. discriminate.
Qed.

Lemma validate_game_ok key patterns salt g m t :
  sample_ok [g] = true ->
  validate_game key patterns salt g (m, t)
  = ([], Ok ((if record_hit key patterns salt g then 1 else 0) + m,
             (if has_both g then 1 else 0) + t)).
Proof.
  destruct key as [[[[tf secret] salt_format] h] k].
  unfold sample_ok, validate_game, has_both, record_hit, timestamp_ok.
  cbn [forallb].
  destruct (timestamp g) as [ts|]; cbv beta iota zeta; [|reflexivity].
  destruct (serverSeed g) as [seed|]; cbv beta iota zeta; [|reflexivity].
  cbn [negb orb andb].
  destruct (fromisoformat ts) as [dt|]; cbv beta iota zeta; [|discriminate].
  rewrite (time_formats_ok_irrel dt _ g).
  destruct (time_formats dt g) as [tbl|e] eqn:Et; [|discriminate].
  intros _.
  destruct (time_val_of tf dt g) as [time_val|e] eqn:Ev; cbv beta iota zeta.
  - rewrite bind_lift_ok.
    destruct (truthy time_val); cbn [negb andb]; [|reflexivity].
    now destruct (existsb _ _).
  - exfalso. revert Et Ev. unfold time_formats, time_val_of.
    destruct (Datetime.timestamp dt) as [x|]; [|discriminate].
    cbn [rbind].
    destruct (int_of_float x); [|discriminate]. cbn [rbind].
    destruct (int_of_float (fmul _ _)); [|discriminate]. cbn [rbind].
    intros _. destruct tf; intros Ev; discriminate Ev.
Qed.

Lemma sample_ok_cons g gs :
  sample_ok (g :: gs) = sample_ok [g] && sample_ok gs.
Proof. unfold sample_ok. simpl. now rewrite andb_true_r. Qed.

Lemma count_cons {A : Type} (f : A -> bool) (x : A) (l : list A) :
  count f (x :: l) = (if f x then 1 else 0) + count f l.
Proof. unfold count. simpl. now destruct (f x). Qed.

(** The loop over the validation games, when it returns. *)
Lemma validation_loop_returns key patterns salt gs m t out m' t' :
  for_fold gs (validate_game key patterns salt) (m, t) = (out, Ok (m', t')) ->
  out = []
  /\ t' = count has_both gs + t
  /\ m' = count (record_hit key patterns salt) gs + m.
Proof.
  revert m t out. induction gs as [|g gs IH]; intros m t out.
  - simpl. intros E. inversion E. auto.
  - cbn [for_fold].
    destruct (validate_game key patterns salt g (m, t)) as [o1 [[m1 t1]|e]]
      eqn:Eg; [|discriminate].
    rewrite (bind_ok _ _ o1 (m1, t1) eq_refl).
    destruct (for_fold gs (validate_game key patterns salt) (m1, t1))
      as [o2 r2] eqn:El.
    unfold stdout, outcome. cbn [fst snd]. intros E. inversion E; subst.
    apply validate_game_returns in Eg. destruct Eg as (-> & -> & ->).
    apply IH in El. destruct El as (-> & -> & ->).
    rewrite !count_cons. repeat split; lia.
Qed.

(** The loop returns when the timestamps of the validation games are
    usable. *)
Lemma validation_loop_ok key patterns salt gs m t :
  sample_ok gs = true ->
  for_fold gs (validate_game key patterns salt) (m, t)
  = ([], Ok (count (record_hit key patterns salt) gs + m,
             count has_both gs + t)).
Proof.
  revert m t. induction gs as [|g gs IH]; intros m t S; [reflexivity|].
  rewrite sample_ok_cons in S. apply andb_prop in S. destruct S as [Sg Sl].
  simpl. rewrite (bind_ok _ _ _ _ (validate_game_ok key patterns salt g m t Sg)).
  rewrite (IH _ _ Sl). unfold stdout, outcome. simpl.
  rewrite !count_cons. do 3 f_equal; lia.
Qed.

Lemma count_le {A : Type} (f g : A -> bool) (l : list A) :
  (forall x, In x l -> f x = true -> g x = true) -> count f l <= count g l.
Proof.
  induction l as [|x l IH]; intros H; [reflexivity|].
  rewrite !count_cons.
  assert (IH' : count f l <= count g l)
    by (apply IH; intros y Hy; apply H; now right).
  destruct (f x) eqn:Ef.
  - rewrite (H x (or_introl eq_refl) Ef). lia.
  - destruct (g x); lia.
Qed.

Lemma count_zero {A : Type} (f g : A -> bool) (l : list A) :
  (forall x, In x l -> f x = true -> g x = true) ->
  count g l = 0 -> count f l = 0.
Proof. intros H E. pose proof (count_le f g l H). lia. Qed.

(** One group. *)
Lemma validate_group_returns games sample_size key patterns out results :
  validate_group games sample_size (key, patterns) = (out, Ok results) ->
  exists salt r,
    format (salt_format_of key) (secret_of key) = Ok salt
    /\ out = [] /\ results = [(key, r)]
    /\ total r = count has_both (validation_games games sample_size)
    /\ matches r = count (record_hit key patterns salt)
                         (validation_games games sample_size)
    /\ success_rate r = rate (matches r) (total r).
Proof.
  destruct key as [[[[tf secret] salt_format] h] k].
  unfold validate_group, salt_format_of, secret_of.
  destruct (format salt_format secret) as [salt|e];
    [|rewrite bind_lift_raise; discriminate].
  rewrite bind_lift_ok.
  destruct (for_fold _ _ _) as [o [[m t]|e]] eqn:El; [|discriminate].
  rewrite (bind_ok _ _ o (m, t) eq_refl). unfold stdout, outcome, ret.
  cbn [fst snd].
  intros E. inversion E; subst; clear E.
  apply validation_loop_returns in El. destruct El as (-> & -> & ->).
  exists salt. eexists. split; [reflexivity|].
  split; [reflexivity|]. split; [reflexivity|].
  simpl. unfold validation_games. repeat split; lia.
Qed.

Lemma validate_group_ok games sample_size key patterns salt :
  format (salt_format_of key) (secret_of key) = Ok salt ->
  sample_ok (validation_games games sample_size) = true ->
  let vg := validation_games games sample_size in
  let m := count (record_hit key patterns salt) vg in
  let t := count has_both vg in
  validate_group games sample_size (key, patterns)
  = ([], Ok [(key, {| matches := m; total := t; success_rate := rate m t |})]).
Proof.
  destruct key as [[[[tf secret] salt_format] h] k].
  unfold validate_group, salt_format_of, secret_of. intros -> S.
  rewrite bind_lift_ok.
  fold (validation_games games sample_size).
  rewrite (bind_ok _ _ _ _ (validation_loop_ok _ patterns salt _ 0 0 S)).
  unfold stdout, outcome, ret. simpl. rewrite !Nat.add_0_r. reflexivity.
Qed.

End Validation.

(* ===================================================================== *)
(** * Groups and validation results                                       *)
(* ===================================================================== *)

Lemma bind_print {B : Type} (line : string) (f : unit -> M B) :
  bind (print line) f = (line :: stdout (f tt), outcome (f tt)).
Proof. unfold bind, print, stdout, outcome. now destruct (f tt). Qed.

Lemma bind_ret {A B : Type} (a : A) (f : A -> M B) : bind (ret a) f = f a.
Proof. unfold bind, ret. now destruct (f a). Qed.

Lemma add_to_group_keys key p groups k ps :
  In (k, ps) (add_to_group key p groups) ->
  k = key \/ exists ps', In (k, ps') groups.
Proof.
  induction groups as [|[k0 ps0] groups IH]; simpl.
  - intros [E|[]]. left. now inversion E.
  - destruct (group_key_eqb k0 key).
    + intros [E|H].
      * inversion E; subst. right. exists ps0. now left.
      * right. exists ps. now right.
    + intros [E|H].
      * inversion E; subst. right. exists ps. now left.
      * destruct (IH H) as [->|(ps' & H')]; [now left|].
        right. exists ps'. now right.
Qed.

(** Every group is the group of a found pattern. *)
Lemma pattern_groups_keys found k ps :
  In (k, ps) (pattern_groups found) ->
  exists p, In p found /\ key_of p = k.
Proof.
  unfold pattern_groups.
  assert (G : forall l acc,
             In (k, ps) (fold_left (fun groups p =>
                                      add_to_group (key_of p) p groups) l acc)
             -> (exists ps', In (k, ps') acc)
                \/ exists p, In p l /\ key_of p = k).
  { induction l as [|p l IH]; intros acc H; simpl in H.
    - left. now exists ps.
    - destruct (IH _ H) as [(ps' & H')|(q & Hq & Ek)].
      + apply add_to_group_keys in H'. destruct H' as [->|H'].
        * right. exists p. split; [now left | reflexivity].
        * now left.
      + right. exists q. split; [now right | exact Ek]. }
  intros H. destruct (G _ _ H) as [(ps' & [])|H']. exact H'.
Qed.

Section HoldOut.
Context {platform : Platform}.

Lemma sample_ok_no_both (gs : list game) :
  count has_both gs = 0 -> sample_ok gs = true.
Proof.
  induction gs as [|g gs IH]; [reflexivity|].
  rewrite count_cons, sample_ok_cons. unfold sample_ok at 1. simpl.
  destruct (has_both g); [discriminate|]. simpl. exact IH.
Qed.

(** What the validation reports for a group, when it returns. *)
Lemma validation_results_returns games sample_size found out results key r :
  validation_results games sample_size found = (out, Ok results) ->
  In (key, r) results ->
  exists patterns salt,
    In (key, patterns) (pattern_groups found)
    /\ format (salt_format_of key) (secret_of key) = Ok salt
    /\ total r = count has_both (validation_games games sample_size)
    /\ matches r = count (record_hit key patterns salt)
                         (validation_games games sample_size)
    /\ success_rate r = rate (matches r) (total r).
Proof.
  unfold validation_results. intros E Hin.
  assert (R : returns (for_each (pattern_groups found)
                                (validate_group games sample_size)))
    by (apply returns_ok; eauto).
  rewrite <- (appended_ok _ _ _ E) in Hin.
  apply (in_appended_for_each _ _ _ R) in Hin.
  destruct Hin as ([k ps] & Hg & Hin).
  assert (Rg := proj1 (returns_for_each _ _) R _ Hg).
  apply returns_ok in Rg. destruct Rg as (o & res & Eg).
  rewrite (appended_ok _ _ _ Eg) in Hin.
  apply validate_group_returns in Eg.
  destruct Eg as (salt & r' & Es & _ & -> & Ht & Hm & Hr).
  destruct Hin as [E'|[]]. inversion E'; subst.
  exists ps, salt. auto.
Qed.

Lemma validation_results_ok games sample_size found :
  (forall p, In p found ->
             is_ok (format (p_salt_format p) (p_secret p)) = true) ->
  sample_ok (validation_games games sample_size) = true ->
  returns (validation_results games sample_size found)
  /\ stdout (validation_results games sample_size found) = [].
Proof.
  intros F S. unfold validation_results.
  assert (G : forall kp, In kp (pattern_groups found) ->
              exists res, validate_group games sample_size kp = ([], Ok res)).
  { intros [key ps] Hin.
    destruct (pattern_groups_keys _ _ _ Hin) as (p & Hp & <-).
    specialize (F p Hp).
    destruct (format (p_salt_format p) (p_secret p)) as [salt|] eqn:Es;
      [|discriminate].
    eexists. apply (validate_group_ok games sample_size (key_of p) ps salt);
      [exact Es | exact S]. }
  assert (R : returns (for_each (pattern_groups found)
                                (validate_group games sample_size))).
  { apply returns_for_each. intros kp Hin.
    destruct (G kp Hin) as (res & E). apply returns_ok. eauto. }
  split; [exact R|].
  rewrite (for_each_returns _ _ R). unfold stdout at 1. simpl.
  induction (pattern_groups found) as [|kp l IH]; [reflexivity|].
  simpl. destruct (G kp (or_introl eq_refl)) as (res & ->).
  simpl. apply IH.
  - intros kp' H. apply G. now right.
  - apply returns_for_each. intros kp' H.
    apply (proj1 (returns_for_each _ _) R). now right.
Qed.

Lemma returns_report key r :
  is_ok (format (salt_format_of key) (secret_of key)) = true ->
  returns (report (key, r)).
Proof.
  destruct key as [[[[tf secret] salt_format] h] k].
  unfold report, salt_format_of, secret_of.
  destruct (format salt_format secret); [|discriminate]. intros _.
  rewrite bind_lift_ok. reflexivity.
Qed.

(** The validation block returns when the found patterns come from
    templates that format and the validation games have usable
    timestamps. *)
Lemma hold_out_validation_returns games sample_size found :
  (forall p, In p found ->
             is_ok (format (p_salt_format p) (p_secret p)) = true) ->
  sample_ok (validation_games games sample_size) = true ->
  returns (hold_out_validation games sample_size found).
Proof.
  intros F S. unfold hold_out_validation.
  destruct found as [|p0 found']; [apply returns_ret|].
  destruct (sample_size <? _)%Z; [|apply returns_ret].
  apply returns_bind. do 2 eexists. split; [reflexivity|].
  destruct (validation_results_ok games sample_size (p0 :: found') F S)
    as [R _].
  apply returns_ok in R. destruct R as (o & results & E).
  apply returns_bind. exists o, results. split; [exact E|].
  apply returns_bind. do 2 eexists. split; [reflexivity|].
  assert (Rr : returns (for_each results report)).
  { apply returns_for_each. intros [key r] Hin. apply returns_report.
    destruct (validation_results_returns _ _ _ _ _ _ _ E Hin)
      as (ps & salt & _ & -> & _). reflexivity. }
  apply returns_ok in Rr. destruct Rr as (o' & us & Er).
  apply returns_bind. exists o', us. split; [exact Er|]. apply returns_ret.
Qed.

(** The results of the validation block are those of
    [validation_results]. *)
Lemma hold_out_validation_results games sample_size found out results key r :
  hold_out_validation games sample_size found = (out, Ok results) ->
  In (key, r) results ->
  exists patterns salt,
    In (key, patterns) (pattern_groups found)
    /\ format (salt_format_of key) (secret_of key) = Ok salt
    /\ total r = count has_both (validation_games games sample_size)
    /\ matches r = count (record_hit key patterns salt)
                         (validation_games games sample_size)
    /\ success_rate r = rate (matches r) (total r).
Proof.
  unfold hold_out_validation.
  destruct found as [|p0 found'].
  { intros E. inversion E; subst. intros []. }
  destruct (sample_size <? _)%Z.
  2:{ intros E. inversion E; subst. intros []. }
  rewrite bind_print.
  destruct (validation_results games sample_size (p0 :: found'))
    as [o [res|e]] eqn:Ev.
  2:{ rewrite (bind_raise _ _ o e eq_refl). discriminate. }
  rewrite (bind_ok _ _ o res eq_refl).
  rewrite bind_print.
  destruct (for_each res report) as [o' [us|e]] eqn:Er.
  2:{ rewrite (bind_raise _ _ o' e eq_refl). discriminate. }
  rewrite (bind_ok _ _ o' us eq_refl).
  unfold stdout, outcome, ret. cbn [fst snd]. intros E. inversion E; subst.
  apply (validation_results_returns _ _ _ _ _ _ _ Ev).
Qed.

(** The templates of the patterns a generation returned did format. *)
Lemma found_format_ok cfg sample out found p :
  candidate_generation cfg sample = (out, Ok found) ->
  In p found ->
  is_ok (format (p_salt_format p) (p_secret p)) = true.
Proof.
  intros E Hin.
  apply (found_iff cfg sample out found
           {| gameId := None; timestamp := None; serverSeed := None |} p E)
    in Hin.
  destruct Hin as (i & ts & seed & dt & tbl & key & time_val & secret
                   & salt_format & salt & test_input & hk & H).
  destruct H as (_ & _ & _ & _ & _ & _ & _ & Es & _ & _ & ->).
  simpl. now rewrite Es.
Qed.

End HoldOut.

(* ===================================================================== *)
(** * Loading                                                             *)
(* ===================================================================== *)

Lemma flat_map_numbered {A B : Type} (f : A -> list B) (l : list A) (k : nat) :
  flat_map (fun nx : nat * A => f (snd nx)) (combine (seq k (List.length l)) l)
  = flat_map f l.
Proof.
  revert k. induction l as [|x l IH]; intros k; [reflexivity|].
  simpl. now rewrite IH.
Qed.

Lemma returns_add_row (ig : nat * json) : returns (add_row ig).
Proof.
  destruct ig as [i g]. unfold add_row.
  destruct (game_data i g); [|reflexivity].
  rewrite bind_print. reflexivity.
Qed.

(** The loop over the games never raises. *)
Lemma analysis_data_returns (games : list json) :
  analysis_data games
  = (flat_map (fun ig => stdout (add_row ig)) (enumerate games),
     Ok (flat_map (fun ig => appended (add_row ig)) (enumerate games))).
Proof.
  apply for_each_returns. apply returns_for_each. intros ig _.
  apply returns_add_row.
Qed.

(** The keys of a row. *)
Lemma game_data_keys (i : nat) (game : json) (row : list (string * json)) :
  game_data i game = inr row ->
  map fst row
  = ["game_number"; "game_id"; "recording_start"; "recording_end";
     "duration_seconds"; "peak_multiplier"; "final_tick"; "is_instarug";
     "total_trades"; "unique_players"; "total_events";
     "game_state_updates"; "price_min"; "price_max"; "collection_version";
     "hourly_game_number"; "rug_event_timing"; "completion_reason"].
Proof.
  unfold game_data, and_then.
  repeat match goal with
         | |- match ?x with inl _ => _ | inr _ => _ end = _ -> _ =>
             destruct x; [discriminate|]
         end.
  intros E. inversion E. reflexivity.
Qed.

(** Every row of [analysis_data] is the [game_data] of a game. *)
Lemma analysis_data_rows (games : list json) (out : list string)
  (rows : list (list (string * json))) (row : list (string * json)) :
  analysis_data games = (out, Ok rows) ->
  In row rows ->
  exists i game, game_data i game = inr row.
Proof.
  rewrite analysis_data_returns. intros E Hin. inversion E; subst.
  apply in_flat_map in Hin. destruct Hin as ([i game] & _ & Hin).
  unfold appended, add_row in Hin.
  destruct (game_data i game) as [e|r] eqn:Eg.
  - rewrite bind_print in Hin. destruct Hin.
  - destruct Hin as [<-|[]]. now exists i, game.
Qed.

Section Collected.
Variable json_loads : string -> string + json.
Variable convert : list (list (string * json)) -> option string.

Lemma returns_read_line (nl : nat * string) : returns (read_line json_loads nl).
Proof.
  destruct nl as [n line]. unfold read_line.
  now destruct (json_loads (strip line)).
Qed.

Lemma appended_read_line (nl : nat * string) :
  appended (read_line json_loads nl)
  = decoded json_loads (strip (snd nl)).
Proof.
  destruct nl as [n line]. unfold read_line, decoded. simpl.
  now destruct (json_loads (strip line)).
Qed.

(** The loop over the lines never raises and keeps the record of every
    line that decodes, in order. *)
Lemma read_lines (lines : list string) :
  for_each (combine (seq 1 (List.length lines)) lines) (read_line json_loads)
  = (flat_map (fun nl => stdout (read_line json_loads nl))
              (combine (seq 1 (List.length lines)) lines),
     Ok (flat_map (fun line => decoded json_loads (strip line)) lines)).
Proof.
  assert (R : returns (for_each (combine (seq 1 (List.length lines)) lines)
                                (read_line json_loads)))
    by (apply returns_for_each; intros nl _; apply returns_read_line).
  rewrite (for_each_returns _ _ R). f_equal. f_equal.
  rewrite <- (flat_map_numbered _ lines 1).
  apply flat_map_ext. intros nl. apply appended_read_line.
Qed.

(** Without a game the frame cannot be built. *)
Lemma no_game_no_frame :
  create_analysis_dataframe convert [] = ([], inl (KeyError "recording_start")).
Proof. reflexivity. Qed.

(** [load_collected_data] on a file that exists: the lines are all read,
    [self.raw_games] holds the record of every line that decodes, and the
    call ends as [create_analysis_dataframe] does on these records. *)
Lemma load_collected_data_spec (self : data_analyzer) (path : string)
  (lines : list string) :
  let games := flat_map (fun line => decoded json_loads (strip line)) lines in
  let warnings :=
    flat_map (fun nl => stdout (read_line json_loads nl))
             (combine (seq 1 (List.length lines)) lines) in
  let loaded := ("✅ Loaded " ++ str (Z.of_nat (List.length games))
                 ++ " games from master file")%string in
  let built := create_analysis_dataframe convert games in
  load_collected_data json_loads convert self path (Some lines)
  = ((("📊 Loading collected game data..."%string :: warnings)
      ++ loaded :: fst built)
     ++ match snd built with
        | inr df => [("📈 Created analysis DataFrame: " ++ shape df)%string]
        | inl _ => []
        end,
     {| raw_games := games;
        games_df := match snd built with
                    | inr df => Some df
                    | inl _ => games_df self
                    end |},
     match snd built with
     | inr _ => inr true
     | inl e => inl e
     end).
Proof.
  intros games warnings loaded built. unfold load_collected_data.
  rewrite read_lines. fold games. fold built.
  destruct built as [row_warnings [e|df]]; cbn [fst snd].
  - now rewrite app_nil_r.
  - reflexivity.
Qed.

End Collected.

Section LoadData.
Context {platform : Platform} {storage : Storage}.

(** All the lines decode: every record is appended. *)
Lemma read_jsonl_all (lines : list string) (loaded : list game) :
  Forall (well_formed json_loads) lines ->
  read_jsonl lines loaded
  = (loaded ++ flat_map (decoded json_loads) lines, None).
Proof.
  revert loaded. induction lines as [|line lines IH]; intros loaded F.
  - simpl. now rewrite app_nil_r.
  - inversion F as [|? ? [g Eg] F']; subst. simpl. unfold decoded at 1.
    rewrite Eg. rewrite (IH _ F'). now rewrite <- app_assoc.
Qed.

(** The loop stops at the first line that does not decode: the lines
    after it are not read. *)
Lemma read_jsonl_stops (pre post : list string) (bad e : string)
  (loaded : list game) :
  Forall (well_formed json_loads) pre ->
  json_loads bad = inl e ->
  read_jsonl (pre ++ bad :: post) loaded
  = (loaded ++ flat_map (decoded json_loads) pre, Some e).
Proof.
  revert loaded. induction pre as [|line pre IH]; intros loaded F Eb.
  - simpl. rewrite Eb. now rewrite app_nil_r.
  - inversion F as [|? ? [g Eg] F']; subst. simpl. unfold decoded at 1.
    rewrite Eg. rewrite (IH _ F' Eb). now rewrite <- app_assoc.
Qed.

Lemma load_data_jsonl (self : analyzer) (path : string) (lines : list string) :
  data_path self = Some path ->
  truthy path = true ->
  endswith path ".jsonl" = true ->
  open_read path = inr lines ->
  load_data self
  = let '(loaded, error) := read_jsonl lines [] in
    match error with
    | Some e => load_failed e (Listed (set_games self loaded))
    | None => load_done path (Listed (set_games self loaded))
    end.
Proof.
  intros Ep Ht Ee Eo. unfold load_data. rewrite Ep.
  destruct path as [|c path]; [discriminate|].
  rewrite Ee, Eo. unfold set_games. simpl.
  now destruct (read_jsonl lines []).
Qed.

End LoadData.

(* ===================================================================== *)
(** * Properties of the search                                            *)
(* ===================================================================== *)

Lemma brute_force_tables_ok : tables_ok brute_force_tables = true.
Proof. vm_compute. reflexivity. Qed.

Section Properties.
Context {platform : Platform} {storage : Storage}.

(** A value derived from the timestamp does not depend on the game. *)
Lemma time_val_of_irrel (key : time_key) (dt : datetime) (g g' : game) :
  key <> tf_game_id -> time_val_of key dt g = time_val_of key dt g'.
Proof. intros H. destruct key; try reflexivity. now elim H. Qed.

(** The search prints what the generation printed, then what the
    validation prints, and returns the found patterns unless the validation
    raises. *)
Lemma search_after_generation cfg games sample sample_size out found :
  candidate_generation cfg sample = (out, Ok found) ->
  search cfg games sample sample_size
  = (out ++ stdout (hold_out_validation games sample_size found),
     match outcome (hold_out_validation games sample_size found) with
     | Ok _ => Ok found
     | Raise e => Raise e
     end).
Proof.
  intros E. unfold search. rewrite E.
  rewrite (bind_ok _ _ out found eq_refl).
  destruct (hold_out_validation games sample_size found) as [o [res|e]].
  - rewrite (bind_ok _ _ o res eq_refl). unfold stdout, outcome, ret.
    cbn [fst snd]. now rewrite app_nil_r.
  - rewrite (bind_raise _ _ o e eq_refl). reflexivity.
Qed.

(** On an analyzer that holds games the method prints its banner and
    runs the search on the first [sample_size] games. *)
Lemma brute_force_with_games (self : analyzer) (sample_size : Z) :
  games self <> [] ->
  brute_force_seed_generation self sample_size
  = let run := search brute_force_tables (games self)
                      (sample_of (games self) sample_size) sample_size in
    ("Attempting to brute force seed generation algorithm..." :: stdout run,
     match outcome run with
     | Ok found => Ok (Some found, Listed self)
     | Raise e => Raise e
     end).
Proof.
  intros Hg. unfold brute_force_seed_generation.
  destruct (games self) as [|g gs] eqn:Eg; [now elim Hg|].
  rewrite bind_ret. cbv beta iota zeta. cbn [negb]. rewrite !Eg.
  rewrite bind_print.
  destruct (search _ _ _ _) as [o [found|e]].
  - rewrite (bind_ok _ _ o found eq_refl). unfold stdout, outcome, ret.
    cbn [fst snd]. now rewrite app_nil_r.
  - rewrite (bind_raise _ _ o e eq_refl). reflexivity.
Qed.

(** The guard on empty time values: a returned generation holds no
    pattern for a record and a time format whose value, in the dict built
    for that record, is the empty string. *)
Lemma empty_time_value_is_skipped cfg sample out found (d : game) i ts seed
  dt tbl key p :
  candidate_generation cfg sample = (out, Ok found) ->
  nth_error (timestamps_seeds sample) i = Some (ts, seed) ->
  fromisoformat ts = Some dt ->
  time_formats dt (last sample d) = Ok tbl ->
  In (key, "") tbl ->
  In p found ->
  ~ (p_index p = i /\ p_time_format p = key).
Proof.
  intros E Hn Ed Et Hk Hp [Ei Ek].
  apply (found_iff cfg sample out found d p E) in Hp.
  destruct Hp as (i' & ts' & seed' & dt' & tbl' & key' & tv' & secret
                  & salt_format & salt & test_input & hk & Hn' & Ed' & Et'
                  & Hk' & Htv & _ & _ & _ & _ & _ & ->).
  simpl in Ei, Ek. subst i' key'.
  rewrite Hn in Hn'. inversion Hn'; subst ts' seed'.
  rewrite Ed in Ed'. inversion Ed'; subst dt'.
  rewrite Et in Et'. inversion Et'; subst tbl'.
  apply (time_formats_time_val_of _ _ _ _ _ Et) in Hk, Hk'.
  rewrite Hk in Hk'. inversion Hk'; subst tv'. discriminate Htv.
Qed.


(** C2 (as amended).  In a generation that returns, the patterns recorded
    for a candidate input are decided by the first of the six comparisons
    that holds, taken in the order MD5, SHA-1, SHA-256 on the full digest
    and then MD5, SHA-1, SHA-256 on its first sixteen characters: a
    pattern with a given algorithm and match kind is recorded for the
    input exactly when that comparison holds and none before it does.  The
    pattern carries the algorithm and the kind, so exact and prefix matches
    stay apart. *)
Theorem first_matching_comparison_is_recorded (cfg : tables)
  (sample : list game) (out : list string) (found : list pattern) (d : game)
  (i : nat) (ts seed : string) (dt : datetime)
  (tbl : list (time_key * string)) (key : time_key)
  (time_val secret salt_format salt test_input : string)
  (hk : hash_alg * match_kind) :
  candidate_generation cfg sample = (out, Ok found) ->
  nth_error (timestamps_seeds sample) i = Some (ts, seed) ->
  fromisoformat ts = Some dt ->
  time_formats dt (last sample d) = Ok tbl ->
  In (key, time_val) tbl ->
  truthy time_val = true ->
  In secret (common_secrets cfg) ->
  In salt_format (salt_formats cfg) ->
  format salt_format secret = Ok salt ->
  In test_input (test_inputs time_val salt) ->
  In (mk_pattern i seed key secret salt_format test_input (fst hk) (snd hk))
     found
  <-> exists before after,
        comparisons = before ++ hk :: after
        /\ comparison_holds seed test_input hk = true
        /\ forall hk', In hk' before ->
                       comparison_holds seed test_input hk' = false.
Proof.
  intros E Hn Ed Et Hkv Htv Hs Hf Ef Hi.
  rewrite <- first_match_some.
  rewrite (found_iff cfg sample out found d _ E). split.
  - intros (i' & ts' & seed' & dt' & tbl' & key' & tv' & secret' & fmt'
            & salt' & inp' & hk' & H).
    destruct H as (_ & _ & _ & _ & _ & _ & _ & _ & _ & F & Ep).
    unfold mk_pattern in Ep. inversion Ep; subst.
    rewrite F. now destruct hk, hk'; simpl in *; subst.
  - intros F.
    exists i, ts, seed, dt, tbl, key, time_val, secret, salt_format, salt,
      test_input, hk.
    repeat split; assumption.
Qed.


(** C6.  The sample [games[:n]] and the validation games [games[n:n+100]]
    are the records at two lists of positions, and no position belongs to
    both. *)
Theorem sample_and_validation_positions_disjoint (games : list game)
  (sample_size : Z) (d : game) :
  sample_of games sample_size
  = map (fun i => nth i games d) (slice_indices games None (Some sample_size))
  /\ validation_games games sample_size
     = map (fun i => nth i games d)
           (slice_indices games (Some sample_size)
                          (Some (sample_size + 100)%Z))
  /\ forall i,
       In i (slice_indices games None (Some sample_size)) ->
       ~ In i (slice_indices games (Some sample_size)
                             (Some (sample_size + 100)%Z)).
Proof.
  split; [apply slice_nth|]. split; [apply slice_nth|].
  intros i. apply sample_validation_disjoint.
Qed.

(** C7 (as amended).  A record enters the search exactly when it carries
    both a timestamp and a seed; a game id is not required.  The pool
    holds one entry per such record, and every pattern of a returned
    generation points at an entry of the pool and carries its seed. *)
Theorem pool_needs_timestamp_and_seed_only (cfg : tables)
  (sample : list game) :
  List.length (timestamps_seeds sample) = count has_both sample
  /\ (forall ts seed,
        In (ts, seed) (timestamps_seeds sample)
        <-> exists g, In g sample /\ timestamp g = Some ts
                      /\ serverSeed g = Some seed)
  /\ forall out found p,
       candidate_generation cfg sample = (out, Ok found) ->
       In p found ->
       exists ts,
         nth_error (timestamps_seeds sample) (p_index p) = Some (ts, p_seed p).
Proof.
  split; [|split].
  - induction sample as [|g sample IH]; [reflexivity|].
    rewrite count_cons. unfold timestamps_seeds in *. simpl.
    rewrite length_app, IH. unfold has_both.
    now destruct (timestamp g), (serverSeed g).
  - intros ts seed. apply in_timestamps_seeds.
  - intros out found p E Hin.
    apply (found_iff cfg sample out found
             {| gameId := None; timestamp := None; serverSeed := None |} p E)
      in Hin.
    destruct Hin as (i & ts & seed & dt & tbl & key & time_val & secret
                     & salt_format & salt & test_input & hk & Hn & H).
    destruct H as (_ & _ & _ & _ & _ & _ & _ & _ & _ & ->).
    exists ts. exact Hn.
Qed.


Lemma pattern_hits_holds (hash_type : hash_alg) (match_type : match_kind)
  (seed time_val salt : string) (p : pattern) :
  pattern_hits hash_type match_type seed time_val salt p
  = comparison_holds seed (choose_input p time_val salt)
                     (hash_type, match_type).
Proof. unfold pattern_hits, comparison_holds. now destruct match_type. Qed.

(** The iterations that reach [matches += 1] are those of the records
    that meet the condition of the group. *)
Lemma record_hit_meets (key : group_key) (patterns : list pattern)
  (salt : string) (g : game) :
  record_hit key patterns salt g = meets_condition key patterns salt g.
Proof.
  destruct key as [[[[tf secret] salt_format] h] k].
  unfold record_hit, meets_condition.
  destruct (timestamp g) as [ts|]; [|reflexivity].
  destruct (serverSeed g) as [seed|]; [|reflexivity].
  destruct (fromisoformat ts) as [dt|]; [|reflexivity].
  destruct (time_val_of tf dt g) as [time_val|e]; [|reflexivity].
  apply f_equal. induction patterns as [|p ps IH]; [reflexivity|].
  cbn [existsb]. now rewrite pattern_hits_holds, IH.
Qed.

Lemma count_ext {A : Type} (f g : A -> bool) (l : list A) :
  (forall x, f x = g x) -> count f l = count g l.
Proof.
  intros H. induction l as [|x l IH]; [reflexivity|].
  now rewrite !count_cons, H, IH.
Qed.

(** A record with both keys and a usable timestamp has a time value,
    empty or not. *)
Lemma has_both_split (tf : time_key) (g : game) :
  sample_ok [g] = true ->
  has_both g = has_time_val tf g || empty_time_val tf g.
Proof.
  unfold sample_ok, has_both, has_time_val, empty_time_val, timestamp_ok.
  cbn [forallb].
  destruct (timestamp g) as [ts|]; [|reflexivity].
  destruct (serverSeed g) as [seed|]; [|reflexivity].
  cbn [negb orb andb].
  destruct (fromisoformat ts) as [dt|]; [|discriminate].
  rewrite (time_formats_ok_irrel dt _ g).
  destruct (time_formats dt g) as [tbl|e] eqn:Et; [|discriminate].
  intros _.
  destruct (time_val_of tf dt g) as [time_val|e] eqn:Ev.
  - now destruct (truthy time_val).
  - exfalso. revert Et Ev. unfold time_formats, time_val_of.
    destruct (Datetime.timestamp dt) as [x|]; [|discriminate].
    cbn [rbind].
    destruct (int_of_float x); [|discriminate]. cbn [rbind].
    destruct (int_of_float (fmul _ _)); [|discriminate]. cbn [rbind].
    intros _. destruct tf; intros Ev; discriminate Ev.
Qed.

Lemma has_time_val_not_empty (tf : time_key) (g : game) :
  has_time_val tf g = true -> empty_time_val tf g = false.
Proof.
  unfold has_time_val, empty_time_val.
  destruct (timestamp g); [|reflexivity].
  destruct (serverSeed g); [|reflexivity].
  destruct (fromisoformat _); [|reflexivity].
  destruct (time_val_of _ _ _); [|reflexivity].
  now intros ->.
Qed.

Lemma count_has_both_split (tf : time_key) (l : list game) :
  sample_ok l = true ->
  count has_both l = count (has_time_val tf) l + count (empty_time_val tf) l.
Proof.
  induction l as [|g l IH]; intros S; [reflexivity|].
  rewrite sample_ok_cons in S. apply andb_prop in S. destruct S as [Sg Sl].
  rewrite !count_cons, (IH Sl), (has_both_split tf g Sg).
  destruct (has_time_val tf g) eqn:E.
  - rewrite (has_time_val_not_empty tf g E). cbn [orb]. lia.
  - cbn [orb]. destruct (empty_time_val tf g); lia.
Qed.

(** C10.  When the validation of a group returns, [total] is the number
    of records of the validation slice that carry both a timestamp and a
    seed: those whose time value is not empty and those whose time value
    is empty.  [matches] is the number of records that meet the condition
    of the group, all of them among the records whose time value is not
    empty.  The success rate is the float quotient of [matches] by that
    [total] (the integer [0] when [total] is [0]): a record with an empty
    time value adds one to the divisor and nothing to the dividend.  The
    validation returns when the template of the group formats and the
    timestamps of the slice are usable. *)
Theorem empty_time_value_counts_in_total_only (games : list game)
  (sample_size : Z) (key : group_key) (patterns : list pattern)
  (salt : string) :
  format (salt_format_of key) (secret_of key) = Ok salt ->
  sample_ok (validation_games games sample_size) = true ->
  let slice := validation_games games sample_size in
  exists r,
    validate_group games sample_size (key, patterns) = ([], Ok [(key, r)])
    /\ total r = count has_both slice
    /\ total r = count (has_time_val (time_format_of key)) slice
                 + count (empty_time_val (time_format_of key)) slice
    /\ matches r = count (meets_condition key patterns salt) slice
    /\ matches r <= count (has_time_val (time_format_of key)) slice
    /\ success_rate r
       = if Nat.ltb 0 (total r)
         then PyFloat (int_truediv (Z.of_nat (matches r))
                                   (Z.of_nat (total r)))
         else PyInt 0.
Proof.
  intros Ef S slice.
  eexists. split;
    [exact (validate_group_ok games sample_size key patterns salt Ef S)|].
  cbn [matches total success_rate]. fold slice.
  split; [reflexivity|].
  split; [exact (count_has_both_split _ slice S)|].
  split; [apply count_ext; intros g; apply record_hit_meets|].
  split; [|reflexivity].
  apply count_le. intros g _. apply record_hit_has_time_val.
Qed.

End Properties.

(* ===================================================================== *)
(** * The generation on two installations                                 *)
(* ===================================================================== *)

Lemma for_each_ext {A B : Type} (f g : A -> M (list B)) (l : list A) :
  (forall x, In x l -> f x = g x) -> for_each l f = for_each l g.
Proof.
  induction l as [|x l IH]; intros H; [reflexivity|].
  cbn [for_each]. rewrite (H x (or_introl eq_refl)).
  rewrite IH; [reflexivity|]. intros y Hy. apply H. now right.
Qed.

Section Installations.
Variables here there : Platform.

Lemma timestamp_same (dt : datetime) :
  (utcoffset dt = None ->
   @local_to_seconds here dt = @local_to_seconds there dt) ->
  @Datetime.timestamp here dt = @Datetime.timestamp there dt.
Proof.
  intros H. unfold Datetime.timestamp.
  destruct (utcoffset dt); [reflexivity|]. now rewrite H.
Qed.

Lemma time_formats_same (dt : datetime) (game : game) :
  (utcoffset dt = None ->
   @local_to_seconds here dt = @local_to_seconds there dt) ->
  @time_formats here dt game = @time_formats there dt game.
Proof. intros H. unfold time_formats. now rewrite (timestamp_same dt H). Qed.

Lemma scan_record_same (cfg : tables) (game : game)
  (its : nat * (string * string)) :
  same_reading here there (fst (snd its)) ->
  @scan_record here cfg game its = @scan_record there cfg game its.
Proof.
  destruct its as [i [ts seed]]. cbn [fst snd]. intros [Ep El].
  unfold scan_record. rewrite <- Ep.
  destruct (@fromisoformat here ts) as [dt|]; [|reflexivity].
  now rewrite (time_formats_same dt game (El dt eq_refl)).
Qed.


End Installations.

(* ===================================================================== *)
(** * The search on concrete games                                        *)
(* ===================================================================== *)

Section Examples.
#[local] Existing Instance utc_platform.
#[local] Existing Instance Demo.storage.

(** The whole enumeration on the one-record sample [seeded]: one pattern
    is found, the construction the seed was built with. *)
Lemma seeded_generation :
  candidate_generation brute_force_tables [Demo.seeded]
  = (["MATCH! Seed e1d42e41f4... = SHA256(20240101rugs.fun_salt)"],
     Ok [Demo.seeded_pattern]).
Proof. vm_compute. reflexivity. Qed.

Lemma seeded_formats :
  fromisoformat "2024-01-01T00:00:00" = Some Demo.new_year
  /\ time_formats Demo.new_year Demo.seeded = Ok Demo.new_year_formats.
Proof. split; vm_compute; reflexivity. Qed.

Lemma seeded_search :
  search brute_force_tables [Demo.seeded; Demo.next_day] [Demo.seeded] 1
  = (["MATCH! Seed e1d42e41f4... = SHA256(20240101rugs.fun_salt)";
      newline ++ "Validating patterns on remaining games...";
      newline ++ "Validation results:";
      "Pattern: date + rugs.fun_salt with sha256 (exact)";
      "  Success rate: 0/1 = 0.00%"]%string,
     Ok [Demo.seeded_pattern]).
Proof.
  refine (eq_trans (search_after_generation brute_force_tables
                      [Demo.seeded; Demo.next_day] [Demo.seeded] 1 _ _
                      seeded_generation) _).
  vm_compute. reflexivity.
Qed.

Lemma unrevealed_search :
  search brute_force_tables [Demo.seeded; Demo.unrevealed] [Demo.seeded] 1
  = (["MATCH! Seed e1d42e41f4... = SHA256(20240101rugs.fun_salt)";
      newline ++ "Validating patterns on remaining games...";
      newline ++ "Validation results:";
      "Pattern: date + rugs.fun_salt with sha256 (exact)";
      "  Success rate: 0/0 = 0.00%"]%string,
     Ok [Demo.seeded_pattern]).
Proof.
  refine (eq_trans (search_after_generation brute_force_tables
                      [Demo.seeded; Demo.unrevealed] [Demo.seeded] 1 _ _
                      seeded_generation) _).
  vm_compute. reflexivity.
Qed.

(** ** C1 *)



(** ** C2 *)

(** C2, counterexample.  For the input ["20240101rugs.fun_salt"] and the
    seed of [seeded], the comparison of the full SHA-256 digest holds and
    so does the comparison of its first sixteen characters; the generation
    records the exact match and no pattern for the prefix match. *)
Lemma prefix_match_beside_exact_is_not_recorded :
  candidate_generation brute_force_tables [Demo.seeded]
  = (["MATCH! Seed e1d42e41f4... = SHA256(20240101rugs.fun_salt)"],
     Ok [Demo.seeded_pattern])
  /\ In "20240101rugs.fun_salt" (test_inputs "20240101" "rugs.fun_salt")
  /\ comparison_holds (p_seed Demo.seeded_pattern) "20240101rugs.fun_salt"
                      (SHA256, exact) = true
  /\ comparison_holds (p_seed Demo.seeded_pattern) "20240101rugs.fun_salt"
                      (SHA256, partial_16) = true
  /\ ~ In (mk_pattern 0 (p_seed Demo.seeded_pattern) tf_date "rugs.fun"
                      "{}_salt" "20240101rugs.fun_salt" SHA256 partial_16)
          [Demo.seeded_pattern].
Proof.
  split; [exact seeded_generation|].
  split; [simpl; tauto|].
  split; [vm_compute; reflexivity|].
  split; [vm_compute; reflexivity|].
  intros [E|[]]. discriminate E.
Qed.

Lemma first_matching_comparison_is_recorded_witness :
  In (mk_pattern 0 (p_seed Demo.seeded_pattern) tf_date "rugs.fun" "{}_salt"
                 "20240101rugs.fun_salt" SHA256 exact)
     [Demo.seeded_pattern]
  <-> exists before after,
        comparisons = before ++ (SHA256, exact) :: after
        /\ comparison_holds (p_seed Demo.seeded_pattern)
                            "20240101rugs.fun_salt" (SHA256, exact) = true
        /\ forall hk', In hk' before ->
                       comparison_holds (p_seed Demo.seeded_pattern)
                                        "20240101rugs.fun_salt" hk' = false.
Proof.
  apply (first_matching_comparison_is_recorded brute_force_tables
           [Demo.seeded]
           ["MATCH! Seed e1d42e41f4... = SHA256(20240101rugs.fun_salt)"]
           [Demo.seeded_pattern] Demo.seeded 0
           "2024-01-01T00:00:00" _ Demo.new_year Demo.new_year_formats
           tf_date "20240101" "rugs.fun" "{}_salt" "rugs.fun_salt"
           "20240101rugs.fun_salt" (SHA256, exact)).
  - exact seeded_generation.
  - reflexivity.
  - vm_compute; reflexivity.
  - vm_compute; reflexivity.
  - simpl; tauto.
  - reflexivity.
  - simpl; tauto.
  - simpl; tauto.
  - vm_compute; reflexivity.
  - simpl; tauto.
Defined.

(** ** C3 *)

(** C3, the failing input.  With [games = [seeded; next_day]] and
    [sample_size = 1] the generation finds the pattern
    (date, "rugs.fun", "{}_salt", sha256, exact) from the input
    ["20240101" + "rugs.fun_salt"].  The validation game [next_day]
    satisfies the same condition, its seed being
    [sha256("20240102" + "rugs.fun_salt")]; the validator hashes the salt
    alone and reports [matches = 0] out of [total = 1]. *)
Theorem validation_hashes_the_salt_alone :
  sample_of [Demo.seeded; Demo.next_day] 1 = [Demo.seeded]
  /\ validation_games [Demo.seeded; Demo.next_day] 1 = [Demo.next_day]
  /\ candidate_generation brute_force_tables [Demo.seeded]
     = (["MATCH! Seed e1d42e41f4... = SHA256(20240101rugs.fun_salt)"],
        Ok [Demo.seeded_pattern])
  /\ has_time_val tf_date Demo.next_day = true
  /\ serverSeed Demo.next_day
     = Some (digest SHA256 ("20240102" ++ "rugs.fun_salt")%string)
  /\ choose_input Demo.seeded_pattern "20240102" "rugs.fun_salt"
     = "rugs.fun_salt"
  /\ outcome (hold_out_validation [Demo.seeded; Demo.next_day] 1
                                  [Demo.seeded_pattern])
     = Ok [(Demo.seeded_key,
            {| matches := 0; total := 1;
               success_rate := PyFloat (S754_zero false) |})].
Proof.
  split; [reflexivity|]. split; [reflexivity|].
  split; [exact seeded_generation|].
  repeat split; vm_compute; reflexivity.
Qed.

(** ** C4 *)



(** ** C5 *)

(** C5, the failing input.  In the sample [[without_id; with_id]] the
    first record has no game id, so that its game-id encoding is empty;
    the dict built for it holds the id of the last record instead, the
    combination is hashed, and a pattern is recorded for the first
    record under [game_id]. *)
Theorem game_id_of_last_record_is_hashed :
  gameId Demo.without_id = None
  /\ nth_error (timestamps_seeds [Demo.without_id; Demo.with_id]) 0
     = Some ("2024-01-01T00:00:00", "6890148f27b94860feb8946e3051619b")
  /\ exists out found,
       candidate_generation brute_force_tables [Demo.without_id; Demo.with_id]
       = (out, Ok found)
       /\ In Demo.leaked_pattern found.
Proof.
  split; [reflexivity|]. split; [reflexivity|].
  assert (R : returns (candidate_generation brute_force_tables
                         [Demo.without_id; Demo.with_id])).
  { apply candidate_generation_returns; vm_compute; reflexivity. }
  apply returns_ok in R. destruct R as (out & found & E).
  exists out, found. split; [exact E|].
  apply (found_iff _ _ _ _ Demo.with_id _ E).
  exists 0, "2024-01-01T00:00:00", "6890148f27b94860feb8946e3051619b",
    Demo.new_year,
    [(tf_epoch, "1704067200"); (tf_epoch_ms, "1704067200000");
     (tf_date, "20240101"); (tf_time, "000000");
     (tf_datetime, "20240101000000"); (tf_year, "2024"); (tf_month, "01");
     (tf_day, "01"); (tf_hour, "00"); (tf_minute, "00"); (tf_second, "00");
     (tf_microsecond, "0"); (tf_game_id, "20240101-a1b2c3")],
    tf_game_id, "20240101-a1b2c3", "rugs.fun", "{}", "rugs.fun",
    "20240101-a1b2c3rugs.fun", (MD5, exact).
  repeat split; try (vm_compute; reflexivity); simpl; tauto.
Qed.

(** ** C6 *)

Lemma sample_and_validation_positions_disjoint_witness :
  In 0 (slice_indices [Demo.seeded; Demo.next_day; Demo.unrevealed] None
                      (Some 1%Z))
  /\ ~ In 0 (slice_indices [Demo.seeded; Demo.next_day; Demo.unrevealed]
                           (Some 1%Z) (Some (1 + 100)%Z)).
Proof.
  assert (H : In 0 (slice_indices
                      [Demo.seeded; Demo.next_day; Demo.unrevealed] None
                      (Some 1%Z))) by (simpl; tauto).
  split; [exact H|].
  exact (proj2 (proj2 (sample_and_validation_positions_disjoint
                         [Demo.seeded; Demo.next_day; Demo.unrevealed] 1
                         Demo.seeded)) 0 H).
Defined.

(** ** C7 *)

(** C7, counterexample.  [seeded] has no game id; it is in the pool and
    the generation records a pattern for it. *)
Lemma record_without_game_id_is_searched :
  gameId Demo.seeded = None
  /\ timestamps_seeds [Demo.seeded]
     = [("2024-01-01T00:00:00",
         "e1d42e41f475120430024492b6c35cc3d5e6cf94f449cd7e1e38109273043e0f")]
  /\ candidate_generation brute_force_tables [Demo.seeded]
     = (["MATCH! Seed e1d42e41f4... = SHA256(20240101rugs.fun_salt)"],
        Ok [Demo.seeded_pattern])
  /\ p_index Demo.seeded_pattern = 0.
Proof.
  split; [reflexivity|]. split; [reflexivity|].
  split; [exact seeded_generation | reflexivity].
Qed.

Lemma pool_needs_timestamp_and_seed_only_witness :
  In Demo.seeded_pattern [Demo.seeded_pattern]
  /\ exists ts,
       nth_error (timestamps_seeds [Demo.seeded])
                 (p_index Demo.seeded_pattern)
       = Some (ts, p_seed Demo.seeded_pattern).
Proof.
  assert (H : In Demo.seeded_pattern [Demo.seeded_pattern]) by (simpl; tauto).
  split; [exact H|].
  exact (proj2 (proj2 (pool_needs_timestamp_and_seed_only brute_force_tables
                         [Demo.seeded]))
               _ _ Demo.seeded_pattern seeded_generation H).
Defined.

(** ** C8 *)



(** ** C9 *)


(** The same three lines as the master file of the collector: the
    malformed line is reported and the two records are kept. *)
Example collector_skips_malformed_line :
  load_collected_data Demo.loads_json Demo.converts Demo.new_collector
    "rugs-data/all-games.jsonl"
    (Some [Demo.good_line_1; Demo.bad_line; Demo.good_line_2])
  = (["📊 Loading collected game data...";
      "⚠️  Error parsing line 2: Expecting value: line 1 column 1 (char 0)";
      "✅ Loaded 2 games from master file";
      "📈 Created analysis DataFrame: (2, 21)"],
     {| raw_games :=
          [JDict [("gameId", JStr "20240101-a1b2c3");
                  ("timestamp", JStr "2024-01-01T00:00:00")];
           JDict [("gameId", JStr "20240102-d4e5f6")]];
        games_df := Some {| n_rows := 2; n_columns := 21 |} |},
     inr true).
Proof. vm_compute. reflexivity. Qed.

(** A master file in which no line decodes: the call raises. *)
Example collector_raises_without_record :
  load_collected_data Demo.loads_json Demo.converts Demo.new_collector
    "rugs-data/all-games.jsonl" (Some [Demo.bad_line])
  = (["📊 Loading collected game data...";
      "⚠️  Error parsing line 1: Expecting value: line 1 column 1 (char 0)";
      "✅ Loaded 0 games from master file"],
     Demo.new_collector,
     inl (KeyError "recording_start")).
Proof. vm_compute. reflexivity. Qed.


(** ** C10 *)

(** The validation slice [[salted; without_id]] for the group of
    [leaked_pattern]: [salted] has an id and the seed [md5("rugs.fun")],
    the digest of the salt, and counts as a match; [without_id] carries
    both keys and no id, so that its time value is empty: it is counted
    in [total] only, and the rate is [1/2]. *)
Example salted_counts :
  validation_games [Demo.seeded; Demo.salted; Demo.without_id] 1
  = [Demo.salted; Demo.without_id]
  /\ has_time_val tf_game_id Demo.salted = true
  /\ empty_time_val tf_game_id Demo.without_id = true
  /\ validate_group [Demo.seeded; Demo.salted; Demo.without_id] 1
       (Demo.game_id_key, [Demo.leaked_pattern])
     = ([], Ok [(Demo.game_id_key,
                 {| matches := 1; total := 2;
                    success_rate :=
                      PyFloat (S754_finite false 4503599627370496 (-53)) |})]).
Proof. repeat split; vm_compute; reflexivity. Qed.

Lemma empty_time_value_counts_in_total_only_witness :
  format (salt_format_of Demo.game_id_key) (secret_of Demo.game_id_key)
  = Ok "rugs.fun"
  /\ sample_ok (validation_games
                  [Demo.seeded; Demo.salted; Demo.without_id] 1) = true
  /\ let slice := validation_games
                    [Demo.seeded; Demo.salted; Demo.without_id] 1 in
     exists r,
       validate_group [Demo.seeded; Demo.salted; Demo.without_id] 1
         (Demo.game_id_key, [Demo.leaked_pattern])
       = ([], Ok [(Demo.game_id_key, r)])
       /\ total r = count has_both slice
       /\ total r
          = count (has_time_val (time_format_of Demo.game_id_key)) slice
            + count (empty_time_val (time_format_of Demo.game_id_key)) slice
       /\ matches r
          = count (meets_condition Demo.game_id_key [Demo.leaked_pattern]
                                   "rugs.fun") slice
       /\ matches r
          <= count (has_time_val (time_format_of Demo.game_id_key)) slice
       /\ success_rate r
          = if Nat.ltb 0 (total r)
            then PyFloat (int_truediv (Z.of_nat (matches r))
                                      (Z.of_nat (total r)))
            else PyInt 0.
Proof.
  assert (Ef : format (salt_format_of Demo.game_id_key)
                      (secret_of Demo.game_id_key) = Ok "rugs.fun")
    by reflexivity.
  assert (S : sample_ok (validation_games
                           [Demo.seeded; Demo.salted; Demo.without_id] 1)
              = true) by (vm_compute; reflexivity).
  split; [exact Ef|]. split; [exact S|].
  exact (empty_time_value_counts_in_total_only
           [Demo.seeded; Demo.salted; Demo.without_id] 1 Demo.game_id_key
           [Demo.leaked_pattern] "rugs.fun" Ef S).
Defined.

End Examples.

From Stdlib Require Import Sorted.

(* ===================================================================== *)
(** * Further properties of the search                                    *)
(* ===================================================================== *)

Lemma timestamps_seeds_length (sample : list game) :
  List.length (timestamps_seeds sample) = count has_both sample.
Proof.
  induction sample as [|g sample IH]; [reflexivity|].
  rewrite count_cons. unfold timestamps_seeds in *. simpl.
  rewrite length_app, IH. unfold has_both.
  now destruct (timestamp g), (serverSeed g).
Qed.

Lemma count_length {A : Type} (f : A -> bool) (l : list A) :
  count f l <= List.length l.
Proof.
  induction l as [|x l IH]; [reflexivity|].
  rewrite count_cons. simpl. destruct (f x); lia.
Qed.

Lemma balanced_for_each {A B : Type} (body : A -> M (list B)) (l : list A) :
  (forall x, In x l -> balanced (body x)) -> balanced (for_each l body).
Proof.
  intros H out ys E.
  assert (R : returns (for_each l body)) by (apply returns_ok; eauto).
  rewrite (for_each_returns body l R) in E. inversion E; subst. clear E.
  assert (Rx := proj1 (returns_for_each body l) R). clear R.
  induction l as [|x l IH]; [reflexivity|].
  simpl. rewrite !length_app.
  rewrite IH; [|intros; apply H; now right|intros; apply Rx; now right].
  f_equal.
  destruct (proj1 (returns_ok _) (Rx x (or_introl eq_refl))) as (o & a & Ex).
  unfold stdout, appended, outcome. rewrite Ex. simpl.
  exact (H x (or_introl eq_refl) o a Ex).
Qed.

Lemma balanced_check_input i seed key secret salt_format test_input :
  balanced (check_input i seed key secret salt_format test_input).
Proof.
  intros out ys. rewrite check_input_first_match.
  destruct (first_match seed test_input); intros E; inversion E; reflexivity.
Qed.

Section More.
Context {platform : Platform}.

Lemma balanced_try_salt_format i seed key time_val secret salt_format :
  balanced (try_salt_format i seed key time_val secret salt_format).
Proof.
  unfold try_salt_format.
  destruct (format salt_format secret) as [salt|e].
  - rewrite bind_lift_ok. apply balanced_for_each.
    intros x _. apply balanced_check_input.
  - rewrite bind_lift_raise. intros out ys E. discriminate E.
Qed.

Lemma balanced_try_time_format cfg i seed kv :
  balanced (try_time_format cfg i seed kv).
Proof.
  destruct kv as [key time_val]. unfold try_time_format.
  destruct (negb (truthy time_val)).
  - intros out ys E. inversion E. reflexivity.
  - apply balanced_for_each. intros secret _.
    apply balanced_for_each. intros salt_format _.
    apply balanced_try_salt_format.
Qed.

Lemma balanced_scan_record cfg game its :
  balanced (scan_record cfg game its).
Proof.
  destruct its as [i [ts seed]]. unfold scan_record.
  destruct (fromisoformat ts) as [dt|].
  - destruct (time_formats dt game) as [tbl|e].
    + rewrite bind_lift_ok. apply balanced_for_each.
      intros kv _. apply balanced_try_time_format.
    + rewrite bind_lift_raise. intros out ys E. discriminate E.
  - intros out ys E. discriminate E.
Qed.

Lemma balanced_candidate_generation cfg sample :
  balanced (candidate_generation cfg sample).
Proof.
  unfold candidate_generation. destruct (rev sample) as [|game _].
  - intros out ys E. inversion E. reflexivity.
  - apply balanced_for_each. intros its _. apply balanced_scan_record.
Qed.

Lemma empty_pool_generation cfg sample :
  count has_both sample = 0 ->
  candidate_generation cfg sample = ([], Ok []).
Proof.
  intros Z0. unfold candidate_generation.
  assert (E : timestamps_seeds sample = []).
  { apply length_zero_iff_nil. now rewrite timestamps_seeds_length. }
  rewrite E. now destruct (rev sample).
Qed.

Lemma validation_games_length (games : list game) (sample_size : Z) :
  List.length (validation_games games sample_size) <= 100.
Proof.
  unfold validation_games.
  rewrite (slice_nth games _ _ {| gameId := None; timestamp := None;
                                   serverSeed := None |}).
  rewrite length_map. unfold slice_indices. rewrite length_seq.
  unfold adjust_index.
  destruct (sample_size <? 0)%Z eqn:E1, (sample_size + 100 <? 0)%Z eqn:E2; lia.
Qed.

(** X1.  Every hypothesis that the generation returns holds on the record
    it was found on: the seed it carries equals the digest of its input
    under its algorithm (exact) or starts with the first sixteen
    characters of that digest (partial_16); its secret and template come
    from the tables, and its input is one of the four inputs built from a
    non-empty time value and the salt of that secret and template. *)
Theorem recorded_hypothesis_matches (cfg : tables) (sample : list game)
  (out : list string) (found : list pattern) (p : pattern) :
  candidate_generation cfg sample = (out, Ok found) ->
  In p found ->
  comparison_holds (p_seed p) (p_input p) (p_hash_type p, p_match_type p)
  = true
  /\ In (p_secret p) (common_secrets cfg)
  /\ In (p_salt_format p) (salt_formats cfg)
  /\ exists time_val salt,
       truthy time_val = true
       /\ format (p_salt_format p) (p_secret p) = Ok salt
       /\ In (p_input p) (test_inputs time_val salt).
Proof.
  intros E Hp.
  apply (found_iff cfg sample out found
           {| gameId := None; timestamp := None; serverSeed := None |} p E)
    in Hp.
  destruct Hp as (i & ts & seed & dt & tbl & key & time_val & secret
                  & salt_format & salt & test_input & hk & _ & _ & _ & _
                  & Htv & Hs & Hf & Ef & Hi & Hm & ->).
  simpl. apply first_match_some in Hm.
  destruct Hm as (before & after & _ & Hc & _).
  split; [now destruct hk|]. split; [exact Hs|]. split; [exact Hf|].
  now exists time_val, salt.
Qed.

(** X2.  The generation prints exactly one line per hypothesis it
    returns. *)
Theorem one_line_per_hypothesis (cfg : tables) (sample : list game)
  (out : list string) (found : list pattern) :
  candidate_generation cfg sample = (out, Ok found) ->
  List.length out = List.length found.
Proof. apply balanced_candidate_generation. Qed.

(** X4.  When no record of the sample carries both a timestamp and a
    seed, the method, on an analyzer that holds games, prints its banner
    only and returns the empty list (not [None]); it raises nothing,
    whatever the records hold. *)
Theorem sample_without_complete_record (storage : Storage) (self : analyzer)
  (sample_size : Z) :
  games self <> [] ->
  count has_both (sample_of (games self) sample_size) = 0 ->
  brute_force_seed_generation self sample_size
  = (["Attempting to brute force seed generation algorithm..."],
     Ok (Some [], Listed self)).
Proof.
  intros Hg Z0. rewrite (brute_force_with_games self sample_size Hg).
  cbv zeta.
  rewrite (search_after_generation _ _ _ _ _ _
             (empty_pool_generation brute_force_tables _ Z0)).
  reflexivity.
Qed.

(** X5.  Every entry of the validation results counts at most the hundred
    games that follow the sample: [matches <= total <= 100]. *)
Theorem validation_counts_bounded (games : list game) (sample_size : Z)
  (found : list pattern) (out : list string)
  (results : list (group_key * validation_result)) (key : group_key)
  (r : validation_result) :
  hold_out_validation games sample_size found = (out, Ok results) ->
  In (key, r) results ->
  matches r <= total r /\ total r <= 100.
Proof.
  intros E Hin.
  destruct (hold_out_validation_results _ _ _ _ _ _ _ E Hin)
    as (ps & salt & _ & _ & Ht & Hm & _).
  rewrite Hm, Ht. split.
  - apply count_le. intros g _ H.
    apply (has_time_val_has_both (time_format_of key)).
    exact (record_hit_has_time_val _ _ _ _ H).
  - etransitivity; [apply count_length | apply validation_games_length].
Qed.

End More.

(* ===================================================================== *)
(** * Order of the hypotheses                                             *)
(* ===================================================================== *)

Lemma sorted_blocks {A B : Type} (idx : B -> nat) (f : nat * A -> list B)
  (xs : list A) (k : nat) :
  (forall i x p, In p (f (i, x)) -> idx p = i) ->
  StronglySorted le (map idx (flat_map f (combine (seq k (List.length xs)) xs)))
  /\ forall p, In p (flat_map f (combine (seq k (List.length xs)) xs)) ->
               k <= idx p.
Proof.
  intros H. revert k. induction xs as [|x xs IH]; intros k.
  - simpl. split; [constructor | intros p []].
  - simpl. destruct (IH (S k)) as [S1 L1]. split.
    + rewrite map_app.
      assert (Hb : forall q, In q (f (k, x)) -> idx q = k)
        by (intros q; apply H).
      induction (f (k, x)) as [|q qs IHq]; [exact S1|].
      simpl. constructor.
      * apply IHq. intros q' Hq'. apply Hb. now right.
      * apply Forall_forall. intros n Hn.
        rewrite (Hb q (or_introl eq_refl)).
        rewrite <- map_app in Hn. apply in_map_iff in Hn.
        destruct Hn as (q' & <- & Hq'). apply in_app_or in Hq'.
        destruct Hq' as [Hq'|Hq'].
        -- rewrite (Hb q' (or_intror Hq')). lia.
        -- specialize (L1 q' Hq'). lia.
    + intros p Hp. apply in_app_or in Hp. destruct Hp as [Hp|Hp].
      * rewrite (H _ _ _ Hp). lia.
      * specialize (L1 p Hp). lia.
Qed.

Section Order.
Context {platform : Platform}.

Lemma scan_record_index cfg game i its p :
  fst its = i ->
  In p (appended (scan_record cfg game its)) -> p_index p = i.
Proof.
  destruct its as [i' [ts seed]]. cbn [fst]. intros ->.
  destruct (fromisoformat ts) as [dt|] eqn:Ed;
    [|unfold scan_record; cbv beta iota zeta; rewrite Ed; intros []].
  destruct (time_formats dt game) as [tbl|e] eqn:Et.
  2:{ unfold scan_record. cbv beta iota zeta. rewrite Ed.
      cbv beta iota zeta. rewrite Et.
      rewrite bind_lift_raise. intros []. }
  rewrite (scan_record_ok cfg game i ts seed dt tbl Ed Et).
  unfold appended.
  destruct (outcome (for_each tbl (try_time_format cfg i seed)))
    as [ys|e] eqn:Eo; [|intros []].
  assert (R : returns (for_each tbl (try_time_format cfg i seed)))
    by (unfold returns; now rewrite Eo).
  intros Hp.
  assert (Hp' : In p (appended (for_each tbl (try_time_format cfg i seed))))
    by (unfold appended; now rewrite Eo).
  apply (in_appended_for_each _ _ _ R) in Hp'.
  destruct Hp' as ([key time_val] & Hkv & Hp').
  assert (Rk := proj1 (returns_for_each _ _) R _ Hkv).
  apply (in_try_time_format cfg i seed key time_val p Rk) in Hp'.
  destruct Hp' as (_ & secret & salt_format & _ & _ & Hp').
  apply in_try_salt_format in Hp'.
  destruct Hp' as (salt & test_input & hk & _ & _ & _ & ->). reflexivity.
Qed.

(** X3.  The hypotheses are returned in the order of the records they
    were found on: their ['index'] values never decrease along the
    list. *)
Theorem hypotheses_ordered_by_record (cfg : tables) (sample : list game)
  (out : list string) (found : list pattern) :
  candidate_generation cfg sample = (out, Ok found) ->
  StronglySorted le (map p_index found).
Proof.
  intros E.
  assert (R : returns (candidate_generation cfg sample))
    by (apply returns_ok; eauto).
  assert (Ef : found = appended (candidate_generation cfg sample))
    by (symmetry; exact (appended_ok _ _ _ E)).
  rewrite Ef. clear E Ef. unfold candidate_generation in *.
  destruct (rev sample) as [|game _]; [constructor|].
  rewrite (appended_for_each _ _ R). unfold enumerate.
  apply (sorted_blocks p_index
           (fun its => appended (scan_record cfg game its))).
  intros i x p Hp. now apply (scan_record_index cfg game i (i, x) p).
Qed.

End Order.

(* ===================================================================== *)
(** * The sample and the games after it                                   *)
(* ===================================================================== *)

(** X7.  For a sample size that is not negative, the validation games
    start where the sample ends: the sample followed by the validation
    games is [games[:sample_size + 100]], so that no game lies between
    them and none is used twice. *)
Theorem validation_follows_sample (games : list game) (sample_size : Z) :
  (0 <= sample_size)%Z ->
  sample_of games sample_size ++ validation_games games sample_size
  = slice games None (Some (sample_size + 100)%Z).
Proof.
  intros Hn. unfold sample_of, validation_games.
  pose (d := {| gameId := None; timestamp := None; serverSeed := None |}).
  rewrite !(slice_nth games _ _ d). rewrite <- map_app. f_equal.
  unfold slice_indices, adjust_index.
  set (len := Z.of_nat (List.length games)).
  assert (Hl : (0 <= len)%Z) by (unfold len; lia).
  destruct (sample_size <? 0)%Z eqn:E1; [lia|].
  destruct (sample_size + 100 <? 0)%Z eqn:E2; [lia|].
  rewrite !Z.sub_0_r. change (Z.to_nat 0) with 0.
  replace (Z.to_nat (Z.min (sample_size + 100) len))
    with (Z.to_nat (Z.min sample_size len)
          + Z.to_nat (Z.min (sample_size + 100) len - Z.min sample_size len))
    by lia.
  now rewrite seq_app.
Qed.

(* ===================================================================== *)
(** * The groups of hypotheses                                            *)
(* ===================================================================== *)

Lemma time_key_eqb_eq (a b : time_key) : time_key_eqb a b = true <-> a = b.
Proof.
  split; [|intros ->; apply String.eqb_refl].
  destruct a, b; intros H; try reflexivity; discriminate H.
Qed.

Lemma hash_alg_eqb_eq (a b : hash_alg) : hash_alg_eqb a b = true <-> a = b.
Proof. destruct a, b; simpl; split; congruence. Qed.

Lemma match_kind_eqb_eq (a b : match_kind) :
  match_kind_eqb a b = true <-> a = b.
Proof. destruct a, b; simpl; split; congruence. Qed.

Lemma group_key_eqb_eq (a b : group_key) : group_key_eqb a b = true <-> a = b.
Proof.
  destruct a as [[[[tf s] f] h] k], b as [[[[tf' s'] f'] h'] k'].
  unfold group_key_eqb. rewrite !andb_true_iff.
  rewrite time_key_eqb_eq, !String.eqb_eq, hash_alg_eqb_eq, match_kind_eqb_eq.
  split.
  - intros ((((-> & ->) & ->) & ->) & ->). reflexivity.
  - intros E. inversion E. auto.
Qed.

Lemma group_key_eqb_refl (a : group_key) : group_key_eqb a a = true.
Proof. now apply group_key_eqb_eq. Qed.

Lemma add_to_group_fst key p groups :
  map fst (add_to_group key p groups)
  = if existsb (group_key_eqb key) (map fst groups) then map fst groups
    else map fst groups ++ [key].
Proof.
  induction groups as [|[k ps] r IH]; [reflexivity|].
  simpl. destruct (group_key_eqb k key) eqn:E.
  - apply group_key_eqb_eq in E. subst k. rewrite group_key_eqb_refl.
    reflexivity.
  - assert (E' : group_key_eqb key k = false).
    { destruct (group_key_eqb key k) eqn:E'; [|reflexivity].
      apply group_key_eqb_eq in E'. subst k.
      now rewrite group_key_eqb_refl in E. }
    rewrite E'. simpl. rewrite IH.
    now destruct (existsb (group_key_eqb key) (map fst r)).
Qed.

Lemma existsb_key (key : group_key) (keys : list group_key) :
  existsb (group_key_eqb key) keys = true <-> In key keys.
Proof.
  rewrite existsb_exists. split.
  - intros (k & Hk & E). apply group_key_eqb_eq in E. now subst.
  - intros H. exists key. split; [exact H | apply group_key_eqb_refl].
Qed.

Lemma add_to_group_nodup key p groups :
  NoDup (map fst groups) -> NoDup (map fst (add_to_group key p groups)).
Proof.
  intros N. rewrite add_to_group_fst.
  destruct (existsb (group_key_eqb key) (map fst groups)) eqn:E; [exact N|].
  apply NoDup_app; [exact N| repeat constructor; intros [] |].
  intros k Hk [<-|[]].
  apply existsb_key in Hk. congruence.
Qed.

Lemma filter_none {A : Type} (f : A -> bool) (l : list A) :
  (forall x, In x l -> f x = false) -> filter f l = [].
Proof.
  induction l as [|x l IH]; intros H; [reflexivity|]. simpl.
  rewrite (H x (or_introl eq_refl)). apply IH. intros y Hy. apply H.
  now right.
Qed.

Lemma group_key_eqb_neq (a b : group_key) :
  a <> b -> group_key_eqb a b = false.
Proof.
  intros H. destruct (group_key_eqb a b) eqn:E; [|reflexivity].
  now apply group_key_eqb_eq in E.
Qed.

Lemma add_to_group_in key p groups k ps :
  NoDup (map fst groups) ->
  In (k, ps) (add_to_group key p groups) ->
  (k <> key /\ In (k, ps) groups)
  \/ (k = key
      /\ ((exists ps0, In (key, ps0) groups /\ ps = ps0 ++ [p])
          \/ (~ In key (map fst groups) /\ ps = [p]))).
Proof.
  induction groups as [|[k0 ps0] r IH]; intros N Hin.
  - destruct Hin as [E|[]]. inversion E; subst. right. split; [reflexivity|].
    right. split; [intros []|reflexivity].
  - simpl in N. inversion N as [|? ? Hk0 Nr]; subst.
    simpl in Hin. destruct (group_key_eqb k0 key) eqn:E.
    + apply group_key_eqb_eq in E. subst k0. destruct Hin as [E|Hin].
      * inversion E; subst. right. split; [reflexivity|]. left.
        exists ps0. split; [now left | reflexivity].
      * left. split; [|now right]. intros ->. apply Hk0.
        apply in_map_iff. now exists (key, ps).
    + assert (Hne : k0 <> key).
      { intros ->. now rewrite group_key_eqb_refl in E. }
      destruct Hin as [E'|Hin].
      * inversion E'; subst. left. split; [exact Hne | now left].
      * destruct (IH Nr Hin) as [[Hk Hr]|[-> [(ps1 & H1 & ->)|[Hn ->]]]].
        -- left. split; [exact Hk | now right].
        -- right. split; [reflexivity|]. left. exists ps1.
           split; [now right | reflexivity].
        -- right. split; [reflexivity|]. right. split; [|reflexivity].
           simpl. intros [H|H]; [now apply Hne | now apply Hn].
Qed.

(** The invariant of the grouping loop: the keys are distinct, every group
    holds the patterns seen so far that have its key, in order, and every
    pattern seen so far has a group. *)
Lemma grouping_invariant (l seen : list pattern)
  (groups : list (group_key * list pattern)) :
  NoDup (map fst groups) ->
  (forall k ps, In (k, ps) groups ->
                ps = filter (fun q => group_key_eqb (key_of q) k) seen) ->
  (forall q, In q seen -> In (key_of q) (map fst groups)) ->
  let groups' := fold_left (fun groups p => add_to_group (key_of p) p groups)
                           l groups in
  NoDup (map fst groups')
  /\ (forall k ps, In (k, ps) groups' ->
                   ps = filter (fun q => group_key_eqb (key_of q) k)
                               (seen ++ l))
  /\ (forall q, In q (seen ++ l) -> In (key_of q) (map fst groups')).
Proof.
  revert seen groups. induction l as [|p l IH]; intros seen groups N Hm Hc.
  - simpl. rewrite app_nil_r. auto.
  - simpl.
    replace (seen ++ p :: l) with ((seen ++ [p]) ++ l)
      by (now rewrite <- app_assoc).
    apply IH.
    + now apply add_to_group_nodup.
    + intros k ps Hin. rewrite filter_app. cbn [filter].
      destruct (add_to_group_in _ _ _ _ _ N Hin)
        as [[Hk Hr]|[-> [(ps1 & H1 & ->)|[Hn ->]]]].
      * rewrite (group_key_eqb_neq (key_of p) k) by congruence.
        rewrite app_nil_r. now apply Hm.
      * rewrite group_key_eqb_refl. f_equal. now apply Hm.
      * rewrite group_key_eqb_refl.
        replace (filter (fun q => group_key_eqb (key_of q) (key_of p)) seen)
          with (@nil pattern); [reflexivity|].
        symmetry. apply filter_none. intros q Hq.
        apply group_key_eqb_neq. intros E. apply Hn. rewrite <- E.
        now apply Hc.
    + intros q Hq. rewrite add_to_group_fst. apply in_app_or in Hq.
      destruct (existsb (group_key_eqb (key_of p)) (map fst groups)) eqn:E.
      * destruct Hq as [Hq|[<-|[]]]; [now apply Hc|].
        now apply existsb_key.
      * apply in_or_app. destruct Hq as [Hq|[<-|[]]].
        -- left. now apply Hc.
        -- right. now left.
Qed.

Lemma pattern_groups_spec (found : list pattern) :
  NoDup (map fst (pattern_groups found))
  /\ (forall k ps, In (k, ps) (pattern_groups found) ->
                   ps = filter (fun q => group_key_eqb (key_of q) k) found)
  /\ (forall q, In q found -> In (key_of q) (map fst (pattern_groups found))).
Proof.
  apply (grouping_invariant found [] []).
  - constructor.
  - intros k ps [].
  - intros q [].
Qed.

(** X6.  The grouping partitions the hypotheses by their key
    (time format, secret, template, algorithm, match kind): the keys of
    the groups are distinct, every hypothesis lies in the group of its
    key, and a group holds exactly the hypotheses with its key, in the
    order they were found. *)
Theorem groups_partition_hypotheses (found : list pattern) :
  NoDup (map fst (pattern_groups found))
  /\ (forall p, In p found ->
                exists ps, In (key_of p, ps) (pattern_groups found)
                           /\ In p ps)
  /\ (forall k ps, In (k, ps) (pattern_groups found) ->
                   ps <> []
                   /\ ps = filter (fun q => group_key_eqb (key_of q) k) found).
Proof.
  destruct (pattern_groups_spec found) as (N & Hm & Hc).
  split; [exact N|]. split.
  - intros p Hp. specialize (Hc p Hp). apply in_map_iff in Hc.
    destruct Hc as ([k ps] & Ek & Hin). simpl in Ek. subst k.
    exists ps. split; [exact Hin|].
    rewrite (Hm _ _ Hin). apply filter_In. split; [exact Hp|].
    apply group_key_eqb_refl.
  - intros k ps Hin. split; [|now apply Hm].
    destruct (pattern_groups_keys found k ps Hin) as (p & Hp & Ek).
    rewrite (Hm _ _ Hin). intros E.
    assert (H : In p (filter (fun q => group_key_eqb (key_of q) k) found)).
    { apply filter_In. split; [exact Hp|]. rewrite Ek.
      apply group_key_eqb_refl. }
    rewrite E in H. destruct H.
Qed.

Section Results.
Context {platform : Platform}.

Lemma validation_results_keys games sample_size found out results :
  validation_results games sample_size found = (out, Ok results) ->
  map fst results = map fst (pattern_groups found).
Proof.
  intros E. unfold validation_results in E.
  assert (R : returns (for_each (pattern_groups found)
                                (validate_group games sample_size)))
    by (apply returns_ok; eauto).
  rewrite (for_each_returns _ _ R) in E. inversion E; subst. clear E.
  assert (Rx := proj1 (returns_for_each _ _) R). clear R.
  induction (pattern_groups found) as [|[k ps] l IH]; [reflexivity|].
  cbn [flat_map map]. rewrite map_app, IH by (intros; apply Rx; now right).
  f_equal.
  destruct (proj1 (returns_ok _) (Rx (k, ps) (or_introl eq_refl)))
    as (o & res & Ev).
  destruct (validate_group_returns _ _ _ _ _ _ Ev)
    as (salt & r & _ & _ & -> & _).
  unfold appended, outcome. rewrite Ev. reflexivity.
Qed.

Lemma hold_out_validation_runs games sample_size found out results :
  found <> [] ->
  (sample_size < Z.of_nat (List.length games))%Z ->
  hold_out_validation games sample_size found = (out, Ok results) ->
  exists o, validation_results games sample_size found = (o, Ok results).
Proof.
  intros Hf Hl. unfold hold_out_validation.
  destruct found as [|p found]; [now elim Hf|].
  apply Z.ltb_lt in Hl. rewrite Hl. rewrite bind_print.
  destruct (validation_results games sample_size (p :: found))
    as [o [res|e]] eqn:Ev.
  - rewrite (bind_ok _ _ o res eq_refl). rewrite bind_print.
    destruct (for_each res report) as [o' [u|e]] eqn:Er.
    + rewrite (bind_ok _ _ o' u eq_refl). unfold stdout, outcome, ret.
      cbn [fst snd]. intros E. inversion E; subst. eauto.
    + rewrite (bind_raise _ _ o' e eq_refl). unfold stdout, outcome.
      cbn [fst snd]. intros E. discriminate E.
  - rewrite (bind_raise _ _ o e eq_refl). unfold stdout, outcome.
    cbn [fst snd]. intros E. discriminate E.
Qed.

(** X8.  When the validation runs (some hypothesis was found and games
    remain after the sample) and returns, its results hold exactly one
    entry per distinct key among the hypotheses. *)
Theorem one_result_per_key (games : list game) (sample_size : Z)
  (found : list pattern) (out : list string)
  (results : list (group_key * validation_result)) :
  found <> [] ->
  (sample_size < Z.of_nat (List.length games))%Z ->
  hold_out_validation games sample_size found = (out, Ok results) ->
  NoDup (map fst results)
  /\ forall key, In key (map fst results)
                 <-> exists p, In p found /\ key_of p = key.
Proof.
  intros Hf Hl E.
  destruct (hold_out_validation_runs _ _ _ _ _ Hf Hl E) as (o & Ev).
  rewrite (validation_results_keys _ _ _ _ _ Ev).
  destruct (pattern_groups_spec found) as (N & Hm & Hc).
  split; [exact N|]. intros key. split.
  - intros Hk. apply in_map_iff in Hk. destruct Hk as ([k ps] & <- & Hin).
    exact (pattern_groups_keys found k ps Hin).
  - intros (p & Hp & <-). now apply Hc.
Qed.

End Results.

(* ===================================================================== *)
(** * Loading: what happens to the games held before                      *)
(* ===================================================================== *)

Section Reload.
Context {platform : Platform} {storage : Storage}.

Lemma load_data_path (self : analyzer) :
  (data_path self = None \/ data_path self = Some EmptyString)
  \/ exists path, data_path self = Some path /\ truthy path = true.
Proof.
  destruct (data_path self) as [[|c r]|]; [now left; right| |now left; left].
  right. exists (String c r). now split.
Qed.

Lemma load_data_other (self : analyzer) (path : string) :
  data_path self = Some path ->
  truthy path = true ->
  endswith path ".jsonl" = false ->
  load_data self
  = match open_read path with
    | inl e => load_failed e (Listed self)
    | inr lines =>
        match json_load lines with
        | inl e => load_failed e (Listed self)
        | inr loaded => load_done path (assign self loaded)
        end
    end.
Proof.
  intros Ep Ht Ee. unfold load_data. rewrite Ep.
  destruct path as [|c r]; [discriminate Ht|]. now rewrite Ee.
Qed.

Lemma load_data_jsonl_unopened (self : analyzer) (path e : string) :
  data_path self = Some path ->
  truthy path = true ->
  endswith path ".jsonl" = true ->
  open_read path = inl e ->
  load_data self = load_failed e (Listed (set_games self [])).
Proof.
  intros Ep Ht Ee Eo. unfold load_data. rewrite Ep.
  destruct path as [|c r]; [discriminate Ht|]. now rewrite Ee, Eo.
Qed.

(** X9.  A call of [load_data] that returns [False] may or may not have
    changed [self.games].  On a [.jsonl] path the games held before play
    no part: they are dropped before the file is opened, so that even a
    file that cannot be opened leaves the analyzer with no games.  On any
    other path the games are kept when the file cannot be opened or
    decoded and replaced by the decoded records when it holds an array;
    when it holds a number, a boolean or [null], that value is assigned
    to [self.games] before [len] raises on it: the call prints the error
    and returns [False] with the games replaced. *)
Theorem load_data_replaces_or_keeps :
  (forall (self self' : analyzer) (path : string),
     data_path self = Some path ->
     data_path self' = Some path ->
     truthy path = true ->
     endswith path ".jsonl" = true ->
     load_data self = load_data self')
  /\ (forall (self : analyzer) (path e : string),
        data_path self = Some path ->
        truthy path = true ->
        endswith path ".jsonl" = true ->
        open_read path = inl e ->
        load_data self
        = (["Error loading data: " ++ e]%string,
           Ok (false, Listed (set_games self []))))
  /\ (forall (self : analyzer) (path e : string),
        data_path self = Some path ->
        truthy path = true ->
        endswith path ".jsonl" = false ->
        (open_read path = inl e
         \/ exists lines, open_read path = inr lines
                          /\ json_load lines = inl e) ->
        load_data self
        = (["Error loading data: " ++ e]%string, Ok (false, Listed self)))
  /\ (forall (self : analyzer) (path : string) (lines : list string)
             (records : list game),
        data_path self = Some path ->
        truthy path = true ->
        endswith path ".jsonl" = false ->
        open_read path = inr lines ->
        json_load lines = inr (Records records) ->
        load_data self
        = (["Loaded " ++ str (Z.of_nat (List.length records)) ++ " games from "
            ++ path]%string,
           Ok (true, Listed (set_games self records))))
  /\ (forall (self : analyzer) (path : string) (lines : list string)
             (v : scalar),
        data_path self = Some path ->
        truthy path = true ->
        endswith path ".jsonl" = false ->
        open_read path = inr lines ->
        json_load lines = inr (Scalar v) ->
        load_data self
        = (["Error loading data: object of type '" ++ scalar_type v
            ++ "' has no len()"]%string,
           Ok (false, Replaced (Some path) v))).
Proof.
  split; [|split; [|split; [|split]]].
  - intros self self' path Ep Ep' Ht Ee.
    destruct (open_read path) as [e|lines] eqn:Eo.
    + rewrite (load_data_jsonl_unopened self path e Ep Ht Ee Eo).
      rewrite (load_data_jsonl_unopened self' path e Ep' Ht Ee Eo).
      unfold set_games. now rewrite Ep, Ep'.
    + rewrite (load_data_jsonl self path lines Ep Ht Ee Eo).
      rewrite (load_data_jsonl self' path lines Ep' Ht Ee Eo).
      unfold set_games. now rewrite Ep, Ep'.
  - intros self path e Ep Ht Ee Eo.
    rewrite (load_data_jsonl_unopened self path e Ep Ht Ee Eo).
    unfold load_failed. now rewrite bind_print.
  - intros self path e Ep Ht Ee H.
    rewrite (load_data_other self path Ep Ht Ee).
    destruct H as [Eo|(lines & Eo & El)]; rewrite Eo; [|rewrite El];
      unfold load_failed; now rewrite bind_print.
  - intros self path lines records Ep Ht Ee Eo El.
    rewrite (load_data_other self path Ep Ht Ee), Eo, El.
    cbn [assign load_done]. rewrite bind_print. reflexivity.
  - intros self path lines v Ep Ht Ee Eo El.
    rewrite (load_data_other self path Ep Ht Ee), Eo, El.
    cbn [assign load_done]. unfold load_failed. rewrite bind_print.
    now rewrite Ep.
Qed.

(** X10.  A load of a [.jsonl] file that stops at a malformed line makes
    the method return [None]; the records read before that line stay in
    the analyzer, and when there are any, the next call searches them
    without loading again. *)
Theorem second_call_searches_partial_load (self : analyzer) (path : string)
  (pre post : list string) (bad e : string) (sample_size : Z) :
  games self = [] ->
  data_path self = Some path ->
  truthy path = true ->
  endswith path ".jsonl" = true ->
  open_read path = inr (pre ++ bad :: post) ->
  Forall (well_formed json_loads) pre ->
  json_loads bad = inl e ->
  flat_map (decoded json_loads) pre <> [] ->
  let kept := set_games self (flat_map (decoded json_loads) pre) in
  brute_force_seed_generation self sample_size
  = (["Error loading data: " ++ e; "No data available for analysis"]%string,
     Ok (None, Listed kept))
  /\ brute_force_seed_generation kept sample_size
     = let run := search brute_force_tables (games kept)
                         (sample_of (games kept) sample_size) sample_size in
       ("Attempting to brute force seed generation algorithm..." :: stdout run,
        match outcome run with
        | Ok found => Ok (Some found, Listed kept)
        | Raise e => Raise e
        end).
Proof.
  intros Eg Ep Ht Ee Eo F Eb Hne kept. split.
  - unfold brute_force_seed_generation. rewrite Eg.
    rewrite (load_data_jsonl self path _ Ep Ht Ee Eo).
    rewrite (read_jsonl_stops pre post bad e [] F Eb). cbn [app].
    unfold load_failed. rewrite bind_print. unfold ret, stdout, outcome.
    cbn [fst snd].
    rewrite (bind_ok _ _ _ _ eq_refl). cbv beta iota zeta. cbn [negb].
    rewrite bind_print. reflexivity.
  - apply brute_force_with_games. exact Hne.
Qed.

End Reload.

(* ===================================================================== *)
(** * run_quick_analysis                                                  *)
(* ===================================================================== *)

Lemma recent_games_length (games : list game) :
  List.length (slice games (Some (-50)%Z) None)
  = Nat.min 50 (List.length games).
Proof.
  rewrite (slice_nth games _ _ {| gameId := None; timestamp := None;
                                   serverSeed := None |}).
  rewrite length_map. unfold slice_indices. rewrite length_seq.
  unfold adjust_index. change (-50 <? 0)%Z with true. cbv beta iota. lia.
Qed.

Lemma subscript_all_some (field : game -> option string) (games : list game)
  (vs : list string) :
  subscript_all field games = Some vs ->
  map field games = map Some vs.
Proof.
  revert vs. induction games as [|g r IH]; intros vs E; simpl in E.
  - now inversion E.
  - destruct (field g) as [v|] eqn:Ef; [|discriminate E].
    destruct (subscript_all field r) as [vs'|]; [|discriminate E].
    inversion E; subst. simpl. rewrite Ef. f_equal. now apply IH.
Qed.

Lemma subscript_all_length field games vs :
  subscript_all field games = Some vs ->
  List.length vs = List.length games.
Proof.
  intros E. apply subscript_all_some in E.
  apply (f_equal (@List.length _)) in E. now rewrite !length_map in E.
Qed.

Lemma subscript_all_none (field : game -> option string) (games : list game) :
  subscript_all field games = None
  <-> exists g, In g games /\ field g = None.
Proof.
  induction games as [|g r IH]; simpl.
  - split; [discriminate | intros (g & [] & _)].
  - destruct (field g) as [v|] eqn:Ef.
    + destruct (subscript_all field r) as [vs|].
      * split; [discriminate|]. intros (g' & [<-|Hg] & E); [congruence|].
        assert (H : Some vs = None) by (apply (proj2 IH); eauto).
        discriminate H.
      * split; [|reflexivity]. intros _.
        destruct (proj1 IH eq_refl) as (g' & Hg & E). eauto.
    + split; [|reflexivity]. intros _. exists g. auto.
Qed.

Lemma differences_length (epochs : list float) :
  List.length (differences epochs) = List.length epochs - 1.
Proof.
  induction epochs as [|x [|y r] IH]; [reflexivity | reflexivity|].
  change (differences (x :: y :: r)) with (fsub y x :: differences (y :: r)).
  cbn [List.length] in *. lia.
Qed.

Section QuickFacts.
Context {platform : Platform}.
Variable float_sum : list float -> float.

Lemma epoch_times_length (timestamps : list string) (epochs : list float) :
  epoch_times timestamps = Ok epochs ->
  List.length epochs = List.length timestamps.
Proof.
  revert epochs. induction timestamps as [|ts r IH]; intros epochs E.
  - inversion E. reflexivity.
  - simpl in E. destruct (fromisoformat ts) as [dt|]; [|discriminate E].
    destruct (Datetime.timestamp dt) as [t|e]; [|discriminate E].
    simpl in E. destruct (epoch_times r) as [es|e]; [|discriminate E].
    simpl in E. inversion E; subst. simpl. f_equal. now apply IH.
Qed.

(** The candidate a (record, time format) pair gives rise to, if any. *)
Lemma quick_check_cases ts seed name time_str :
  let full h := String.eqb seed (digest h time_str) in
  let part h := startswith seed (take 16 (digest h time_str)) in
  (exists h line,
     quick_check ts seed (name, time_str)
     = ([line], [{| c_timestamp := ts; c_seed := seed; c_time_format := name;
                    c_hash_type := h; c_match_type := None |}])
     /\ full h = true)
  \/ (exists h line,
        quick_check ts seed (name, time_str)
        = ([line], [{| c_timestamp := ts; c_seed := seed;
                       c_time_format := name; c_hash_type := h;
                       c_match_type := Some "partial"%string |}])
        /\ part h = true
        /\ full MD5 = false /\ full SHA1 = false /\ full SHA256 = false)
  \/ (quick_check ts seed (name, time_str) = ([], [])
      /\ forall h, full h = false /\ part h = false).
Proof.
  intros full part. unfold quick_check.
  change (Hashlib.md5 time_str) with (digest MD5 time_str).
  change (Hashlib.sha1 time_str) with (digest SHA1 time_str).
  change (Hashlib.sha256 time_str) with (digest SHA256 time_str).
  fold (full MD5) (full SHA1) (full SHA256) (part MD5) (part SHA1)
    (part SHA256).
  destruct (full MD5) eqn:F1; [left; cbn [orb]; eauto|].
  destruct (full SHA1) eqn:F2; [left; cbn [orb]; eauto|].
  destruct (full SHA256) eqn:F3; [left; cbn [orb]; eauto|].
  cbn [orb]. right.
  destruct (part MD5) eqn:P1; [left; cbn [orb]; eauto 10|].
  destruct (part SHA1) eqn:P2; [left; cbn [orb]; eauto 10|].
  destruct (part SHA256) eqn:P3; [left; cbn [orb]; eauto 10|].
  right. cbn [orb]. split; [reflexivity|]. intros []; auto.
Qed.

Lemma quick_check_balanced ts seed kv :
  List.length (fst (quick_check ts seed kv))
  = List.length (snd (quick_check ts seed kv))
  /\ List.length (snd (quick_check ts seed kv)) <= 1.
Proof.
  destruct kv as [name time_str].
  destruct (quick_check_cases ts seed name time_str)
    as [(h & line & -> & _)|[(h & line & -> & _)|[-> _]]]; simpl; lia.
Qed.

Lemma quick_check_explains ts seed name time_str c :
  In c (snd (quick_check ts seed (name, time_str))) ->
  c_timestamp c = ts /\ c_seed c = seed /\ c_time_format c = name
  /\ explains c time_str.
Proof.
  destruct (quick_check_cases ts seed name time_str)
    as [(h & line & -> & F)|[(h & line & -> & P & _)|[-> _]]]; simpl.
  - intros [<-|[]]. unfold explains. simpl. repeat split.
    apply String.eqb_eq. exact F.
  - intros [<-|[]]. unfold explains. simpl. repeat split. exact P.
  - intros [].
Qed.

Lemma quick_check_full ts seed name time_str h :
  seed = digest h time_str ->
  snd (quick_check ts seed (name, time_str))
  = [{| c_timestamp := ts; c_seed := seed; c_time_format := name;
        c_hash_type := h; c_match_type := None |}].
Proof.
  intros E.
  assert (F : String.eqb seed (digest h time_str) = true)
    by now apply String.eqb_eq.
  destruct (quick_check_cases ts seed name time_str)
    as [(h' & line & -> & F')|[(h' & line & _ & _ & F1 & F2 & F3)|[_ N]]].
  - simpl. apply String.eqb_eq in F'. rewrite E in F'.
    apply digest_alg_inj in F'. now subst h'.
  - destruct h; congruence.
  - destruct (N h) as [N' _]. congruence.
Qed.

Lemma quick_time_formats_length dt tbl :
  quick_time_formats dt = Ok tbl -> List.length tbl = 5.
Proof.
  unfold quick_time_formats.
  destruct (Datetime.timestamp dt) as [t|e]; [|discriminate].
  simpl. destruct (int_of_float t) as [z|e]; [|discriminate].
  simpl. destruct (int_of_float _) as [z'|e]; [|discriminate].
  simpl. intros E. inversion E. reflexivity.
Qed.

Lemma quick_record_ok ts seed out cs :
  quick_record (ts, seed) = Ok (out, cs) ->
  exists dt tbl,
    fromisoformat ts = Some dt
    /\ quick_time_formats dt = Ok tbl
    /\ out = flat_map fst (map (quick_check ts seed) tbl)
    /\ cs = flat_map snd (map (quick_check ts seed) tbl).
Proof.
  unfold quick_record.
  destruct (fromisoformat ts) as [dt|] eqn:Ed; [|discriminate].
  destruct (quick_time_formats dt) as [tbl|e] eqn:Et; [|discriminate].
  cbn [rbind]. intros E. inversion E. now exists dt, tbl.
Qed.

Lemma checks_balanced ts seed (tbl : list (time_key * string)) :
  List.length (flat_map fst (map (quick_check ts seed) tbl))
  = List.length (flat_map snd (map (quick_check ts seed) tbl))
  /\ List.length (flat_map snd (map (quick_check ts seed) tbl))
     <= List.length tbl.
Proof.
  induction tbl as [|kv tbl [IH1 IH2]]; [simpl; lia|].
  cbn [map flat_map List.length]. rewrite !length_app.
  destruct (quick_check_balanced ts seed kv) as [B1 B2]. lia.
Qed.

Lemma quick_loop_balanced items out cs e :
  quick_loop items = (out, cs, e) ->
  List.length cs <= 5 * List.length items
  /\ List.length out = List.length cs.
Proof.
  revert out cs e. induction items as [|[ts seed] r IH]; intros out cs e E.
  - inversion E. simpl. lia.
  - cbn [quick_loop] in E.
    destruct (quick_record (ts, seed)) as [[o1 c1]|e1] eqn:Er.
    + destruct (quick_loop r) as [[o2 c2] e2].
      destruct (IH o2 c2 e2 eq_refl) as [L B].
      inversion E; subst. clear E.
      destruct (quick_record_ok _ _ _ _ Er) as (dt & tbl & _ & Et & -> & ->).
      destruct (checks_balanced ts seed tbl) as [B1 B2].
      rewrite (quick_time_formats_length _ _ Et) in B2.
      rewrite !length_app. cbn [List.length]. lia.
    + inversion E. simpl. lia.
Qed.

Lemma quick_loop_sound items out cs e c :
  quick_loop items = (out, cs, e) ->
  In c cs ->
  exists dt tbl time_str,
    In (c_timestamp c, c_seed c) items
    /\ fromisoformat (c_timestamp c) = Some dt
    /\ quick_time_formats dt = Ok tbl
    /\ In (c_time_format c, time_str) tbl
    /\ explains c time_str.
Proof.
  revert out cs e. induction items as [|[ts seed] r IH]; intros out cs e E Hc.
  - inversion E; subst. destruct Hc.
  - cbn [quick_loop] in E.
    destruct (quick_record (ts, seed)) as [[o1 c1]|e1] eqn:Er.
    + destruct (quick_loop r) as [[o2 c2] e2].
      specialize (IH o2 c2 e2 eq_refl).
      inversion E; subst. clear E. apply in_app_or in Hc.
      destruct Hc as [Hc|Hc].
      * destruct (quick_record_ok _ _ _ _ Er) as (dt & tbl & Ed & Et & _ & ->).
        apply in_flat_map in Hc. destruct Hc as (chk & Hchk & Hc).
        apply in_map_iff in Hchk. destruct Hchk as ([name time_str] & <- & Hkv).
        destruct (quick_check_explains _ _ _ _ _ Hc) as (E1 & E2 & E3 & Hx).
        exists dt, tbl, time_str. rewrite E1, E2, E3.
        repeat split; try assumption. now left.
      * destruct (IH Hc) as (dt & tbl & time_str & Hin & H).
        exists dt, tbl, time_str. split; [now right | exact H].
    + inversion E; subst. destruct Hc.
Qed.

Lemma quick_loop_complete items out cs ts seed :
  quick_loop items = (out, cs, None) ->
  In (ts, seed) items ->
  exists o c, quick_record (ts, seed) = Ok (o, c) /\ incl c cs.
Proof.
  revert out cs. induction items as [|[ts0 seed0] r IH]; intros out cs E Hin.
  - destruct Hin.
  - cbn [quick_loop] in E.
    destruct (quick_record (ts0, seed0)) as [[o1 c1]|e1] eqn:Er.
    + destruct (quick_loop r) as [[o2 c2] e2] eqn:El.
      inversion E; subst. clear E. specialize (IH o2 c2 eq_refl).
      destruct Hin as [Ei|Hin].
      * inversion Ei; subst. exists o1, c1. split; [exact Er|].
        apply incl_appl, incl_refl.
      * destruct (IH Hin) as (o & c & Eo & Hc).
        exists o, c. split; [exact Eo|]. now apply incl_appr.
    + inversion E.
Qed.

Lemma tested_records (l : list game) (tss seeds : list string) (n : nat)
  (ts seed : string) :
  subscript_all timestamp l = Some tss ->
  subscript_all serverSeed l = Some seeds ->
  In (ts, seed) (firstn n (combine tss seeds))
  <-> exists g, In g (firstn n l) /\ timestamp g = Some ts
                /\ serverSeed g = Some seed.
Proof.
  revert tss seeds n. induction l as [|g l IH]; intros tss seeds n Et Es.
  - inversion Et; inversion Es; subst. destruct n; simpl.
    + split; [intros [] | intros (g & [] & _)].
    + split; [intros [] | intros (g & [] & _)].
  - simpl in Et, Es.
    destruct (timestamp g) as [t|] eqn:E1; [|discriminate Et].
    destruct (subscript_all timestamp l) as [tss'|]; [|discriminate Et].
    destruct (serverSeed g) as [s|] eqn:E2; [|discriminate Es].
    destruct (subscript_all serverSeed l) as [seeds'|]; [|discriminate Es].
    inversion Et; inversion Es; subst. clear Et Es.
    destruct n as [|n]; simpl.
    + split; [intros [] | intros (g' & [] & _)].
    + rewrite (IH tss' seeds' n eq_refl eq_refl). split.
      * intros [E|(g' & Hg & H)].
        -- inversion E; subst. exists g. auto.
        -- exists g'. auto.
      * intros (g' & [<-|Hg] & H1 & H2).
        -- left. congruence.
        -- right. exists g'. auto.
Qed.

(** The four ways the method ends when there are at least ten games. *)
Lemma run_quick_cases (games : list game) (hc : list candidate) :
  10 <= List.length games ->
  let recent := slice games (Some (-50)%Z) None in
  let run := run_quick_analysis float_sum games hc in
  (subscript_all timestamp recent = None
   /\ run = ([], hc, Some (KeyError "timestamp")))
  \/ (exists tss,
        subscript_all timestamp recent = Some tss
        /\ subscript_all serverSeed recent = None
        /\ run = ([], hc, Some (KeyError "serverSeed")))
  \/ (exists tss seeds e,
        subscript_all timestamp recent = Some tss
        /\ subscript_all serverSeed recent = Some seeds
        /\ epoch_times tss = Raise e
        /\ run = ([], hc, Some (Builtin e)))
  \/ (exists tss seeds line out cs e,
        subscript_all timestamp recent = Some tss
        /\ subscript_all serverSeed recent = Some seeds
        /\ quick_loop (firstn 10 (combine tss seeds)) = (out, cs, e)
        /\ run = (line :: out, hc ++ cs, e)).
Proof.
  intros Hl recent run. unfold run, run_quick_analysis.
  assert (Eg : (Z.of_nat (List.length games) <? 10)%Z = false)
    by (apply Z.ltb_ge; lia).
  rewrite Eg. fold recent.
  destruct (subscript_all timestamp recent) as [tss|] eqn:Et; [|now left].
  right.
  destruct (subscript_all serverSeed recent) as [seeds|] eqn:Es;
    [|left; now exists tss].
  right.
  destruct (epoch_times tss) as [epochs|e] eqn:Ee;
    [|left; now exists tss, seeds, e].
  right.
  assert (Hd : List.length (differences epochs) >= 9).
  { rewrite differences_length, (epoch_times_length _ _ Ee).
    rewrite (subscript_all_length _ _ _ Et). unfold recent.
    rewrite recent_games_length. lia. }
  destruct (differences epochs) as [|d ds] eqn:Ed; [simpl in Hd; lia|].
  destruct (quick_loop (firstn 10 (combine tss seeds))) as [[out cs] e]
    eqn:El.
  eexists tss, seeds, _, out, cs, e.
  split; [reflexivity|]. split; [reflexivity|]. split; [exact El|reflexivity].
Qed.

Lemma few_games_quick_analysis (games : list game)
  (hc : list candidate) :
  (List.length games < 10 ->
   run_quick_analysis float_sum games hc
   = (["Not enough games for analysis"], hc, None)).
Proof.
  intros Hl. unfold run_quick_analysis.
  assert (E : (Z.of_nat (List.length games) <? 10)%Z = true)
    by (apply Z.ltb_lt; lia).
  now rewrite E.
Qed.

(** X12.  [run_quick_analysis] reads no record when there are fewer than
    ten games.  With ten or more it requires both keys of every one of the
    last fifty games: a record without ['timestamp'] among them makes it
    raise [KeyError] before it prints or records anything, and so does a
    record without ['serverSeed'] when all carry a timestamp.  (The search
    of [brute_force_seed_generation] skips such records instead.) *)
Theorem quick_analysis_needs_both_keys (games : list game)
  (hash_candidates : list candidate) :
  let recent := slice games (Some (-50)%Z) None in
  (List.length games < 10 ->
   run_quick_analysis float_sum games hash_candidates
   = (["Not enough games for analysis"], hash_candidates, None))
  /\ (10 <= List.length games ->
      (exists g, In g recent /\ timestamp g = None) ->
      run_quick_analysis float_sum games hash_candidates
      = ([], hash_candidates, Some (KeyError "timestamp")))
  /\ (10 <= List.length games ->
      (forall g, In g recent -> timestamp g <> None) ->
      (exists g, In g recent /\ serverSeed g = None) ->
      run_quick_analysis float_sum games hash_candidates
      = ([], hash_candidates, Some (KeyError "serverSeed"))).
Proof.
  intros recent. split; [|split].
  - apply few_games_quick_analysis.
  - intros Hl Hex. apply subscript_all_none in Hex.
    destruct (run_quick_cases games hash_candidates Hl)
      as [[_ E]|[(tss & Et & _)|[(tss & s & e & Et & _)
                                 |(tss & s & l & o & c & e & Et & _)]]];
      [exact E | | |]; fold recent in Et; congruence.
  - intros Hl Hall Hex. apply subscript_all_none in Hex.
    destruct (run_quick_cases games hash_candidates Hl)
      as [[Et _]|[(tss & _ & _ & E)|[(tss & s & e & _ & Es & _)
                                     |(tss & s & l & o & c & e & _ & Es & _)]]];
      [ | exact E | |]; try (fold recent in Es; congruence).
    fold recent in Et. apply subscript_all_none in Et.
    destruct Et as (g & Hg & E). now elim (Hall g Hg).
Qed.

(** X13.  A call of [run_quick_analysis] only appends to
    [self.hash_candidates], at most fifty entries (five time formats for
    each of ten records); it prints at most one line per appended entry
    after the line with the average, exactly so when it raises nothing;
    and it never divides by zero when it averages the time differences. *)
Theorem quick_analysis_appends_at_most_fifty (games : list game)
  (hash_candidates after : list candidate) (out : list string)
  (e : option raised) :
  run_quick_analysis float_sum games hash_candidates = (out, after, e) ->
  exists new,
    after = hash_candidates ++ new
    /\ List.length new <= 50
    /\ List.length out <= 1 + List.length new
    /\ (e = None -> List.length out = 1 + List.length new)
    /\ e <> Some ZeroDivisionError.
Proof.
  intros E.
  destruct (Nat.lt_ge_cases (List.length games) 10) as [Hl|Hl].
  - rewrite (few_games_quick_analysis games hash_candidates Hl)
      in E.
    inversion E; subst. exists []. rewrite app_nil_r. simpl.
    repeat split; try lia; discriminate.
  - destruct (run_quick_cases games hash_candidates Hl)
      as [[_ R]|[(tss & _ & _ & R)|[(tss & s & e' & _ & _ & _ & R)
                                    |(tss & s & l & o & c & e' & _ & _ & L & R)]]];
      rewrite R in E; inversion E; subst; clear E.
    + exists []. rewrite app_nil_r. simpl. repeat split; try lia; discriminate.
    + exists []. rewrite app_nil_r. simpl. repeat split; try lia; discriminate.
    + exists []. rewrite app_nil_r. simpl. repeat split; try lia; discriminate.
    + exists c. destruct (quick_loop_balanced _ _ _ _ L) as [L1 L2].
      assert (L3 := firstn_le_length 10 (combine tss s)).
      cbn [List.length]. repeat split; try lia.
      revert L. generalize (firstn 10 (combine tss s)). clear.
      intros items. revert o c. induction items as [|its r IH]; intros o c L.
      * inversion L. discriminate.
      * cbn [quick_loop] in L. destruct (quick_record its) as [[o1 c1]|e1].
        -- destruct (quick_loop r) as [[o2 c2] e2] eqn:El.
           inversion L; subst. exact (IH o2 c2 eq_refl).
        -- inversion L. discriminate.
Qed.

(** X14.  Every candidate that a call of [run_quick_analysis] appends
    comes from one of the first ten of the last fifty games and holds on
    it: it carries the timestamp and the seed of that game, and the seed
    is the digest, under the candidate's algorithm, of the candidate's time
    format of that timestamp (no ['match_type'] key), or starts with the
    first sixteen characters of that digest (['match_type'] is
    ['partial']). *)
Theorem quick_candidates_hold (games : list game)
  (hash_candidates after : list candidate) (out : list string)
  (e : option raised) :
  run_quick_analysis float_sum games hash_candidates = (out, after, e) ->
  exists new,
    after = hash_candidates ++ new
    /\ forall c, In c new ->
         exists g dt tbl time_str,
           In g (firstn 10 (slice games (Some (-50)%Z) None))
           /\ timestamp g = Some (c_timestamp c)
           /\ serverSeed g = Some (c_seed c)
           /\ fromisoformat (c_timestamp c) = Some dt
           /\ quick_time_formats dt = Ok tbl
           /\ In (c_time_format c, time_str) tbl
           /\ explains c time_str.
Proof.
  intros E.
  destruct (Nat.lt_ge_cases (List.length games) 10) as [Hl|Hl].
  - rewrite (few_games_quick_analysis games hash_candidates Hl) in E.
    inversion E; subst. exists []. rewrite app_nil_r.
    split; [reflexivity | intros c []].
  - destruct (run_quick_cases games hash_candidates Hl)
      as [[_ R]|[(tss & _ & _ & R)|[(tss & s & e' & _ & _ & _ & R)
                                    |(tss & s & l & o & cs & e' & Et & Es & L
                                      & R)]]];
      rewrite R in E; inversion E; subst; clear E;
      try (exists []; rewrite app_nil_r;
           split; [reflexivity | intros c []]).
    exists cs. split; [reflexivity|]. intros c Hc.
    destruct (quick_loop_sound _ _ _ _ c L Hc)
      as (dt & tbl & time_str & Hin & Ed & Etb & Hk & Hx).
    apply (tested_records _ _ _ _ _ _ Et Es) in Hin.
    destruct Hin as (g & Hg & H1 & H2).
    now exists g, dt, tbl, time_str.
Qed.

(** X15.  When [run_quick_analysis] raises nothing, a full match on one of
    the first ten of the last fifty games is recorded: if the seed of such
    a game is the MD5, SHA-1 or SHA-256 digest of one of the five time
    formats of its timestamp, the candidates afterwards include the entry
    with that timestamp, seed, time format and algorithm, without a
    ['match_type'] key. *)
Theorem quick_full_match_is_recorded (games : list game)
  (hash_candidates after : list candidate) (out : list string)
  (g : game) (ts seed : string) (dt : datetime)
  (tbl : list (time_key * string)) (name : time_key) (time_str : string)
  (h : hash_alg) :
  10 <= List.length games ->
  run_quick_analysis float_sum games hash_candidates = (out, after, None) ->
  In g (firstn 10 (slice games (Some (-50)%Z) None)) ->
  timestamp g = Some ts ->
  serverSeed g = Some seed ->
  fromisoformat ts = Some dt ->
  quick_time_formats dt = Ok tbl ->
  In (name, time_str) tbl ->
  seed = digest h time_str ->
  In {| c_timestamp := ts; c_seed := seed; c_time_format := name;
        c_hash_type := h; c_match_type := None |} after.
Proof.
  intros Hl E Hg E1 E2 Ed Etb Hk Eh.
  destruct (run_quick_cases games hash_candidates Hl)
    as [[_ R]|[(tss & _ & _ & R)|[(tss & s & e' & _ & _ & _ & R)
                                  |(tss & s & l & o & cs & e' & Et & Es & L
                                    & R)]]];
    rewrite R in E; inversion E; subst; clear E.
  apply in_or_app. right.
  assert (Hin : In (ts, digest h time_str) (firstn 10 (combine tss s))).
  { apply (tested_records _ _ _ _ _ _ Et Es). now exists g. }
  destruct (quick_loop_complete _ _ _ _ _ L Hin) as (o' & c' & Er & Hincl).
  apply Hincl.
  destruct (quick_record_ok _ _ _ _ Er) as (dt' & tbl' & Ed' & Etb' & _ & ->).
  rewrite Ed in Ed'. inversion Ed'; subst dt'.
  rewrite Etb in Etb'. inversion Etb'; subst tbl'.
  apply in_flat_map. exists (quick_check ts (digest h time_str) (name, time_str)).
  split; [apply in_map; exact Hk|].
  rewrite (quick_check_full ts _ name time_str h eq_refl). now left.
Qed.

End QuickFacts.

(* ===================================================================== *)
(** * test_game_id_pattern                                                *)
(* ===================================================================== *)

Lemma sum_counts_bump (key : string) (d : list (string * nat)) :
  sum_counts (bump key d) = S (sum_counts d).
Proof.
  induction d as [|[k v] r IH]; [reflexivity|].
  cbn [bump]. destruct (String.eqb k key).
  - unfold sum_counts. cbn [fold_right snd]. lia.
  - change (sum_counts ((k, v) :: bump key r))
      with (v + sum_counts (bump key r)).
    change (sum_counts ((k, v) :: r)) with (v + sum_counts r).
    rewrite IH. lia.
Qed.

Lemma get_count_bump (key key' : string) (d : list (string * nat)) :
  get_count key' (bump key d)
  = (if String.eqb key key' then 1 else 0) + get_count key' d.
Proof.
  unfold get_count. induction d as [|[k v] r IH].
  - simpl. now destruct (String.eqb key key').
  - simpl. destruct (String.eqb k key) eqn:E.
    + apply String.eqb_eq in E. subst k. simpl.
      now destruct (String.eqb key key').
    + simpl. destruct (String.eqb k key') eqn:E'; [|exact IH].
      apply String.eqb_eq in E'. subst k. now rewrite String.eqb_sym, E.
Qed.

Lemma insert_by_time_not_nil x l : insert_by_time x l <> [].
Proof. destruct l as [|y r]; simpl; [|destruct (String.ltb _ _)]; discriminate. Qed.

Lemma sort_by_time_nil (l : list (string * Z)) :
  sort_by_time l = [] <-> l = [].
Proof.
  split; [|now intros ->]. destruct l as [|x r]; [reflexivity|].
  simpl. intros E. now apply insert_by_time_not_nil in E.
Qed.

Section GameIdFacts.
Context {platform : Platform} {storage : Storage}.
Variable int_of_str : string -> Z -> option Z.

Lemma count_dates_sum (comps : list component) :
  sum_counts (count_dates int_of_str comps)
  = count (fun c => date_like int_of_str (date_part c)) comps.
Proof.
  unfold count_dates.
  assert (G : forall d,
             sum_counts
               (fold_left (fun d comp =>
                             if date_like int_of_str (date_part comp)
                             then bump (date_part comp) d else d) comps d)
             = count (fun c => date_like int_of_str (date_part c)) comps
               + sum_counts d).
  { induction comps as [|c r IH]; intros d; [reflexivity|].
    cbn [fold_left]. rewrite IH, count_cons.
    destruct (date_like int_of_str (date_part c));
      [rewrite sum_counts_bump|]; lia. }
  rewrite G. simpl. lia.
Qed.

Lemma count_ids_counts (comps : list component) :
  sum_counts (count_ids int_of_str comps)
  = List.length comps + count (fun c => is_hex int_of_str (id_part c)) comps
  /\ get_count "hex" (count_ids int_of_str comps)
     = count (fun c => is_hex int_of_str (id_part c)) comps.
Proof.
  unfold count_ids.
  set (step := fun d comp =>
                 bump ("length_" ++ str (Z.of_nat (len (id_part comp))))
                      (if is_hex int_of_str (id_part comp)
                       then bump "hex" d else d)).
  assert (G : forall d,
             sum_counts (fold_left step comps d)
             = List.length comps
               + count (fun c => is_hex int_of_str (id_part c)) comps
               + sum_counts d
             /\ get_count "hex" (fold_left step comps d)
                = count (fun c => is_hex int_of_str (id_part c)) comps
                  + get_count "hex" d).
  { induction comps as [|c r IH]; intros d; [split; reflexivity|].
    cbn [fold_left]. destruct (IH (step d c)) as [IH1 IH2].
    rewrite IH1, IH2, count_cons. clear IH IH1 IH2. unfold step.
    rewrite sum_counts_bump, get_count_bump.
    change (String.eqb ("length_" ++ _) "hex") with false.
    destruct (is_hex int_of_str (id_part c)).
    - rewrite sum_counts_bump, get_count_bump. cbn [List.length]. simpl.
      split; lia.
    - cbn [List.length]. split; lia. }
  destruct (G []) as [G1 G2]. rewrite G1, G2.
  change (sum_counts []) with 0. change (get_count "hex" []) with 0.
  split; lia.
Qed.

Lemma count_sequential_bound (comps : list component) :
  count_sequential int_of_str comps <= List.length comps - 1.
Proof.
  induction comps as [|p [|c r] IH]; [simpl; lia | simpl; lia|].
  change (count_sequential int_of_str (p :: c :: r))
    with (match int_of_str (id_part p) 16, int_of_str (id_part c) 16 with
          | Some prev_int, Some curr_int =>
              if (curr_int - prev_int =? 1)%Z then 1 else 0
          | _, _ => 0
          end + count_sequential int_of_str (c :: r)).
  cbn [List.length] in *.
  destruct (int_of_str (id_part p) 16) as [a|];
    [destruct (int_of_str (id_part c) 16) as [b|];
     [destruct (b - a =? 1)%Z|]|]; lia.
Qed.

(** The method returns an analysis only with a list in [self.games]. *)
Lemma analysis_on_listed (self : analyzer) (st : state) (out : list string)
  (a : game_id_analysis) :
  test_game_id_pattern int_of_str self = (out, inr (Some a, st)) ->
  exists self', st = Listed self'.
Proof.
  unfold test_game_id_pattern.
  destruct (match games self with
            | [] => load_data self
            | _ :: _ => ret (true, Listed self)
            end) as [o [[[|] [s|p v]]|e]]; cbv beta iota zeta;
    try (intros E; now inversion E).
  destruct (sort_by_time (time_id_pairs int_of_str (games s))) as [|p ps].
  - intros E. inversion E. now exists s.
  - destruct (correlation_times (p :: ps)); intros E; inversion E.
Qed.

(** The analysis that the method builds from the games it holds. *)
Lemma returned_analysis (self self' : analyzer) (out : list string)
  (a : game_id_analysis) :
  test_game_id_pattern int_of_str self = (out, inr (Some a, Listed self')) ->
  let comps := components (games self') in
  time_id_pairs int_of_str (games self') = []
  /\ a = {| date_patterns := count_dates int_of_str comps;
            id_patterns := count_ids int_of_str comps;
            sequential_count := count_sequential int_of_str comps;
            time_correlation := PyInt 0;
            time_correlation_p_value := float_of_int 1 |}
  /\ exists before,
       out = before ++ game_id_report (List.length comps) a.
Proof.
  unfold test_game_id_pattern.
  destruct (match games self with
            | [] => load_data self
            | _ :: _ => ret (true, Listed self)
            end) as [o [[[|] [s|p v]]|e]]; cbv beta iota zeta;
    try (intros E; now inversion E).
  destruct (sort_by_time (time_id_pairs int_of_str (games s)))
    as [|p ps] eqn:Es.
  - intros E. inversion E; subst. clear E.
    split; [now apply sort_by_time_nil|]. split; [reflexivity|].
    eexists. reflexivity.
  - destruct (correlation_times (p :: ps)); intros E; inversion E.
Qed.

(** X16.  [test_game_id_pattern] can only complete on data in which no
    game that carries a timestamp has an id whose part after the first
    ['-'] reads as a hexadecimal number.  As soon as one game has such an
    id and a timestamp, the method, on an analyzer that holds games,
    raises after printing its banner: [ValueError] or [OverflowError] from
    a timestamp, or else [NameError], [pearsonr] not being a name of the
    module. *)
Theorem game_id_analysis_raises_on_hex_ids (self : analyzer) (g : game)
  (id ts part : string) (id_int : Z) :
  games self <> [] ->
  In g (games self) ->
  gameId g = Some id ->
  timestamp g = Some ts ->
  contains "-" id = true ->
  nth_error (split "-" id) 1 = Some part ->
  int_of_str part 16 = Some id_int ->
  exists e,
    test_game_id_pattern int_of_str self
    = (["Analyzing game ID patterns in "
        ++ str (Z.of_nat (List.length (games self))) ++ " games..."]%string,
       inl e)
    /\ (e = NameError "pearsonr"
        \/ e = Builtin ValueError \/ e = Builtin OverflowError).
Proof.
  intros Hg Hin Ei Et Hc Hp Hx. unfold test_game_id_pattern.
  destruct (games self) as [|g0 gs] eqn:Eg; [now elim Hg|].
  unfold ret. cbv beta iota zeta. rewrite Eg. cbn [app].
  assert (Hpair : In (ts, id_int) (time_id_pairs int_of_str (g0 :: gs))).
  { unfold time_id_pairs. apply in_flat_map. exists g. split; [exact Hin|].
    rewrite Ei, Et, Hc, Hp, Hx. now left. }
  destruct (sort_by_time (time_id_pairs int_of_str (g0 :: gs)))
    as [|p ps] eqn:Es.
  { apply (proj1 (sort_by_time_nil _)) in Es. rewrite Es in Hpair.
    destruct Hpair. }
  destruct (correlation_times (p :: ps)) as [times|e] eqn:Ec.
  - eexists. split; [reflexivity|]. now left.
  - exists (Builtin e). split; [reflexivity|]. right.
    clear -Ec. revert Ec. generalize (p :: ps). intros l. revert e.
    induction l as [|[ts z] r IH]; intros e E; [discriminate E|].
    simpl in E. destruct (fromisoformat ts) as [dt|].
    + unfold Datetime.timestamp in E.
      destruct (utcoffset dt).
      * simpl in E. destruct (correlation_times r) as [x|e'];
          [discriminate E|]. simpl in E. inversion E; subst. now apply IH.
      * destruct (local_to_seconds dt).
        -- simpl in E. destruct (correlation_times r) as [x|e'];
             [discriminate E|]. simpl in E. inversion E; subst. now apply IH.
        -- simpl in E. inversion E. now right.
    + inversion E. now left.
Qed.

(** X17.  When [test_game_id_pattern] returns its analysis, the counters
    it reports are bounded by the number of components (the ids made of
    exactly two parts around one ['-']): the date counters add up to at
    most the number of components, the ['hex'] counter is the number of
    components whose id part reads as hexadecimal, and the ['length_n']
    counters account for every component once.  The sequential count is
    smaller than the number of components when there is a component, and
    it is [0] when there is none (the report then prints it out of [-1]).
    The correlation it returns is the integer [0] with p-value [1.0]. *)
Theorem game_id_counters_bounded (self self' : analyzer) (out : list string)
  (a : game_id_analysis) :
  test_game_id_pattern int_of_str self = (out, inr (Some a, Listed self')) ->
  let comps := components (games self') in
  let hex := count (fun c => is_hex int_of_str (id_part c)) comps in
  sum_counts (date_patterns a) <= List.length comps
  /\ get_count "hex" (id_patterns a) = hex
  /\ sum_counts (id_patterns a) = List.length comps + hex
  /\ (comps <> [] -> sequential_count a < List.length comps)
  /\ (comps = [] -> sequential_count a = 0)
  /\ time_correlation a = PyInt 0
  /\ time_correlation_p_value a = float_of_int 1.
Proof.
  intros E comps hex.
  destruct (returned_analysis _ _ _ _ E) as (_ & -> & _). fold comps.
  cbn [date_patterns id_patterns sequential_count time_correlation
       time_correlation_p_value].
  destruct (count_ids_counts comps) as [C1 C2].
  split; [rewrite count_dates_sum; apply count_length|].
  split; [exact C2|]. split; [exact C1|].
  pose proof (count_sequential_bound comps) as B.
  split; [|split; [|split; reflexivity]].
  - intros Hne. destruct comps as [|c r]; [now elim Hne|].
    cbn [List.length] in *. lia.
  - intros ->. reflexivity.
Qed.

(** X18.  When no id is made of exactly two parts, the analysis that
    [test_game_id_pattern] returns is empty, and the report counts the
    sequential ids out of [-1]: its last lines are
    ["Sequential IDs: 0 out of -1"] and the correlation line. *)
Theorem game_id_report_without_components (self self' : analyzer)
  (out : list string) (a : game_id_analysis) :
  test_game_id_pattern int_of_str self = (out, inr (Some a, Listed self')) ->
  components (games self') = [] ->
  date_patterns a = [] /\ id_patterns a = [] /\ sequential_count a = 0
  /\ exists before,
       out = before
             ++ [(newline ++ "=== Game ID Analysis Results ===")%string;
                 "Date part patterns:"%string;
                 (newline ++ "ID part patterns:")%string;
                 (newline ++ "Sequential IDs: 0 out of -1")%string;
                 "Time-ID correlation: 0.0000 (p-value: 1.000000)"%string].
Proof.
  intros E Ec.
  destruct (returned_analysis _ _ _ _ E) as (_ & -> & before & ->).
  rewrite Ec. cbn [date_patterns id_patterns sequential_count].
  repeat split. exists before. reflexivity.
Qed.

End GameIdFacts.

(* ===================================================================== *)
(** * The rows of create_analysis_dataframe                               *)
(* ===================================================================== *)

Lemma get_dict (members : list (string * json)) (key : string)
  (default : json) :
  get (JDict members) key default
  = inr (match find (fun kv => String.eqb (fst kv) key) members with
         | Some kv => snd kv
         | None => default
         end).
Proof. reflexivity. Qed.

Lemma get_other (v : json) (key : string) (default : json) :
  is_dict v = false ->
  get v key default
  = inl ("'" ++ type_name v ++ "' object has no attribute 'get'")%string.
Proof. destruct v; try reflexivity. discriminate. Qed.

(** A game gives a row exactly when it is well shaped, and the row then
    carries the position of the game counted from 1. *)
Lemma game_data_shape (i : nat) (g : json) :
  match game_data i g with
  | inr row => well_shaped g = true /\ game_number row = (Z.of_nat i + 1)%Z
  | inl _ => well_shaped g = false
  end.
Proof.
  destruct g as [| | | | | |m]; try reflexivity.
  unfold game_data, well_shaped, member_or_empty.
  rewrite !get_dict. cbn [and_then is_dict andb].
  set (analysis := match find _ m with Some kv => snd kv | None => JDict [] end).
  destruct analysis as [| | | | | |ma] eqn:Ea; try reflexivity.
  rewrite !get_dict. cbn [and_then is_dict andb].
  set (range := match find _ ma with Some kv => snd kv | None => JDict [] end).
  destruct range as [| | | | | |mr] eqn:Er; try reflexivity.
  rewrite !get_dict. cbn [and_then is_dict andb].
  set (meta := match find _ m with Some kv => snd kv | None => JDict [] end).
  destruct meta as [| | | | | |mm] eqn:Em; try reflexivity.
  rewrite !get_dict. cbn [and_then is_dict andb]. split; reflexivity.
Qed.

Lemma add_row_cases (ig : nat * json) :
  (well_shaped (snd ig) = true
   /\ exists row, add_row ig = ([], Ok [row])
                  /\ game_number row = (Z.of_nat (fst ig) + 1)%Z)
  \/ (well_shaped (snd ig) = false
      /\ exists line, add_row ig = ([line], Ok [])).
Proof.
  destruct ig as [i g]. unfold add_row. cbn [fst snd].
  pose proof (game_data_shape i g) as H.
  destruct (game_data i g) as [e|row].
  - right. split; [exact H|]. rewrite bind_print. eexists. reflexivity.
  - left. destruct H as [H1 H2]. split; [exact H1|]. now exists row.
Qed.

Lemma rows_and_warnings (l : list (nat * json)) :
  exists out rows,
    for_each l add_row = (out, Ok rows)
    /\ List.length rows + List.length out = List.length l
    /\ map game_number rows
       = map (fun ig => (Z.of_nat (fst ig) + 1)%Z)
             (filter (fun ig => well_shaped (snd ig)) l).
Proof.
  assert (R : returns (for_each l add_row))
    by (apply returns_for_each; intros x _; apply returns_add_row).
  rewrite (for_each_returns _ _ R). eexists _, _. split; [reflexivity|].
  clear R. induction l as [|ig l [IH1 IH2]]; [split; reflexivity|].
  cbn [flat_map filter List.length]. rewrite !length_app, map_app.
  destruct (add_row_cases ig) as [[W (row & E & N)]|[W (line & E)]];
    rewrite W.
  - assert (Eo : stdout (add_row ig) = []) by now rewrite E.
    assert (Ea : appended (add_row ig) = [row])
      by (unfold appended; now rewrite E).
    rewrite Eo, Ea. cbn [List.length map app]. rewrite N, IH2.
    split; [lia | reflexivity].
  - assert (Eo : stdout (add_row ig) = [line]) by now rewrite E.
    assert (Ea : appended (add_row ig) = [])
      by (unfold appended; now rewrite E).
    rewrite Eo, Ea. cbn [List.length map app]. split; [lia | exact IH2].
Qed.

(** X19.  The loop that builds the rows of [create_analysis_dataframe]
    never raises and accounts for every game: a game gives a row exactly
    when it is a dict whose members ['analysis'], ['priceRange'] (of the
    analysis) and ['collectionMetadata'], when present, are dicts; any
    other game is skipped with one warning; the rows and the warnings
    together are as many as the games. *)
Theorem every_game_is_row_or_warning (games : list json) :
  exists out rows,
    analysis_data games = (out, Ok rows)
    /\ List.length rows = count well_shaped games
    /\ List.length rows + List.length out = List.length games.
Proof.
  destruct (rows_and_warnings (enumerate games)) as (out & rows & E & L & N).
  exists out, rows. split; [exact E|].
  assert (Le : List.length (enumerate games) = List.length games).
  { unfold enumerate. rewrite length_combine, length_seq. lia. }
  split; [|lia].
  apply (f_equal (@List.length _)) in N. rewrite !length_map in N.
  rewrite N. unfold count, enumerate. clear.
  generalize 0. induction games as [|g games IH]; intros k; [reflexivity|].
  cbn [List.length seq combine filter snd].
  destruct (well_shaped g); cbn [List.length]; now rewrite IH.
Qed.

Lemma kept_positions_sorted (games : list json) (k : nat) :
  StronglySorted lt
    (map fst (filter (fun ig : nat * json => well_shaped (snd ig))
                     (combine (seq k (List.length games)) games)))
  /\ forall i,
       In i (map fst (filter (fun ig : nat * json => well_shaped (snd ig))
                             (combine (seq k (List.length games)) games))) ->
       k <= i < k + List.length games.
Proof.
  revert k. induction games as [|g games IH]; intros k.
  - split; [constructor | intros i []].
  - destruct (IH (S k)) as [S1 B1].
    cbn [List.length seq combine filter snd].
    destruct (well_shaped g); cbn [map fst].
    + split.
      * constructor; [exact S1|]. apply Forall_forall. intros i Hi.
        specialize (B1 i Hi). lia.
      * intros i [<-|Hi]; [lia|]. specialize (B1 i Hi). lia.
    + split; [exact S1|]. intros i Hi. specialize (B1 i Hi). lia.
Qed.

(** X20.  A row carries as ['game_number'] the position of its game in
    the input counted from 1, not its position among the rows: the numbers
    of the rows are those of the well-shaped games, in increasing order,
    so that a skipped game leaves a gap in the numbering. *)
Theorem rows_numbered_by_input_position (games : list json)
  (out : list string) (rows : list (list (string * json))) :
  analysis_data games = (out, Ok rows) ->
  map game_number rows
  = map (fun i => (Z.of_nat i + 1)%Z) (kept_positions games)
  /\ StronglySorted lt (kept_positions games)
  /\ forall i, In i (kept_positions games) -> i < List.length games.
Proof.
  intros E.
  destruct (rows_and_warnings (enumerate games)) as (o & r & E' & _ & N).
  unfold analysis_data in E. rewrite E' in E. inversion E; subst. clear E.
  split.
  - rewrite N. unfold kept_positions. now rewrite map_map.
  - destruct (kept_positions_sorted games 0) as [S1 B1]. split; [exact S1|].
    intros i Hi. specialize (B1 i Hi). lia.
Qed.

(* ===================================================================== *)
(** * load_collected_data: every line is loaded or reported               *)
(* ===================================================================== *)

Section Accounting.
Variable json_loads : string -> string + json.
Variable convert : list (list (string * json)) -> option string.

Lemma stdout_read_line (nl : nat * string) :
  stdout (read_line json_loads nl)
  = match json_loads (strip (snd nl)) with
    | inl e => [warning_line (fst nl) e]
    | inr _ => []
    end.
Proof.
  destruct nl as [n line]. unfold read_line. cbn [fst snd].
  destruct (json_loads (strip line)) as [e|g]; [|reflexivity].
  rewrite bind_print. reflexivity.
Qed.

Lemma loaded_or_reported (numbered : list (nat * string)) :
  List.length (flat_map (fun nl => appended (read_line json_loads nl)) numbered)
  + List.length (flat_map (fun nl => stdout (read_line json_loads nl)) numbered)
  = List.length numbered.
Proof.
  induction numbered as [|nl l IH]; [reflexivity|].
  cbn [flat_map]. rewrite !length_app. cbn [List.length].
  rewrite <- IH. rewrite appended_read_line, stdout_read_line.
  unfold decoded. destruct (json_loads (strip (snd nl))); simpl; lia.
Qed.

(** How [create_analysis_dataframe] ends: with a frame that has one row
    per game that gave a row and 21 columns, with [KeyError] when no game
    gave a row, or with the exception of pandas. *)
Lemma create_analysis_dataframe_cases (games : list json) :
  exists out rows,
    analysis_data games = (out, Ok rows)
    /\ List.length rows + List.length out = List.length games
    /\ fst (create_analysis_dataframe convert games) = out
    /\ match snd (create_analysis_dataframe convert games) with
       | inr df =>
           rows <> [] /\ convert rows = None
           /\ df = {| n_rows := List.length rows; n_columns := 21 |}
       | inl e =>
           (rows = [] /\ e = KeyError "recording_start")
           \/ (rows <> [] /\ exists text, convert rows = Some text
                                          /\ e = Library text)
       end.
Proof.
  destruct (every_game_is_row_or_warning games) as (out & rows & E & _ & L).
  exists out, rows. split; [exact E|]. split; [exact L|].
  unfold create_analysis_dataframe. rewrite E.
  destruct rows as [|row rows]; cbn [fst snd columns existsb].
  - split; [reflexivity|]. now left.
  - destruct (analysis_data_rows games out (row :: rows) row E
                (or_introl eq_refl)) as (i & game & Eg).
    rewrite (game_data_keys i game row Eg).
    cbv beta iota zeta delta [existsb String.eqb Ascii.eqb Bool.eqb orb
                                 List.length Nat.add].
    destruct (convert (row :: rows)) as [text|] eqn:Ec; cbn [fst snd].
    + split; [reflexivity|]. right. split; [discriminate|]. now exists text.
    + split; [reflexivity|]. split; [discriminate|]. now split.
Qed.


End Accounting.

(* ===================================================================== *)
(** * What the validation hashes                                          *)
(* ===================================================================== *)

Lemma all_marks_app (a b : string) :
  all_marks (a ++ b)%string = all_marks a && all_marks b.
Proof.
  unfold all_marks. induction a as [|c a IH]; [reflexivity|].
  simpl. rewrite IH. now rewrite andb_assoc.
Qed.

Lemma all_marks_uint (d : Decimal.uint) :
  all_marks (NilEmpty.string_of_uint d) = true.
Proof.
  induction d; [reflexivity| | | | | | | | | |];
    cbn [NilEmpty.string_of_uint]; unfold all_marks in *;
    cbn [list_ascii_of_string forallb]; rewrite IHd; reflexivity.
Qed.

Lemma all_marks_uint0 (d : Decimal.uint) :
  all_marks (NilZero.string_of_uint d) = true.
Proof. destruct d; try reflexivity; apply all_marks_uint. Qed.

Lemma all_marks_str (z : Z) : all_marks (str z) = true.
Proof.
  unfold str, NilZero.string_of_int.
  destruct (Z.to_int z) as [d|d]; [apply all_marks_uint0|].
  change (String "-" (NilZero.string_of_uint d))
    with ("-" ++ NilZero.string_of_uint d)%string.
  rewrite all_marks_app, all_marks_uint0. reflexivity.
Qed.

Lemma all_marks_zfill (w : nat) (z : Z) : all_marks (zfill w z) = true.
Proof.
  unfold zfill. rewrite all_marks_app, all_marks_str, andb_true_r.
  unfold all_marks. rewrite list_ascii_of_string_of_list_ascii.
  induction (w - String.length (str z)) as [|n IH]; [reflexivity|].
  simpl. exact IH.
Qed.

Lemma all_marks_strftime (fmt : list directive) (dt : datetime) :
  all_marks (strftime fmt dt) = true.
Proof.
  unfold strftime. induction fmt as [|d fmt IH]; [reflexivity|].
  cbn [map String.concat].
  destruct (map (strftime_field dt) fmt) as [|x xs] eqn:E.
  - destruct d; apply all_marks_zfill.
  - change (String.concat "" (strftime_field dt d :: x :: xs))
      with (strftime_field dt d ++ "" ++ String.concat "" (x :: xs))%string.
    rewrite !all_marks_app, IH. destruct d; cbn [strftime_field];
      now rewrite all_marks_zfill.
Qed.

Section Marks.
Context {platform : Platform}.

Lemma all_marks_time_val (key : time_key) (dt : datetime) (g : game)
  (time_val : string) :
  key <> tf_game_id ->
  time_val_of key dt g = Ok time_val ->
  all_marks time_val = true.
Proof.
  intros Hk E. destruct key; cbn [time_val_of] in E;
    try (inversion E; subst; apply all_marks_strftime);
    try (now elim Hk).
  - destruct (Datetime.timestamp dt) as [t|e]; [|discriminate E].
    cbn [rbind] in E. destruct (int_of_float t); [|discriminate E].
    cbn [rbind] in E. inversion E. apply all_marks_str.
  - destruct (Datetime.timestamp dt) as [t|e]; [|discriminate E].
    cbn [rbind] in E. destruct (int_of_float _); [|discriminate E].
    cbn [rbind] in E. inversion E. apply all_marks_str.
  - inversion E. apply all_marks_str.
Qed.

End Marks.

Lemma has_mark_app (a b : string) :
  has_mark (a ++ b)%string = has_mark a || has_mark b.
Proof.
  unfold has_mark. induction a as [|c a IH]; [reflexivity|].
  simpl. rewrite IH. now rewrite orb_assoc.
Qed.

Lemma marks_have_mark (s : string) :
  all_marks s = true -> truthy s = true -> has_mark s = true.
Proof.
  destruct s as [|c s]; [discriminate 2|]. unfold all_marks, has_mark.
  simpl. intros H _. apply andb_true_iff in H. now rewrite (proj1 H).
Qed.

Lemma name_has_no_mark (k : time_key) : has_mark (time_key_name k) = false.
Proof. now destruct k. Qed.

Lemma lacks_app (c : ascii) (a b : string) :
  lacks c (a ++ b)%string = lacks c a && lacks c b.
Proof.
  unfold lacks. induction a as [|x a IH]; [reflexivity|].
  simpl. rewrite IH. now rewrite andb_assoc.
Qed.

Lemma marks_lack (c : ascii) (s : string) :
  is_mark c = false -> all_marks s = true -> lacks c s = true.
Proof.
  intros Hc. unfold all_marks, lacks. induction s as [|x s IH]; [reflexivity|].
  simpl. intros H. apply andb_true_iff in H. destruct H as [Hx Hs].
  rewrite (IH Hs), andb_true_r.
  destruct (Ascii.eqb x c) eqn:E; [|reflexivity].
  apply Ascii.eqb_eq in E. subst x. congruence.
Qed.

Lemma lacks_contains (c : ascii) (rest s : string) :
  lacks c s = true -> contains (String c rest) s = false.
Proof.
  unfold lacks. induction s as [|x s IH]; [reflexivity|].
  simpl. intros H. apply andb_true_iff in H. destruct H as [Hx Hs].
  rewrite (IH Hs), orb_false_r.
  destruct (Ascii.ascii_dec c x) as [->|Hne].
  - now rewrite Ascii.eqb_refl in Hx.
  - reflexivity.
Qed.

Lemma plain_salts_in cfg secret salt_format salt :
  plain_salts cfg = true ->
  In secret (common_secrets cfg) ->
  In salt_format (salt_formats cfg) ->
  format salt_format secret = Ok salt ->
  plain_salt salt = true.
Proof.
  intros P Hs Hf E. unfold plain_salts in P.
  rewrite forallb_forall in P. specialize (P secret Hs).
  rewrite forallb_forall in P. specialize (P salt_format Hf).
  now rewrite E in P.
Qed.

Lemma plain_salt_not_name salt k :
  plain_salt salt = true -> String.eqb salt (time_key_name k) = false.
Proof.
  unfold plain_salt. intros H. apply andb_true_iff in H. destruct H as [_ H].
  apply negb_true_iff in H.
  destruct (String.eqb salt (time_key_name k)) eqn:E; [|reflexivity].
  assert (X : existsb (fun k => String.eqb salt (time_key_name k)) time_keys
              = true).
  { apply existsb_exists. exists k. split; [|exact E].
    destruct k; simpl; tauto. }
  congruence.
Qed.

Lemma marked_not_name (s : string) (k : time_key) :
  has_mark s = true -> String.eqb s (time_key_name k) = false.
Proof.
  intros H. destruct (String.eqb s (time_key_name k)) eqn:E; [|reflexivity].
  apply String.eqb_eq in E. rewrite E, name_has_no_mark in H. discriminate H.
Qed.

Section SaltAlone.
Context {platform : Platform}.

(** The inputs of the hypotheses found under a time format other than
    [game_id] hold no capital [T] or [S] and are not names of time
    formats. *)
Lemma found_input_plain cfg sample out found p :
  plain_salts cfg = true ->
  candidate_generation cfg sample = (out, Ok found) ->
  In p found ->
  p_time_format p <> tf_game_id ->
  lacks "T" (p_input p) = true
  /\ lacks "S" (p_input p) = true
  /\ forall k, String.eqb (p_input p) (time_key_name k) = false.
Proof.
  intros P E Hp Hk.
  pose (d := {| gameId := None; timestamp := None; serverSeed := None |}).
  apply (found_iff cfg sample out found d p E) in Hp.
  destruct Hp as (i & ts & seed & dt & tbl & key & time_val & secret
                  & salt_format & salt & test_input & hk & _ & _ & Et & Hkv
                  & Htv & Hs & Hf & Ef & Hi & _ & ->).
  cbn [p_input p_time_format mk_pattern] in *.
  apply (time_formats_time_val_of _ _ _ _ _ Et) in Hkv.
  assert (Hm := all_marks_time_val key dt _ time_val Hk Hkv).
  assert (Hp := plain_salts_in cfg secret salt_format salt P Hs Hf Ef).
  assert (HT : lacks "T" time_val = true) by now apply marks_lack.
  assert (HS : lacks "S" time_val = true) by now apply marks_lack.
  assert (Hh := marks_have_mark time_val Hm Htv).
  pose proof Hp as Hp'. unfold plain_salt in Hp'.
  apply andb_true_iff in Hp'. destruct Hp' as [Hp' _].
  apply andb_true_iff in Hp'. destruct Hp' as [PT PS].
  destruct Hi as [<-|[<-|[<-|[<-|[]]]]].
  - rewrite !lacks_app, HT, HS, PT, PS. repeat split.
    intros k. apply marked_not_name. now rewrite has_mark_app, Hh.
  - rewrite !lacks_app, HT, HS, PT, PS. repeat split.
    intros k. apply marked_not_name. rewrite has_mark_app, Hh.
    apply orb_true_r.
  - rewrite HT, HS. repeat split. intros k. now apply marked_not_name.
  - rewrite PT, PS. repeat split. intros k. now apply plain_salt_not_name.
Qed.

Lemma brute_force_salts_plain : plain_salts brute_force_tables = true.
Proof. vm_compute. reflexivity. Qed.

(** X21.  For every hypothesis that the search finds under one of the
    twelve encodings of the timestamp, the validation does not use the
    time value of the record it tests: the input it hashes is the salt
    alone, so that a validation record counts as a match exactly when its
    seed equals the digest of the salt (or starts with its first sixteen
    characters), whatever its timestamp. *)
Theorem validation_input_is_the_salt (sample : list game)
  (out : list string) (found : list pattern) (p : pattern)
  (hash_type : hash_alg) (match_type : match_kind)
  (seed time_val salt : string) :
  candidate_generation brute_force_tables sample = (out, Ok found) ->
  In p found ->
  p_time_format p <> tf_game_id ->
  choose_input p time_val salt = salt
  /\ pattern_hits hash_type match_type seed time_val salt p
     = comparison_holds seed salt (hash_type, match_type).
Proof.
  intros E Hp Hk.
  destruct (found_input_plain _ _ _ _ _ brute_force_salts_plain E Hp Hk)
    as (HT & HS & Hn).
  assert (Ec : choose_input p time_val salt = salt).
  { unfold choose_input.
    rewrite (lacks_contains "T" "imeSecret" _ HT).
    rewrite (lacks_contains "S" "ecretTime" _ HS).
    now rewrite Hn. }
  split; [exact Ec|]. unfold pattern_hits. rewrite Ec. reflexivity.
Qed.

End SaltAlone.

(* ===================================================================== *)
(** * analyze_time_patterns: what it needs to reach its tests             *)
(* ===================================================================== *)

Lemma complete_games_none (games : list game) :
  complete_games games = None
  <-> exists g, In g games /\ has_both g = true /\ gameId g = None.
Proof.
  induction games as [|g r IH].
  - split; [discriminate | intros (g & [] & _)].
  - cbn [complete_games]. unfold has_both in *.
    destruct (timestamp g) as [ts|] eqn:Et;
      [destruct (serverSeed g) as [seed|] eqn:Es|].
    + destruct (gameId g) as [id|] eqn:Ei.
      * destruct (complete_games r) as [l|].
        -- split; [discriminate|]. intros (g' & [<-|Hg] & Hb & Hi).
           ++ congruence.
           ++ assert (H : Some l = None)
                by (apply IH; exists g'; auto).
              discriminate H.
        -- split; [|reflexivity]. intros _.
           destruct (proj1 IH eq_refl) as (g' & Hg & H).
           exists g'. split; [now right | exact H].
      * split; [|reflexivity]. intros _. exists g.
        rewrite Et, Es. split; [now left | auto].
    + rewrite IH. split; intros (g' & Hg & Hb & Hi).
      * exists g'. split; [now right | auto].
      * destruct Hg as [<-|Hg]; [rewrite Et, Es in Hb; discriminate Hb|].
        exists g'. auto.
    + rewrite IH. split; intros (g' & Hg & Hb & Hi).
      * exists g'. split; [now right | auto].
      * destruct Hg as [<-|Hg]; [rewrite Et in Hb; discriminate Hb|].
        exists g'. auto.
Qed.

Lemma complete_games_length (games : list game)
  (l : list (string * string * string)) :
  complete_games games = Some l ->
  List.length l = count has_both games.
Proof.
  revert l. induction games as [|g r IH]; intros l E.
  - inversion E. reflexivity.
  - cbn [complete_games] in E. rewrite count_cons. unfold has_both at 1.
    destruct (timestamp g) as [ts|]; [destruct (serverSeed g) as [seed|]|];
      try (rewrite (IH l E); reflexivity).
    destruct (gameId g) as [id|]; [|discriminate E].
    destruct (complete_games r) as [l'|]; [|discriminate E].
    inversion E; subst. cbn [List.length]. now rewrite (IH l' eq_refl).
Qed.

Lemma complete_games_pool (games : list game)
  (l : list (string * string * string)) :
  complete_games games = Some l ->
  map fst l = timestamps_seeds games.
Proof.
  revert l. induction games as [|g r IH]; intros l E.
  - inversion E. reflexivity.
  - cbn [complete_games] in E. unfold timestamps_seeds in *.
    cbn [flat_map].
    destruct (timestamp g) as [ts|]; [destruct (serverSeed g) as [seed|]|];
      try (rewrite (IH l E); reflexivity).
    destruct (gameId g) as [id|]; [|discriminate E].
    destruct (complete_games r) as [l'|]; [|discriminate E].
    inversion E; subst. cbn [map fst app]. now rewrite (IH l' eq_refl).
Qed.

Section TimePatternFacts.
Context {platform : Platform} {storage : Storage}.
Variable int_of_str : string -> Z -> option Z.

Lemma binary_seeds_ok (seeds binary : list string) :
  binary_seeds int_of_str seeds = Ok binary ->
  List.length binary = List.length seeds
  /\ Forall (fun seed => is_hex int_of_str seed = true) seeds.
Proof.
  revert binary. induction seeds as [|seed r IH]; intros binary E.
  - inversion E. split; [reflexivity | constructor].
  - cbn [binary_seeds] in E. unfold is_hex.
    destruct (int_of_str seed 16) as [z|] eqn:Ez; [|discriminate E].
    destruct (binary_seeds int_of_str r) as [l|e]; [|discriminate E].
    cbn [rbind] in E. inversion E; subst.
    destruct (IH l eq_refl) as [L F]. split; [simpl; now rewrite L|].
    constructor; [now rewrite Ez | exact F].
Qed.

Lemma parse_all_ok (timestamps : list string) (dts : list datetime) :
  parse_all timestamps = Ok dts ->
  Forall (fun ts => fromisoformat ts <> None) timestamps.
Proof.
  revert dts. induction timestamps as [|ts r IH]; intros dts E.
  - constructor.
  - cbn [parse_all] in E.
    destruct (fromisoformat ts) as [dt|] eqn:Ed; [|discriminate E].
    destruct (parse_all r) as [l|e]; [|discriminate E].
    constructor; [congruence | exact (IH l eq_refl)].
Qed.

(** The method with games in memory. *)
Lemma analyze_time_patterns_with_games (self : analyzer) :
  games self <> [] ->
  analyze_time_patterns_start int_of_str self
  = (["Analyzing time patterns in "
      ++ str (Z.of_nat (List.length (games self))) ++ " games..."]%string,
     match time_pattern_lists int_of_str (games self) with
     | inl e => inl e
     | inr lists => inr (Some lists, Listed self)
     end).
Proof.
  intros Hg. unfold analyze_time_patterns_start.
  destruct (games self) as [|g gs] eqn:Eg; [now elim Hg|].
  unfold ret. cbv beta iota zeta. rewrite Eg. reflexivity.
Qed.

(** The method reaches its tests only with a list in [self.games]. *)
Lemma tests_on_listed (self : analyzer) (st : state) (out : list string)
  (lists : time_pattern_inputs) :
  analyze_time_patterns_start int_of_str self = (out, inr (Some lists, st)) ->
  exists self', st = Listed self'.
Proof.
  unfold analyze_time_patterns_start.
  destruct (match games self with
            | [] => load_data self
            | _ :: _ => ret (true, Listed self)
            end) as [o [[[|] [s|p v]]|e]]; cbv beta iota zeta;
    try (intros E; now inversion E).
  destruct (time_pattern_lists int_of_str (games s)); intros E; inversion E.
  now exists s.
Qed.

(** X22.  [analyze_time_patterns] requires a ['gameId'] of every game
    that carries both a timestamp and a seed: on an analyzer that holds
    games, one such game without an id makes it raise [KeyError] right
    after its banner.  (The search of [brute_force_seed_generation]
    accepts such games.) *)
Theorem time_patterns_need_game_id (self : analyzer) (g : game) :
  games self <> [] ->
  In g (games self) ->
  has_both g = true ->
  gameId g = None ->
  analyze_time_patterns_start int_of_str self
  = (["Analyzing time patterns in "
      ++ str (Z.of_nat (List.length (games self))) ++ " games..."]%string,
     inl (KeyError "gameId")).
Proof.
  intros Hg Hin Hb Hi. rewrite (analyze_time_patterns_with_games self Hg).
  unfold time_pattern_lists.
  assert (E : complete_games (games self) = None)
    by (apply complete_games_none; eauto).
  now rewrite E.
Qed.

(** X23.  When no game carries both a timestamp and a seed,
    [analyze_time_patterns], on an analyzer that holds games, raises
    [IndexError] right after its banner: it evaluates [binary_seeds[0]] on
    an empty list. *)
Theorem time_patterns_need_a_complete_game (self : analyzer) :
  games self <> [] ->
  count has_both (games self) = 0 ->
  analyze_time_patterns_start int_of_str self
  = (["Analyzing time patterns in "
      ++ str (Z.of_nat (List.length (games self))) ++ " games..."]%string,
     inl (Builtin IndexError)).
Proof.
  intros Hg Z0. rewrite (analyze_time_patterns_with_games self Hg).
  unfold time_pattern_lists.
  destruct (complete_games (games self)) as [l|] eqn:E.
  - assert (L := complete_games_length _ _ E). rewrite Z0 in L.
    apply length_zero_iff_nil in L. subst l. reflexivity.
  - apply complete_games_none in E. destruct E as (g & Hin & Hb & _).
    assert (H : count has_both (games self) >= 1).
    { clear -Hin Hb. induction (games self) as [|x r IH]; [destruct Hin|].
      rewrite count_cons. destruct Hin as [<-|Hin]; [rewrite Hb; lia|].
      specialize (IH Hin). lia. }
    lia.
Qed.

(** X24.  [analyze_time_patterns] reaches its statistical tests only when
    every game that carries both a timestamp and a seed also carries an
    id, has a timestamp that parses and a seed that reads as a
    hexadecimal number, and there is at least one such game; it has then
    built one binary string per seed. *)
Theorem time_patterns_reach_tests (self self' : analyzer)
  (out : list string) (lists : time_pattern_inputs) :
  analyze_time_patterns_start int_of_str self
  = (out, inr (Some lists, Listed self')) ->
  (forall g, In g (games self') -> has_both g = true -> gameId g <> None)
  /\ tp_seeds lists = map snd (timestamps_seeds (games self'))
  /\ Forall (fun ts => fromisoformat ts <> None)
            (map fst (timestamps_seeds (games self')))
  /\ tp_seeds lists <> []
  /\ Forall (fun seed => is_hex int_of_str seed = true) (tp_seeds lists)
  /\ List.length (tp_binary_seeds lists) = List.length (tp_seeds lists).
Proof.
  unfold analyze_time_patterns_start.
  destruct (match games self with
            | [] => load_data self
            | _ :: _ => ret (true, Listed self)
            end) as [o [[[|] [s|p v]]|e]]; cbv beta iota zeta;
    try (intros E; now inversion E).
  unfold time_pattern_lists.
  destruct (complete_games (games s)) as [l|] eqn:Ec;
    [|intros E; inversion E].
  destruct (parse_all (map (fun c => fst (fst c)) l)) as [dts|e] eqn:Ep;
    [|intros E; inversion E].
  cbn [raise_or].
  destruct (timestamps_of dts) as [epochs|e]; [|intros E; inversion E].
  cbn [raise_or].
  destruct (seed_time_patterns (combine l dts)) as [found|e];
    [|intros E; inversion E].
  cbn [raise_or].
  destruct (binary_seeds int_of_str (map (fun c => snd (fst c)) l))
    as [binary|e] eqn:Eb; [|intros E; inversion E].
  cbn [raise_or].
  destruct binary as [|b bs]; [intros E; inversion E|].
  intros E. inversion E; subst. clear E. cbn [tp_seeds tp_binary_seeds].
  destruct (binary_seeds_ok _ _ Eb) as [L F].
  split.
  { intros g Hin Hb Hi.
    assert (N : complete_games (games self') = None)
      by (apply complete_games_none; eauto).
    congruence. }
  rewrite <- (complete_games_pool _ _ Ec), !map_map.
  split; [reflexivity|].
  split; [exact (parse_all_ok _ _ Ep)|].
  split; [|split; [exact F | exact L]].
  intros En. rewrite En in L. discriminate L.
Qed.

End TimePatternFacts.

(* ===================================================================== *)
(** * The further properties on concrete data                             *)
(* ===================================================================== *)

Section Instances.
#[local] Existing Instance utc_platform.
#[local] Existing Instance Demo.storage.

Lemma seeded_validation :
  hold_out_validation [Demo.seeded; Demo.next_day] 1 [Demo.seeded_pattern]
  = ([newline ++ "Validating patterns on remaining games...";
      newline ++ "Validation results:";
      "Pattern: date + rugs.fun_salt with sha256 (exact)";
      "  Success rate: 0/1 = 0.00%"]%string,
     Ok [(Demo.seeded_key,
          {| matches := 0; total := 1;
             success_rate := PyFloat (S754_zero false) |})]).
Proof. vm_compute. reflexivity. Qed.

Lemma recorded_hypothesis_matches_witness :
  comparison_holds (p_seed Demo.seeded_pattern) (p_input Demo.seeded_pattern)
                   (p_hash_type Demo.seeded_pattern,
                    p_match_type Demo.seeded_pattern) = true
  /\ In (p_secret Demo.seeded_pattern) (common_secrets brute_force_tables)
  /\ In (p_salt_format Demo.seeded_pattern) (salt_formats brute_force_tables)
  /\ exists time_val salt,
       truthy time_val = true
       /\ format (p_salt_format Demo.seeded_pattern)
                 (p_secret Demo.seeded_pattern) = Ok salt
       /\ In (p_input Demo.seeded_pattern) (test_inputs time_val salt).
Proof.
  apply (recorded_hypothesis_matches brute_force_tables [Demo.seeded] _
           [Demo.seeded_pattern] Demo.seeded_pattern seeded_generation).
  simpl; tauto.
Defined.

Lemma one_line_per_hypothesis_witness :
  List.length ["MATCH! Seed e1d42e41f4... = SHA256(20240101rugs.fun_salt)"]
  = List.length [Demo.seeded_pattern].
Proof.
  apply (one_line_per_hypothesis brute_force_tables [Demo.seeded] _ _
           seeded_generation).
Defined.

Lemma hypotheses_ordered_by_record_witness :
  StronglySorted le (map p_index [Demo.seeded_pattern]).
Proof.
  apply (hypotheses_ordered_by_record brute_force_tables [Demo.seeded] _ _
           seeded_generation).
Defined.

Lemma sample_without_complete_record_witness :
  brute_force_seed_generation Cases.only_unrevealed 10
  = (["Attempting to brute force seed generation algorithm..."],
     Ok (Some [], Listed Cases.only_unrevealed)).
Proof.
  apply (sample_without_complete_record Demo.storage Cases.only_unrevealed 10).
  - discriminate.
  - reflexivity.
Defined.

Lemma validation_counts_bounded_witness :
  0 <= 1 /\ 1 <= 100.
Proof.
  apply (validation_counts_bounded [Demo.seeded; Demo.next_day] 1
           [Demo.seeded_pattern] _ _ Demo.seeded_key
           {| matches := 0; total := 1;
              success_rate := PyFloat (S754_zero false) |}
           seeded_validation).
  simpl; tauto.
Defined.

Lemma groups_partition_hypotheses_witness :
  NoDup (map fst (pattern_groups [Demo.seeded_pattern]))
  /\ exists ps, In (Demo.seeded_key, ps) (pattern_groups [Demo.seeded_pattern])
                /\ In Demo.seeded_pattern ps.
Proof.
  destruct (groups_partition_hypotheses [Demo.seeded_pattern])
    as (N & H & _).
  split; [exact N|]. apply (H Demo.seeded_pattern). simpl; tauto.
Defined.

Lemma validation_follows_sample_witness :
  sample_of [Demo.seeded; Demo.next_day; Demo.unrevealed] 1
  ++ validation_games [Demo.seeded; Demo.next_day; Demo.unrevealed] 1
  = slice [Demo.seeded; Demo.next_day; Demo.unrevealed] None
          (Some (1 + 100)%Z).
Proof.
  apply (validation_follows_sample
           [Demo.seeded; Demo.next_day; Demo.unrevealed] 1).
  lia.
Defined.

Lemma one_result_per_key_witness :
  NoDup (map fst [(Demo.seeded_key,
                   {| matches := 0; total := 1;
                      success_rate := PyFloat (S754_zero false) |})])
  /\ forall key,
       In key (map fst [(Demo.seeded_key,
                         {| matches := 0; total := 1;
                            success_rate := PyFloat (S754_zero false) |})])
       <-> exists p, In p [Demo.seeded_pattern] /\ key_of p = key.
Proof.
  refine (one_result_per_key [Demo.seeded; Demo.next_day] 1
            [Demo.seeded_pattern] _ _ _ _ seeded_validation).
  - discriminate.
  - simpl; lia.
Defined.

Lemma load_data_replaces_or_keeps_witness :
  load_data Cases.on_missing_jsonl
  = (["Error loading data: [Errno 2] No such file or directory: 'missing.jsonl'"],
     Ok (false, Listed (set_games Cases.on_missing_jsonl [])))
  /\ load_data Cases.on_missing_json
     = (["Error loading data: [Errno 2] No such file or directory: 'missing.json'"],
        Ok (false, Listed Cases.on_missing_json))
  /\ load_data Cases.on_count_json
     = (["Error loading data: object of type 'int' has no len()"],
        Ok (false, Replaced (Some "count.json") (SInt 5))).
Proof.
  destruct load_data_replaces_or_keeps as (_ & H2 & H3 & _ & H5).
  split; [|split].
  - apply (H2 Cases.on_missing_jsonl "missing.jsonl"); reflexivity.
  - apply (H3 Cases.on_missing_json "missing.json"); try reflexivity.
    left. reflexivity.
  - apply (H5 Cases.on_count_json "count.json" ["5" ++ newline]%string
              (SInt 5)); reflexivity.
Defined.

Lemma second_call_searches_partial_load_witness :
  let kept := set_games Demo.fresh
                        (flat_map (decoded json_loads) [Demo.good_line_1]) in
  brute_force_seed_generation Demo.fresh 10
  = (["Error loading data: " ++ Demo.expecting_value;
      "No data available for analysis"]%string,
     Ok (None, Listed kept))
  /\ brute_force_seed_generation kept 10
     = let run := search brute_force_tables (games kept)
                         (sample_of (games kept) 10) 10 in
       ("Attempting to brute force seed generation algorithm..." :: stdout run,
        match outcome run with
        | Ok found => Ok (Some found, Listed kept)
        | Raise e => Raise e
        end).
Proof.
  apply (second_call_searches_partial_load Demo.fresh "rugs_data.jsonl"
           [Demo.good_line_1] [Demo.good_line_2] Demo.bad_line
           Demo.expecting_value 10).
  - reflexivity.
  - reflexivity.
  - reflexivity.
  - reflexivity.
  - reflexivity.
  - repeat constructor. exists Demo.first_record. vm_compute. reflexivity.
  - vm_compute. reflexivity.
  - vm_compute. discriminate.
Defined.


Lemma quick_analysis_needs_both_keys_witness :
  run_quick_analysis Cases.left_sum
    (Cases.ten_games ++ [Demo.unrevealed]) []
  = ([], [], Some (KeyError "serverSeed")).
Proof.
  apply (proj2 (proj2 (quick_analysis_needs_both_keys Cases.left_sum
                         (Cases.ten_games ++ [Demo.unrevealed]) []))).
  - simpl; lia.
  - intros g Hg. vm_compute in Hg.
    repeat (destruct Hg as [<-|Hg]; [simpl; discriminate|]). destruct Hg.
  - exists Demo.unrevealed. split; [vm_compute; tauto | reflexivity].
Defined.

Lemma ten_games_run :
  run_quick_analysis Cases.left_sum Cases.ten_games []
  = ("Average time between games: 0.00 seconds"
     :: repeat "MATCH FOUND: Seed 8696f8389f... matches date with hash algorithm"
               10,
     repeat Cases.dated_candidate 10, None).
Proof. vm_compute. reflexivity. Qed.

Lemma quick_analysis_appends_at_most_fifty_witness :
  exists new,
    repeat Cases.dated_candidate 10 = [] ++ new
    /\ List.length new <= 50
    /\ List.length
         ("Average time between games: 0.00 seconds"
          :: repeat "MATCH FOUND: Seed 8696f8389f... matches date with hash algorithm"
                    10)
       <= 1 + List.length new
    /\ (@None raised = None ->
        List.length
          ("Average time between games: 0.00 seconds"
           :: repeat "MATCH FOUND: Seed 8696f8389f... matches date with hash algorithm"
                     10)
        = 1 + List.length new)
    /\ @None raised <> Some ZeroDivisionError.
Proof.
  apply (quick_analysis_appends_at_most_fifty Cases.left_sum Cases.ten_games
           [] _ _ None ten_games_run).
Defined.

Lemma quick_candidates_hold_witness :
  exists new,
    repeat Cases.dated_candidate 10 = [] ++ new
    /\ forall c, In c new ->
         exists g dt tbl time_str,
           In g (firstn 10 (slice Cases.ten_games (Some (-50)%Z) None))
           /\ timestamp g = Some (c_timestamp c)
           /\ serverSeed g = Some (c_seed c)
           /\ fromisoformat (c_timestamp c) = Some dt
           /\ quick_time_formats dt = Ok tbl
           /\ In (c_time_format c, time_str) tbl
           /\ explains c time_str.
Proof.
  apply (quick_candidates_hold Cases.left_sum Cases.ten_games [] _ _ None
           ten_games_run).
Defined.

Lemma quick_full_match_is_recorded_witness :
  In Cases.dated_candidate (repeat Cases.dated_candidate 10).
Proof.
  refine (quick_full_match_is_recorded Cases.left_sum Cases.ten_games [] _ _
            Cases.dated "2024-01-01T00:00:00" _ Demo.new_year
            Cases.dated_formats tf_date "20240101" MD5 _ ten_games_run
            _ _ _ _ _ _ _).
  - simpl; lia.
  - simpl; tauto.
  - reflexivity.
  - reflexivity.
  - vm_compute; reflexivity.
  - vm_compute; reflexivity.
  - simpl; tauto.
  - vm_compute; reflexivity.
Defined.

Lemma game_id_analysis_raises_on_hex_ids_witness :
  exists e,
    test_game_id_pattern Cases.int_of_str Cases.with_hex_id
    = (["Analyzing game ID patterns in "
        ++ str (Z.of_nat (List.length (games Cases.with_hex_id)))
        ++ " games..."]%string,
       inl e)
    /\ (e = NameError "pearsonr"
        \/ e = Builtin ValueError \/ e = Builtin OverflowError).
Proof.
  apply (game_id_analysis_raises_on_hex_ids Cases.int_of_str
           Cases.with_hex_id Demo.with_id "20240101-a1b2c3"
           "2024-01-01T00:05:00" "a1b2c3" 10597059).
  - discriminate.
  - simpl; tauto.
  - reflexivity.
  - reflexivity.
  - vm_compute; reflexivity.
  - vm_compute; reflexivity.
  - vm_compute; reflexivity.
Defined.

Lemma without_ids_run :
  test_game_id_pattern Cases.int_of_str Cases.without_ids
  = (["Analyzing game ID patterns in 1 games...";
      newline ++ "=== Game ID Analysis Results ===";
      "Date part patterns:";
      newline ++ "ID part patterns:";
      newline ++ "Sequential IDs: 0 out of -1";
      "Time-ID correlation: 0.0000 (p-value: 1.000000)"]%string,
     inr (Some {| date_patterns := []; id_patterns := [];
                  sequential_count := 0; time_correlation := PyInt 0;
                  time_correlation_p_value := float_of_int 1 |},
          Listed Cases.without_ids)).
Proof. vm_compute. reflexivity. Qed.

Lemma two_dated_run :
  test_game_id_pattern Cases.int_of_str Cases.with_two_dated
  = (["Analyzing game ID patterns in 2 games...";
      newline ++ "=== Game ID Analysis Results ===";
      "Date part patterns:";
      "  - 20240101: 2 occurrences";
      newline ++ "ID part patterns:";
      "  - length_2: 2 occurrences";
      newline ++ "Sequential IDs: 0 out of 1";
      "Time-ID correlation: 0.0000 (p-value: 1.000000)"]%string,
     inr (Some {| date_patterns := [("20240101", 2)];
                  id_patterns := [("length_2", 2)];
                  sequential_count := 0; time_correlation := PyInt 0;
                  time_correlation_p_value := float_of_int 1 |},
          Listed Cases.with_two_dated)).
Proof. vm_compute. reflexivity. Qed.

Lemma game_id_counters_bounded_witness :
  let a := {| date_patterns := [("20240101", 2)];
              id_patterns := [("length_2", 2)];
              sequential_count := 0; time_correlation := PyInt 0;
              time_correlation_p_value := float_of_int 1 |} in
  let comps := components (games Cases.with_two_dated) in
  let hex := count (fun c => is_hex Cases.int_of_str (id_part c)) comps in
  sum_counts (date_patterns a) <= List.length comps
  /\ get_count "hex" (id_patterns a) = hex
  /\ sum_counts (id_patterns a) = List.length comps + hex
  /\ (comps <> [] -> sequential_count a < List.length comps)
  /\ (comps = [] -> sequential_count a = 0)
  /\ time_correlation a = PyInt 0
  /\ time_correlation_p_value a = float_of_int 1.
Proof.
  exact (game_id_counters_bounded Cases.int_of_str Cases.with_two_dated _ _ _
           two_dated_run).
Defined.

Lemma game_id_report_without_components_witness :
  exists before,
    ["Analyzing game ID patterns in 1 games...";
     newline ++ "=== Game ID Analysis Results ===";
     "Date part patterns:";
     newline ++ "ID part patterns:";
     newline ++ "Sequential IDs: 0 out of -1";
     "Time-ID correlation: 0.0000 (p-value: 1.000000)"]%string
    = before
      ++ [(newline ++ "=== Game ID Analysis Results ===")%string;
          "Date part patterns:"%string;
          (newline ++ "ID part patterns:")%string;
          (newline ++ "Sequential IDs: 0 out of -1")%string;
          "Time-ID correlation: 0.0000 (p-value: 1.000000)"%string].
Proof.
  exact (proj2 (proj2 (proj2
           (game_id_report_without_components Cases.int_of_str
              Cases.without_ids _ _ _ without_ids_run eq_refl)))).
Defined.

Lemma collected_rows :
  exists line,
    analysis_data Cases.collected
    = ([line],
       Ok [match game_data 0 Cases.plain_game with
           | inr row => row
           | inl _ => []
           end;
           match game_data 2 (JDict []) with
           | inr row => row
           | inl _ => []
           end]).
Proof. eexists. vm_compute. reflexivity. Qed.

Lemma every_game_is_row_or_warning_witness :
  exists out rows,
    analysis_data Cases.collected = (out, Ok rows)
    /\ List.length rows = count well_shaped Cases.collected
    /\ List.length rows + List.length out = List.length Cases.collected.
Proof. exact (every_game_is_row_or_warning Cases.collected). Defined.

Lemma rows_numbered_by_input_position_witness :
  kept_positions Cases.collected = [0; 2]
  /\ StronglySorted lt (kept_positions Cases.collected).
Proof.
  destruct collected_rows as (line & E).
  split; [reflexivity|].
  exact (proj1 (proj2 (rows_numbered_by_input_position Cases.collected _ _ E))).
Defined.

Lemma validation_input_is_the_salt_witness :
  choose_input Demo.seeded_pattern "20240102" "rugs.fun_salt"
  = "rugs.fun_salt"
  /\ pattern_hits SHA256 exact
       "a55d193cfa4da8b58f2da087f2e7f3427cf2f8c23e4dcfa8f61c5e445cda6994"
       "20240102" "rugs.fun_salt" Demo.seeded_pattern
     = comparison_holds
         "a55d193cfa4da8b58f2da087f2e7f3427cf2f8c23e4dcfa8f61c5e445cda6994"
         "rugs.fun_salt" (SHA256, exact).
Proof.
  apply (validation_input_is_the_salt [Demo.seeded] _ [Demo.seeded_pattern]
           Demo.seeded_pattern SHA256 exact _ "20240102" "rugs.fun_salt"
           seeded_generation).
  - simpl; tauto.
  - discriminate.
Defined.

Lemma time_patterns_need_game_id_witness :
  analyze_time_patterns_start Cases.int_of_str Cases.without_ids
  = (["Analyzing time patterns in "
      ++ str (Z.of_nat (List.length (games Cases.without_ids)))
      ++ " games..."]%string,
     inl (KeyError "gameId")).
Proof.
  apply (time_patterns_need_game_id Cases.int_of_str Cases.without_ids
           Demo.seeded).
  - discriminate.
  - simpl; tauto.
  - reflexivity.
  - reflexivity.
Defined.

Lemma time_patterns_need_a_complete_game_witness :
  analyze_time_patterns_start Cases.int_of_str Cases.only_unrevealed
  = (["Analyzing time patterns in "
      ++ str (Z.of_nat (List.length (games Cases.only_unrevealed)))
      ++ " games..."]%string,
     inl (Builtin IndexError)).
Proof.
  apply (time_patterns_need_a_complete_game Cases.int_of_str
           Cases.only_unrevealed).
  - discriminate.
  - reflexivity.
Defined.

Lemma dated_start :
  exists lists,
    analyze_time_patterns_start Cases.int_of_str Cases.with_dated
    = (["Analyzing time patterns in 1 games..."],
       inr (Some lists, Listed Cases.with_dated))
    /\ tp_seeds lists = ["8696f8389f115a3bbb8208946b990cc1"]
    /\ tp_seed_time_patterns lists
       = [{| c_timestamp := "2024-01-01T00:00:00";
             c_seed := "8696f8389f115a3bbb8208946b990cc1";
             c_time_format := tf_date; c_hash_type := MD5;
             c_match_type := Some "full" |}].
Proof. eexists. vm_compute. repeat split. Qed.

Lemma time_patterns_reach_tests_witness :
  Forall (fun ts => fromisoformat ts <> None)
         (map fst (timestamps_seeds (games Cases.with_dated))).
Proof.
  destruct dated_start as (lists & E & _).
  exact (proj1 (proj2 (proj2 (time_patterns_reach_tests Cases.int_of_str
                                Cases.with_dated _ _ _ E)))).
Defined.

End Instances.
